(** * FlaskForge: a shallow embedding of the generation pipeline

    The repository holds two variants of one generator class:
    [flaskforge.py] (stages guarded by [try]/[except], subprocesses run with
    [check=True]) and [fforge.py] (no guards, no [check], no dependency
    installation).  Both are embedded below: the methods whose text is the
    same in the two files are defined once in [Module Common]; the methods
    that differ are defined in [Module FlaskForge] and [Module FForge].

    Strings are sequences of characters with codes below 256, of which only
    the ASCII range carries whitespace and case information.  The operating
    system (file permissions, child processes, the template directory, the
    Jinja2 renderer) is a [World] of oracles; the generator's own reads and
    writes act on an explicit file-system state. *)

From Stdlib Require Import Ascii String ZArith List Bool Lia.
From stdpp Require Import gmap strings list fin_maps.

Open Scope string_scope.

Set Warnings "-clear-no-such-hyp".

(** ** Python built-ins on [str] *)
Module Py.

(** The double-quote character, for file bodies that contain it. *)
Definition dq : string := String (ascii_of_nat 34) "".

(** [str.isspace] on one character (ASCII range): TAB..CR, FS..US, SPACE. *)
Definition isspace (c : ascii) : bool :=
  let n := nat_of_ascii c in
  ((9 <=? n)%nat && (n <=? 13)%nat) || ((28 <=? n)%nat && (n <=? 31)%nat) || (n =? 32)%nat.

Definition islower (c : ascii) : bool :=
  let n := nat_of_ascii c in (97 <=? n)%nat && (n <=? 122)%nat.

Definition isupper (c : ascii) : bool :=
  let n := nat_of_ascii c in (65 <=? n)%nat && (n <=? 90)%nat.

Definition upper_char (c : ascii) : ascii :=
  if islower c then ascii_of_nat (nat_of_ascii c - 32) else c.

Definition lower_char (c : ascii) : ascii :=
  if isupper c then ascii_of_nat (nat_of_ascii c + 32) else c.

Fixpoint lower (s : string) : string :=
  match s with
  | EmptyString => EmptyString
  | String c r => String (lower_char c) (lower r)
  end.

(** [str.capitalize]: first character upper-cased, all others lower-cased. *)
Definition capitalize (s : string) : string :=
  match s with
  | EmptyString => EmptyString
  | String c r => String (upper_char c) (lower r)
  end.

(** [str.title], the title-casing the specification speaks of: a cased
    character is upper-cased when it follows an uncased one (or starts the
    string) and lower-cased when it follows a cased one. *)
Fixpoint title_from (prev_cased : bool) (s : string) : string :=
  match s with
  | EmptyString => EmptyString
  | String c r =>
      if islower c || isupper c
      then String (if prev_cased then lower_char c else upper_char c) (title_from true r)
      else String c (title_from false r)
  end.

Definition title (s : string) : string := title_from false s.

Fixpoint lstrip (s : string) : string :=
  match s with
  | EmptyString => EmptyString
  | String c r => if isspace c then lstrip r else s
  end.

Fixpoint rstrip (s : string) : string :=
  match s with
  | EmptyString => EmptyString
  | String c r =>
      match rstrip r with
      | EmptyString => if isspace c then EmptyString else String c EmptyString
      | r' => String c r'
      end
  end.

(** [str.strip()] with no argument. *)
Definition strip (s : string) : string := rstrip (lstrip s).

(** [str.split(sep)] for a one-character separator: never returns an empty
    list; the empty string splits into one empty segment. *)
Fixpoint split (sep : ascii) (s : string) : list string :=
  match s with
  | EmptyString => [EmptyString]
  | String c r =>
      if Ascii.eqb c sep then EmptyString :: split sep r
      else match split sep r with
           | h :: t => String c h :: t
           | [] => [String c EmptyString]
           end
  end.

(** [sep.join(l)]. *)
Fixpoint join (sep : string) (l : list string) : string :=
  match l with
  | [] => EmptyString
  | [x] => x
  | x :: r => x +:+ sep +:+ join sep r
  end.

(** Truth value of a [str]: the empty string is false. *)
Definition truthy (s : string) : bool :=
  match s with EmptyString => false | _ => true end.

(** [s.startswith(p)]. *)
Fixpoint startswith (p s : string) : bool :=
  match p, s with
  | EmptyString, _ => true
  | String a p', String b s' => Ascii.eqb a b && startswith p' s'
  | String _ _, EmptyString => false
  end.

(** [sub in s]. *)
Fixpoint contains (sub s : string) : bool :=
  startswith sub s ||
  match s with
  | EmptyString => false
  | String _ r => contains sub r
  end.

Fixpoint count_char (c : ascii) (s : string) : nat :=
  match s with
  | EmptyString => 0
  | String a r => (if Ascii.eqb a c then 1 else 0) + count_char c r
  end.

End Py.

(** ** [posixpath] *)
Module PosixPath.

Definition sep : ascii := "/"%char.

Fixpoint endswith_sep (s : string) : bool :=
  match s with
  | EmptyString => false
  | String c EmptyString => Ascii.eqb c sep
  | String _ r => endswith_sep r
  end.

Definition isabs (s : string) : bool :=
  match s with String c _ => Ascii.eqb c sep | EmptyString => false end.

(** [os.path.join(a, b)]; with more components the library folds this step
    from the left. *)
Definition join (a b : string) : string :=
  if isabs b then b
  else if negb (Py.truthy a) || endswith_sep a then a +:+ b
  else a +:+ "/" +:+ b.

(** [p[:p.rfind('/') + 1]]. *)
Fixpoint head_to_last_sep (p : string) : string :=
  match p with
  | EmptyString => EmptyString
  | String c r =>
      match head_to_last_sep r with
      | EmptyString => if Ascii.eqb c sep then "/" else EmptyString
      | h => String c h
      end
  end.

Fixpoint all_sep (s : string) : bool :=
  match s with
  | EmptyString => true
  | String c r => Ascii.eqb c sep && all_sep r
  end.

Fixpoint rstrip_sep (s : string) : string :=
  match s with
  | EmptyString => EmptyString
  | String c r =>
      match rstrip_sep r with
      | EmptyString => if Ascii.eqb c sep then EmptyString else String c EmptyString
      | r' => String c r'
      end
  end.

(** [os.path.dirname]. *)
Definition dirname (p : string) : string :=
  let head := head_to_last_sep p in
  if Py.truthy head && negb (all_sep head) then rstrip_sep head else head.

(** The component loop of [normpath]; [acc] is [new_comps] reversed. *)
Fixpoint norm_comps (initial_slashes : bool) (acc : list string) (comps : list string)
  : list string :=
  match comps with
  | [] => rev acc
  | comp :: rest =>
      if String.eqb comp "" || String.eqb comp "." then norm_comps initial_slashes acc rest
      else if negb (String.eqb comp "..")
              || (negb initial_slashes && match acc with [] => true | _ => false end)
              || match acc with last :: _ => String.eqb last ".." | [] => false end
      then norm_comps initial_slashes (comp :: acc) rest
      else norm_comps initial_slashes (tl acc) rest
  end.

(** [os.path.normpath]. *)
Definition normpath (path : string) : string :=
  if negb (Py.truthy path) then "."
  else
    let lead :=
      if Py.startswith "/" path then
        if Py.startswith "//" path && negb (Py.startswith "///" path) then "//" else "/"
      else "" in
    let body := Py.join "/" (norm_comps (Py.truthy lead) [] (Py.split sep path)) in
    let res := lead +:+ body in
    if Py.truthy res then res else ".".

(** [os.path.abspath], relative to the process's working directory. *)
Definition abspath (cwd path : string) : string :=
  normpath (if isabs path then path else join cwd path).

Fixpoint drop_common (a b : list string) : list string * list string :=
  match a, b with
  | x :: a', y :: b' => if String.eqb x y then drop_common a' b' else (a, b)
  | _, _ => (a, b)
  end.

(** [os.path.relpath(path, start)]. *)
Definition relpath (cwd path start : string) : string :=
  let comps p := filter (fun x => Py.truthy x = true) (Py.split sep (abspath cwd p)) in
  let '(start_rest, path_rest) := drop_common (comps start) (comps path) in
  let rel_list := (map (fun _ => "..") start_rest ++ path_rest)%list in
  match rel_list with
  | [] => "."
  | x :: r => fold_left join r x
  end.

End PosixPath.

(** ** The process's environment and the effects of the generator *)
Module Sys.

(** [logging] levels with their numeric values. *)
Inductive Level := CRITICAL | ERROR | WARNING | INFO | DEBUG.

Definition levelno (l : Level) : Z :=
  match l with
  | CRITICAL => 50 | ERROR => 40 | WARNING => 30 | INFO => 20 | DEBUG => 10
  end%Z.

(** The first argument of [subprocess.run]: a list of strings or one string. *)
Inductive Args := ArgList (l : list string) | ArgStr (s : string).

Record Invocation := {
  inv_args : Args;
  inv_shell : bool;
  inv_cwd : option string
}.

(** What the operating system answers to a launch: the child's return code,
    or no child at all (missing executable, missing working directory). *)
Inductive ProcOutcome := Exited (returncode : Z) | LaunchFailed.

Inductive Exn :=
| OSError (path : string)
| CalledProcessError (inv : Invocation) (returncode : Z)
| AttributeError (attr : string)
| TypeError
| TemplateError.

Definition is_OSError (e : Exn) : bool :=
  match e with OSError _ => true | _ => false end.

Definition is_CalledProcessError (e : Exn) : bool :=
  match e with CalledProcessError _ _ => true | _ => false end.

(** Everything the generator asks of its surroundings: [os.getcwd()], the
    module's [__file__], [platform.system()], the fate of each launch, the
    paths on which [makedirs], [open(.., 'r')] and [open(.., 'w')] are
    refused, the [(root, files)] pairs [os.walk] yields for a directory (the
    listing is taken when the walk starts), the Jinja2 renderer ([None] when
    it raises) and the text of an exception in a log message.
    [proc_outcome] sees the launches made so far, so one command may answer
    differently when it is run again. *)
Record World := {
  getcwd : string;
  module_file : string;
  platform_system : string;
  proc_outcome : list Invocation -> Invocation -> ProcOutcome;
  mkdir_denied : string -> bool;
  read_denied : string -> bool;
  write_denied : string -> bool;
  os_walk : string -> list (string * list string);
  jinja_render : string -> string -> option string;
  str_exc : Exn -> string
}.

(** The stages [run] calls, in the specification's names. *)
Inductive Stage :=
| createDirectories | createEnvironment | installDependencies
| renderTemplateSet | generateBlueprints | writeInitFile | writeModelsFile
| writeDockerFiles | writeCiFiles | initializeDatabase | runPostGenHooks.

(** The mutable part of a run: the [activate_command] attribute (absent
    until it is assigned), the directories and files the generator has made,
    the subprocess launches and the logger calls in order, and the stages
    entered so far (a ghost trace kept by [call]). *)
Record State := {
  activate_command : option string;
  fs_dirs : gset string;
  fs_files : gmap string string;
  procs : list Invocation;
  log : list (Level * string);
  stages : list Stage
}.

Definition set_activate (p : string) (st : State) : State :=
  {| activate_command := Some p; fs_dirs := fs_dirs st; fs_files := fs_files st;
     procs := procs st; log := log st; stages := stages st |}.

Definition set_dirs (d : gset string) (st : State) : State :=
  {| activate_command := activate_command st; fs_dirs := d; fs_files := fs_files st;
     procs := procs st; log := log st; stages := stages st |}.

Definition set_files (m : gmap string string) (st : State) : State :=
  {| activate_command := activate_command st; fs_dirs := fs_dirs st; fs_files := m;
     procs := procs st; log := log st; stages := stages st |}.

Definition add_proc (i : Invocation) (st : State) : State :=
  {| activate_command := activate_command st; fs_dirs := fs_dirs st;
     fs_files := fs_files st; procs := (procs st ++ [i])%list; log := log st;
     stages := stages st |}.

Definition add_log (r : Level * string) (st : State) : State :=
  {| activate_command := activate_command st; fs_dirs := fs_dirs st;
     fs_files := fs_files st; procs := procs st; log := (log st ++ [r])%list;
     stages := stages st |}.

Definition add_stage (s : Stage) (st : State) : State :=
  {| activate_command := activate_command st; fs_dirs := fs_dirs st;
     fs_files := fs_files st; procs := procs st; log := log st;
     stages := (stages st ++ [s])%list |}.

Inductive Outcome (A : Type) := Ok (a : A) | Raised (e : Exn).
Arguments Ok {A} a.
Arguments Raised {A} e.

(** A method body: it runs on a state and either returns or raises, keeping
    the effects made before the exception. *)
Definition M (A : Type) : Type := State -> Outcome A * State.

#[global] Instance M_ret : MRet M := fun A a st => (Ok a, st).

#[global] Instance M_bind : MBind M := fun A B k m st =>
  match m st with
  | (Ok a, st') => k a st'
  | (Raised e, st') => (Raised e, st')
  end.

Definition raise {A : Type} (e : Exn) : M A := fun st => (Raised e, st).

(** [try: body / except C as e: handler e], where [catches] decides
    membership in the class [C]. *)
Definition try_except {A : Type} (body : M A) (catches : Exn -> bool)
    (handler : Exn -> M A) : M A := fun st =>
  match body st with
  | (Raised e, st') => if catches e then handler e st' else (Raised e, st')
  | r => r
  end.

Fixpoint for_each {A : Type} (l : list A) (body : A -> M unit) : M unit :=
  match l with
  | [] => mret tt
  | x :: r => body x;; for_each r body
  end.

(** [run] entering a stage. *)
Definition call (s : Stage) (m : M unit) : M unit := fun st => m (add_stage s st).

Section Primitives.
Variable w : World.

(** [os.makedirs(p, exist_ok=True)]. *)
Definition os_makedirs (p : string) : M unit := fun st =>
  if mkdir_denied w p then (Raised (OSError p), st)
  else (Ok tt, set_dirs ({[p]} ∪ fs_dirs st) st).

(** [open(p, 'r')]. *)
Definition open_r (p : string) : M unit := fun st =>
  if read_denied w p then (Raised (OSError p), st)
  else match fs_files st !! p with
       | Some _ => (Ok tt, st)
       | None => (Raised (OSError p), st)
       end.

(** [open(p, 'w')]: the file is created or truncated. *)
Definition open_w (p : string) : M unit := fun st =>
  if write_denied w p then (Raised (OSError p), st)
  else (Ok tt, set_files (<[p := ""]> (fs_files st)) st).

(** [f.read()] on a file opened for reading. *)
Definition file_read (p : string) : M string := fun st =>
  (Ok (default "" (fs_files st !! p)), st).

(** [f.write(s)] on a file opened for writing. *)
Definition file_write (p s : string) : M unit := fun st =>
  (Ok tt, set_files (<[p := default "" (fs_files st !! p) +:+ s]> (fs_files st)) st).

(** [with open(p, 'w') as f: f.write(s)]. *)
Definition write_text (p s : string) : M unit := open_w p;; file_write p s.

(** [Template(src).render(project_name=name)]. *)
Definition render_template (src name : string) : M string :=
  match jinja_render w src name with
  | Some out => mret out
  | None => raise TemplateError
  end.

(** [subprocess.run(args, shell=..., check=..., cwd=...)]. *)
Definition subprocess_run (args : Args) (shell check : bool) (cwd : option string)
  : M Z := fun st =>
  let inv := {| inv_args := args; inv_shell := shell; inv_cwd := cwd |} in
  match proc_outcome w (procs st) inv with
  | LaunchFailed =>
      (Raised (OSError (match args with ArgStr s => s | ArgList l => Py.join " " l end)),
       add_proc inv st)
  | Exited rc =>
      if check && negb (rc =? 0)%Z
      then (Raised (CalledProcessError inv rc), add_proc inv st)
      else (Ok rc, add_proc inv st)
  end.

End Primitives.

Definition logger_info (msg : string) : M unit := fun st => (Ok tt, add_log (INFO, msg) st).
Definition logger_error (msg : string) : M unit := fun st => (Ok tt, add_log (ERROR, msg) st).

(** Reading [self.activate_command]. *)
Definition get_activate_command : M string := fun st =>
  match activate_command st with
  | Some p => (Ok p, st)
  | None => (Raised (AttributeError "activate_command"), st)
  end.

Definition assign_activate_command (p : string) : M unit := fun st =>
  (Ok tt, set_activate p st).

End Sys.

(** ** Methods that read the same in [flaskforge.py] and [fforge.py] *)
Module Common.
Import Sys.

(** The values the constructor receives: the [config] dictionary of
    [flaskforge.py], the positional arguments of [fforge.py].  [venv_dir] is
    [None] when the option is not given. *)
Record Config := {
  cfg_project_name : string;
  cfg_blueprints : list string;
  cfg_dependencies : list string;
  cfg_verbosity : Z;
  cfg_template : string;
  cfg_config_path : string;
  cfg_post_gen_hooks : string;
  cfg_venv_dir : option string
}.

(** The attributes [__init__] assigns; [log_level] is the level
    [setup_logging] hands to [logging.basicConfig]. *)
Record Forge := {
  project_name : string;
  blueprints : list string;
  dependencies : list string;
  verbosity : Z;
  template : string;
  config_path : string;
  post_gen_hooks : string;
  project_path : string;
  venv_dir : string;
  log_level : Level
}.

(** The dictionary [log_levels] of [setup_logging]. *)
Definition log_levels (v : Z) : option Level :=
  if (v =? 0)%Z then Some CRITICAL
  else if (v =? 1)%Z then Some ERROR
  else if (v =? 2)%Z then Some WARNING
  else if (v =? 3)%Z then Some INFO
  else if (v =? 4)%Z then Some DEBUG
  else None.

(** [log_levels.get(self.verbosity, logging.INFO)]. *)
Definition setup_logging (verbosity : Z) : Level :=
  default INFO (log_levels verbosity).

(** [os.path.join(project_path, '.fforge') or os.path.join(project_path, venv_dir)]:
    the right operand is evaluated only when the left one is the empty
    string, and joining with [None] raises. *)
Definition choose_venv_dir (project_path : string) (configured : option string)
  : Outcome string :=
  let fixed := PosixPath.join project_path ".fforge" in
  if Py.truthy fixed then Ok fixed
  else match configured with
       | Some d => Ok (PosixPath.join project_path d)
       | None => Raised TypeError
       end.

Definition __init__ (w : World) (c : Config) : Outcome Forge :=
  let project_path := PosixPath.join (getcwd w) (cfg_project_name c) in
  match choose_venv_dir project_path (cfg_venv_dir c) with
  | Raised e => Raised e
  | Ok vd =>
      Ok {| project_name := cfg_project_name c;
            blueprints := cfg_blueprints c;
            dependencies := cfg_dependencies c;
            verbosity := cfg_verbosity c;
            template := cfg_template c;
            config_path := cfg_config_path c;
            post_gen_hooks := cfg_post_gen_hooks c;
            project_path := project_path;
            venv_dir := vd;
            log_level := setup_logging (cfg_verbosity c) |}
  end.

(** The text of a triple-quoted literal whose every line ends in a newline. *)
Definition text (ls : list string) : string :=
  fold_right (fun l acc => l +:+ String (ascii_of_nat 10) acc) "" ls.

Section Methods.
Variable w : World.
Variable self : Forge.

Definition template_path : string :=
  PosixPath.join (PosixPath.join (PosixPath.dirname (module_file w)) "templates")
    (template self).

(** Where one template file is read and where it is written. *)
Definition src_path (root file : string) : string := PosixPath.join root file.

Definition dest_path (root file : string) : string :=
  PosixPath.join (project_path self)
    (PosixPath.relpath (getcwd w) (PosixPath.join root file) template_path).

(** The body of the inner loop of [create_base_files]. *)
Definition render_file (root file : string) : M unit :=
  os_makedirs w (PosixPath.dirname (dest_path root file));;
  open_r w (src_path root file);;
  open_w w (dest_path root file);;
  content ← file_read (src_path root file);
  out ← render_template w content (project_name self);
  file_write (dest_path root file) out.

Definition create_base_files : M unit :=
  for_each (os_walk w template_path) (fun entry =>
    for_each entry.2 (fun file => render_file entry.1 file));;
  logger_info "Base files created from template".

Definition routes_py (bp : string) : string :=
  text [ "from flask import Blueprint, render_template";
         bp +:+ " = Blueprint('" +:+ bp
            +:+ "', __name__, template_folder='templates', static_folder='static')";
         "";
         "@" +:+ bp +:+ ".route('/" +:+ bp +:+ "_home')";
         "def " +:+ bp +:+ "_home():";
         "    return render_template('" +:+ bp +:+ "/" +:+ bp +:+ "_home.html')" ].

Definition init_py (bp : string) : string := "from .routes import " +:+ bp.

Definition forms_py : string :=
  text [ "from flask_wtf import FlaskForm";
         "from wtforms import StringField, PasswordField, SubmitField";
         "from wtforms.validators import DataRequired" ].

Definition home_html (bp : string) : string :=
  text [ "{% extends " +:+ Py.dq +:+ "base.html" +:+ Py.dq +:+ " %}";
         "{% block content %}";
         "<h1>Welcome to the " +:+ Py.capitalize bp +:+ " Home Page</h1>";
         "{% endblock %}" ].

Definition create_blueprint_files (bp bp_dir : string) : M unit :=
  write_text w (PosixPath.join bp_dir "routes.py") (routes_py bp);;
  write_text w (PosixPath.join bp_dir "__init__.py") (init_py bp);;
  write_text w (PosixPath.join bp_dir "forms.py") forms_py;;
  write_text w (PosixPath.join (PosixPath.join bp_dir "templates") (bp +:+ "_home.html"))
    (home_html bp).

(** The body of the loop of [create_blueprints], after [bp = bp.strip()]. *)
Definition create_blueprint (bp : string) : M unit :=
  if Py.truthy bp then
    let bp_dir := PosixPath.join (PosixPath.join (project_path self) (project_name self)) bp in
    os_makedirs w bp_dir;;
    os_makedirs w (PosixPath.join bp_dir "templates");;
    os_makedirs w (PosixPath.join bp_dir "static");;
    create_blueprint_files bp bp_dir
  else mret tt.

Definition create_blueprints : M unit :=
  for_each (blueprints self) (fun bp => create_blueprint (Py.strip bp));;
  logger_info "Blueprints created".

Definition app_init_py : string :=
  text [ "from flask import Flask";
         "from flask_sqlalchemy import SQLAlchemy";
         "from flask_migrate import Migrate";
         "";
         "db = SQLAlchemy()";
         "migrate = Migrate()";
         "";
         "def create_app():";
         "    app = Flask(__name__)";
         "    app.config.from_pyfile('config.py')";
         "";
         "    db.init_app(app)";
         "    migrate.init_app(app, db)";
         "";
         "    from . import routes";
         "    app.register_blueprint(routes.main_bp)";
         "";
         "    return app" ].

Definition create_init_py : M unit :=
  write_text w
    (PosixPath.join (PosixPath.join (project_path self) (project_name self)) "__init__.py")
    app_init_py;;
  logger_info "Created __init__.py for Flask app".

Definition models_py : string :=
  text [ "from . import db";
         "";
         "class User(db.Model):";
         "    id = db.Column(db.Integer, primary_key=True)";
         "    username = db.Column(db.String(64), index=True, unique=True)";
         "    email = db.Column(db.String(120), index=True, unique=True)";
         "    password_hash = db.Column(db.String(128))";
         "";
         "    def __repr__(self):";
         "        return f'<User {self.username}>'" ].

Definition create_models_py : M unit :=
  write_text w
    (PosixPath.join (PosixPath.join (project_path self) (project_name self)) "models.py")
    models_py;;
  logger_info "Created models.py".

Definition dockerfile : string :=
  text [ "FROM python:3.8-slim-buster";
         "WORKDIR /app";
         "COPY requirements.txt requirements.txt";
         "RUN pip install -r requirements.txt";
         "COPY . .";
         "CMD [" +:+ Py.dq +:+ "flask" +:+ Py.dq +:+ ", " +:+ Py.dq +:+ "run" +:+ Py.dq
           +:+ ", " +:+ Py.dq +:+ "--host=0.0.0.0" +:+ Py.dq +:+ "]" ].

Definition docker_compose_yml : string :=
  text [ "version: '3'";
         "services:";
         "  web:";
         "    build: .";
         "    ports:";
         "      - " +:+ Py.dq +:+ "5000:5000" +:+ Py.dq;
         "    volumes:";
         "      - .:/app";
         "    environment:";
         "      FLASK_ENV: development";
         "      FLASK_APP: main.py" ].

Definition create_docker_files : M unit :=
  write_text w (PosixPath.join (project_path self) "Dockerfile") dockerfile;;
  write_text w (PosixPath.join (project_path self) "docker-compose.yml") docker_compose_yml;;
  logger_info "Created Docker files".

Definition python_app_yml : string :=
  text [ "name: Python application";
         "";
         "on:";
         "  push:";
         "    branches: [ main ]";
         "  pull_request:";
         "    branches: [ main ]";
         "";
         "jobs:";
         "  build:";
         "    runs-on: ubuntu-latest";
         "    strategy:";
         "      matrix:";
         "        python-version: [3.6, 3.7, 3.8, 3.9]";
         "";
         "    steps:";
         "    - uses: actions/checkout@v2";
         "    - name: Set up Python";
         "      uses: actions/setup-python@v2";
         "      with:";
         "        python-version: ${{ matrix.python-version }}";
         "    - name: Install dependencies";
         "      run: |";
         "        python -m pip install --upgrade pip";
         "        pip install -r requirements.txt";
         "    - name: Test with pytest";
         "      run: |";
         "        pytest" ].

Definition create_ci_cd_files : M unit :=
  let github_dir := PosixPath.join (PosixPath.join (project_path self) ".github") "workflows" in
  os_makedirs w github_dir;;
  write_text w (PosixPath.join github_dir "python-app.yml") python_app_yml;;
  logger_info "Created CI/CD files".

(** The value [create_virtualenv] assigns to [self.activate_command]. *)
Definition activation_prefix : string :=
  if String.eqb (platform_system w) "Windows"
  then PosixPath.join (PosixPath.join (venv_dir self) "Scripts") "activate"
  else "source " +:+ PosixPath.join (PosixPath.join (venv_dir self) "bin") "activate".

End Methods.

(** The command line as [argparse] hands it to [main]. *)
Record CommandLine := {
  arg_project_name : string;
  arg_blueprints : string;
  arg_dependencies : string;
  arg_verbosity : Z;
  arg_template : string;
  arg_config : string;
  arg_post_gen_hooks : string;
  arg_venv_dir : option string
}.

(** [s.split(',') if s else []]. *)
Definition split_list (s : string) : list string :=
  if Py.truthy s then Py.split "," s else [].

Definition config_of (a : CommandLine) : Config :=
  {| cfg_project_name := arg_project_name a;
     cfg_blueprints := split_list (arg_blueprints a);
     cfg_dependencies := split_list (arg_dependencies a);
     cfg_verbosity := arg_verbosity a;
     cfg_template := arg_template a;
     cfg_config_path := arg_config a;
     cfg_post_gen_hooks := arg_post_gen_hooks a;
     cfg_venv_dir := arg_venv_dir a |}.

(** The process's exit status: 0 when [main] returns, 1 when an exception
    reaches the top level. *)
Definition exit_status {A : Type} (r : Outcome A) : Z :=
  match r with Ok _ => 0%Z | Raised _ => 1%Z end.

End Common.

(** ** [flaskforge.py] *)
Module FlaskForge.
Import Sys.
Export Common.

Section Methods.
Variable w : World.
Variable self : Forge.

Definition create_directories : M unit :=
  try_except
    (os_makedirs w (project_path self);;
     os_makedirs w (PosixPath.join (project_path self) (project_name self));;
     os_makedirs w
       (PosixPath.join (PosixPath.join (project_path self) (project_name self)) "templates");;
     os_makedirs w
       (PosixPath.join (PosixPath.join (project_path self) (project_name self)) "static");;
     logger_info ("Directories created for project " +:+ project_name self))
    is_OSError
    (fun e => logger_error ("Error creating directories: " +:+ str_exc w e)).

Definition create_virtualenv : M unit :=
  try_except
    (subprocess_run w (ArgList ["python"; "-m"; "venv"; venv_dir self]) false true None;;
     logger_info "Virtual environment created";;
     assign_activate_command (activation_prefix w self))
    is_CalledProcessError
    (fun e => logger_error ("Error creating virtual environment: " +:+ str_exc w e)).

Definition install_dependencies : M unit :=
  match dependencies self with
  | [] => mret tt
  | _ =>
      try_except
        (prefix ← get_activate_command;
         subprocess_run w
           (ArgList [prefix +:+ " && pip install " +:+ Py.join " " (dependencies self)])
           true true None;;
         logger_info "Dependencies installed")
        is_CalledProcessError
        (fun e => logger_error ("Error installing dependencies: " +:+ str_exc w e))
  end.

Definition initialize_database : M unit :=
  try_except
    (p1 ← get_activate_command;
     subprocess_run w (ArgList [p1 +:+ " && flask db init"]) true true
       (Some (project_path self));;
     p2 ← get_activate_command;
     subprocess_run w (ArgList [p2 +:+ " && flask db migrate"]) true true
       (Some (project_path self));;
     p3 ← get_activate_command;
     subprocess_run w (ArgList [p3 +:+ " && flask db upgrade"]) true true
       (Some (project_path self));;
     logger_info "Initialized database")
    is_CalledProcessError
    (fun e => logger_error ("Error initializing database: " +:+ str_exc w e)).

(** The body of the loop of [run_post_gen_hooks]. *)
Definition run_hook (hook : string) : M unit :=
  try_except
    (prefix ← get_activate_command;
     subprocess_run w (ArgStr (prefix +:+ " && " +:+ Py.strip hook)) true true
       (Some (project_path self));;
     mret tt)
    is_CalledProcessError
    (fun e => logger_error
       ("Error running post-generation hook '" +:+ hook +:+ "': " +:+ str_exc w e)).

Definition run_post_gen_hooks : M unit :=
  if Py.truthy (post_gen_hooks self) then
    for_each (Py.split "," (post_gen_hooks self)) run_hook;;
    logger_info "Post-generation hooks executed"
  else mret tt.

Definition run : M unit :=
  call createDirectories create_directories;;
  call createEnvironment create_virtualenv;;
  call installDependencies install_dependencies;;
  call renderTemplateSet (create_base_files w self);;
  call generateBlueprints (create_blueprints w self);;
  call writeInitFile (create_init_py w self);;
  call writeModelsFile (create_models_py w self);;
  call writeDockerFiles (create_docker_files w self);;
  call writeCiFiles (create_ci_cd_files w self);;
  call initializeDatabase initialize_database;;
  call runPostGenHooks run_post_gen_hooks;;
  logger_info ("Flask project " +:+ project_name self +:+ " created successfully").

End Methods.

(** [forge = FlaskForge(config); forge.run()]. *)
Definition main (w : World) (a : CommandLine) (st : State) : Outcome unit * State :=
  match __init__ w (config_of a) with
  | Raised e => (Raised e, st)
  | Ok forge => run w forge st
  end.

(** The order in which [run] calls the stages. *)
Definition pipeline : list Stage :=
  [ createDirectories; createEnvironment; installDependencies; renderTemplateSet;
    generateBlueprints; writeInitFile; writeModelsFile; writeDockerFiles;
    writeCiFiles; initializeDatabase; runPostGenHooks ].

End FlaskForge.

(** ** [fforge.py] *)
Module FForge.
Import Sys.
Import Common.

Section Methods.
Variable w : World.
Variable self : Forge.

Definition create_directories : M unit :=
  os_makedirs w (project_path self);;
  os_makedirs w (PosixPath.join (project_path self) (project_name self));;
  os_makedirs w
    (PosixPath.join (PosixPath.join (project_path self) (project_name self)) "templates");;
  os_makedirs w
    (PosixPath.join (PosixPath.join (project_path self) (project_name self)) "static");;
  logger_info ("Directories created for project " +:+ project_name self).

Definition create_virtualenv : M unit :=
  subprocess_run w (ArgList ["python"; "-m"; "venv"; venv_dir self]) false false None;;
  logger_info "Virtual environment created";;
  assign_activate_command (activation_prefix w self).

Definition initialize_database : M unit :=
  p1 ← get_activate_command;
  subprocess_run w (ArgList [p1 +:+ " && flask db init"]) true false
    (Some (project_path self));;
  p2 ← get_activate_command;
  subprocess_run w (ArgList [p2 +:+ " && flask db migrate"]) true false
    (Some (project_path self));;
  p3 ← get_activate_command;
  subprocess_run w (ArgList [p3 +:+ " && flask db upgrade"]) true false
    (Some (project_path self));;
  logger_info "Initialized database".

Definition run_hook (hook : string) : M unit :=
  prefix ← get_activate_command;
  subprocess_run w (ArgStr (prefix +:+ " && " +:+ Py.strip hook)) true false
    (Some (project_path self));;
  mret tt.

Definition run_post_gen_hooks : M unit :=
  if Py.truthy (post_gen_hooks self) then
    for_each (Py.split "," (post_gen_hooks self)) run_hook;;
    logger_info "Post-generation hooks executed"
  else mret tt.

Definition run : M unit :=
  call createDirectories create_directories;;
  call createEnvironment create_virtualenv;;
  call renderTemplateSet (create_base_files w self);;
  call generateBlueprints (create_blueprints w self);;
  call writeInitFile (create_init_py w self);;
  call writeModelsFile (create_models_py w self);;
  call writeDockerFiles (create_docker_files w self);;
  call writeCiFiles (create_ci_cd_files w self);;
  call initializeDatabase initialize_database;;
  call runPostGenHooks run_post_gen_hooks;;
  logger_info ("Flask project " +:+ project_name self +:+ " created successfully").

End Methods.

Definition main (w : World) (a : CommandLine) (st : State) : Outcome unit * State :=
  match __init__ w (config_of a) with
  | Raised e => (Raised e, st)
  | Ok forge => run w forge st
  end.

Definition pipeline : list Stage :=
  [ createDirectories; createEnvironment; renderTemplateSet; generateBlueprints;
    writeInitFile; writeModelsFile; writeDockerFiles; writeCiFiles;
    initializeDatabase; runPostGenHooks ].

End FForge.

(** ** Observations on runs, used to state the properties *)
Module Obs.
Import Sys.
Import Common.

(** Every launch produces a child process (which may still exit non-zero). *)
Definition launches (w : World) : Prop :=
  forall tr inv, exists rc, proc_outcome w tr inv = Exited rc.

(** The launch made by [create_virtualenv] and its success. *)
Definition venv_invocation (self : Forge) : Invocation :=
  {| inv_args := ArgList ["python"; "-m"; "venv"; venv_dir self];
     inv_shell := false; inv_cwd := None |}.

Definition venv_succeeds (w : World) (self : Forge) : Prop :=
  forall tr, proc_outcome w tr (venv_invocation self) = Exited 0.

(** The launch made for one post-generation hook under the prefix [p]. *)
Definition hook_invocation (self : Forge) (p hook : string) : Invocation :=
  {| inv_args := ArgStr (p +:+ " && " +:+ Py.strip hook);
     inv_shell := true; inv_cwd := Some (project_path self) |}.

(** The text handed to the shell or the operating system. *)
Definition command_text (inv : Invocation) : string :=
  match inv_args inv with
  | ArgStr s => s
  | ArgList l => Py.join " " l
  end.

(** The command of a launch starts with the prefix [p] and [ && ]. *)
Definition uses_prefix (p : string) (inv : Invocation) : Prop :=
  Py.startswith (p +:+ " && ") (command_text inv) = true.

(** The attribute is absent or holds the prefix built on the environment
    directory, and every launch beyond those of [old] is the creation of the
    environment or a command under that prefix. *)
Definition prefix_discipline (w : World) (self : Forge) (old : list Invocation)
    (st : State) : Prop :=
  (activate_command st = None \/ activate_command st = Some (activation_prefix w self)) /\
  forall inv, inv ∈ procs st ->
    inv ∈ old \/ inv = venv_invocation self \/ uses_prefix (activation_prefix w self) inv.

(** A method maintains a property of the state, however it ends. *)
Definition preserves {A : Type} (I : State -> Prop) (m : M A) : Prop :=
  forall st, I st -> I (m st).2.

(** The three launches of [initialize_database] under the prefix [p]. *)
Definition db_invocations (self : Forge) (p : string) : list Invocation :=
  map (fun c => {| inv_args := ArgList [p +:+ c]; inv_shell := true;
                   inv_cwd := Some (project_path self) |})
    [" && flask db init"; " && flask db migrate"; " && flask db upgrade"].

(** The template files of a run, as [(root, file)] pairs in walk order. *)
Definition template_items (w : World) (self : Forge) : list (string * string) :=
  flat_map (fun entry => map (fun file => (entry.1, file)) entry.2)
    (os_walk w (template_path w self)).

Definition template_sources (w : World) (self : Forge) : list string :=
  map (fun it => src_path it.1 it.2) (template_items w self).

Definition template_dests (w : World) (self : Forge) : list string :=
  map (fun it => dest_path w self it.1 it.2) (template_items w self).

(** No file operation of the generator is refused, the renderer accepts every
    template, and every template file is on disk in [st]. *)
Record benign (w : World) (self : Forge) (st : State) : Prop := {
  benign_mkdir : forall p, mkdir_denied w p = false;
  benign_write : forall p, write_denied w p = false;
  benign_read : forall p, read_denied w p = false;
  benign_render : forall src name, is_Some (jinja_render w src name);
  benign_sources : forall p, p ∈ template_sources w self -> is_Some (fs_files st !! p)
}.

(** The blueprint names that reach generation: trimmed, blanks dropped. *)
Definition blueprint_names (self : Forge) : list string :=
  filter (fun b => Py.truthy b = true) (map Py.strip (blueprints self)).

Definition package_root (self : Forge) : string :=
  PosixPath.join (project_path self) (project_name self).

Definition bp_dir (self : Forge) (bp : string) : string :=
  PosixPath.join (package_root self) bp.

Definition bp_dirs (self : Forge) (bp : string) : list string :=
  [ bp_dir self bp;
    PosixPath.join (bp_dir self bp) "templates";
    PosixPath.join (bp_dir self bp) "static" ].

Definition bp_files (self : Forge) (bp : string) : list string :=
  [ PosixPath.join (bp_dir self bp) "routes.py";
    PosixPath.join (bp_dir self bp) "__init__.py";
    PosixPath.join (bp_dir self bp) "forms.py";
    PosixPath.join (PosixPath.join (bp_dir self bp) "templates") (bp +:+ "_home.html") ].

(** What [os.path.join a] puts in front of a relative component. *)
Definition dir_prefix (a : string) : string :=
  if negb (Py.truthy a) || PosixPath.endswith_sep a then a else a +:+ "/".

(** What stands in front of a blueprint's name in each of its paths. *)
Definition pkg (self : Forge) : string := dir_prefix (package_root self).

(** The rest of a path after a component: nothing, or a separator and more. *)
Definition is_tail (s : string) : Prop :=
  match s with
  | EmptyString => True
  | String c _ => c = "/"%char
  end.

(** The files and directories of a state after one blueprint is generated. *)
Definition bp_written (self : Forge) (bp : string) (m : gmap string string)
  : gmap string string :=
  <[PosixPath.join (PosixPath.join (bp_dir self bp) "templates") (bp +:+ "_home.html")
      := home_html bp]>
    (<[PosixPath.join (bp_dir self bp) "forms.py" := forms_py]>
       (<[PosixPath.join (bp_dir self bp) "__init__.py" := init_py bp]>
          (<[PosixPath.join (bp_dir self bp) "routes.py" := routes_py bp]> m))).

Definition bp_made (self : Forge) (bp : string) (d : gset string) : gset string :=
  {[PosixPath.join (bp_dir self bp) "static"]} ∪
    ({[PosixPath.join (bp_dir self bp) "templates"]} ∪ ({[bp_dir self bp]} ∪ d)).

(** Every character of the string is an ASCII letter. *)
Fixpoint isalpha (s : string) : bool :=
  match s with
  | EmptyString => true
  | String c r => (Py.islower c || Py.isupper c) && isalpha r
  end.

(** [p] is [root] or lies below it. *)
Definition under (root p : string) : bool :=
  String.eqb p root || Py.startswith (root +:+ "/") p.

(** The directories and the files of a state that make up the tree at [root]. *)
Definition tree_dirs (st : State) (root : string) : gset string :=
  filter (fun p => under root p = true) (fs_dirs st).

Definition tree_files (st : State) (root : string) : gset string :=
  filter (fun p => under root p = true) (dom (fs_files st)).

(** Nothing of [st] is at or below the directory of a blueprint to generate. *)
Definition fresh_for (self : Forge) (st : State) : Prop :=
  forall b p, b ∈ blueprint_names self -> under (bp_dir self b) p = true ->
    (p ∉ fs_dirs st) /\ fs_files st !! p = None.

Definition no_sep (s : string) : Prop := Py.count_char "/" s = 0.

(** The file contents after a list of whole-file writes, oldest first. *)
Definition writes (L : list (string * string)) (m : gmap string string)
  : gmap string string :=
  foldl (fun m0 kv => <[kv.1 := kv.2]> m0) m L.

(** Distinct non-blank names without separator. *)
Definition good_names (names : list string) : Prop :=
  NoDup names /\ forall b, b ∈ names -> Py.truthy b = true /\ no_sep b.

Definition set_cfg_venv_dir (d : option string) (c : Config) : Config :=
  {| cfg_project_name := cfg_project_name c; cfg_blueprints := cfg_blueprints c;
     cfg_dependencies := cfg_dependencies c; cfg_verbosity := cfg_verbosity c;
     cfg_template := cfg_template c; cfg_config_path := cfg_config_path c;
     cfg_post_gen_hooks := cfg_post_gen_hooks c; cfg_venv_dir := d |}.

(** A method leaves one component of the state as it found it. *)
Definition keeps {X A : Type} (proj : State -> X) (m : M A) : Prop :=
  forall st, proj (m st).2 = proj st.

(** From every state satisfying [P] the method returns, in a state
    satisfying [Q]. *)
Definition returns (P : State -> Prop) (m : M unit) (Q : State -> Prop) : Prop :=
  forall st, P st -> (m st).1 = Ok tt /\ Q (m st).2.

(** Every template file is on disk. *)
Definition sources_present (w : World) (self : Forge) (st : State) : Prop :=
  forall p, p ∈ template_sources w self -> is_Some (fs_files st !! p).

(** [create_virtualenv] has assigned the activation prefix. *)
Definition activated (w : World) (self : Forge) (st : State) : Prop :=
  activate_command st = Some (activation_prefix w self).

(** A launch that did not end with return code 0. *)
Definition failed (o : ProcOutcome) : bool :=
  match o with
  | Exited rc => negb (rc =? 0)%Z
  | LaunchFailed => true
  end.

(** The number of launches of [todo], made after those of [done], that the
    world lets fail. *)
Fixpoint replay_failures (w : World) (done todo : list Invocation) : nat :=
  match todo with
  | [] => 0
  | i :: r =>
      (if failed (proc_outcome w done i) then 1 else 0) + replay_failures w (done ++ [i]) r
  end.

(** The number of failed launches in a trace of launches. *)
Definition failures (w : World) (tr : list Invocation) : nat := replay_failures w [] tr.

(** The number of records logged at ERROR level. *)
Fixpoint errors (l : list (Level * string)) : nat :=
  match l with
  | [] => 0
  | (ERROR, _) :: r => S (errors r)
  | _ :: r => errors r
  end.

(** Between [st] and [st'] as many ERROR records were logged as launches
    failed. *)
Definition balanced (w : World) (st st' : State) : Prop :=
  errors (log st') + failures w (procs st) = errors (log st) + failures w (procs st').

(** No exception of the class [bad] leaves the method. *)
Definition never_raises {A : Type} (bad : Exn -> bool) (m : M A) : Prop :=
  forall st, match (m st).1 with Raised e => bad e = false | Ok _ => True end.

(** A chain of stage calls closed by a last action: the shape of [run]. *)
Fixpoint chain (l : list (Stage * M unit)) (final : M unit) : M unit :=
  match l with
  | [] => final
  | sm :: r => call sm.1 sm.2;; chain r final
  end.

End Obs.

(** ** Concrete surroundings for the scenarios *)
Module Scenario.
Import Sys.
Import Common.
Import Obs.

(** A POSIX machine: working directory [/w], the generator installed under
    [/opt/ff], one template set [rest_api] listed by [walk]; [rc] gives each
    launch its return code and [denied] the paths that cannot be written. *)
Definition world (rc : Invocation -> Z) (denied : string -> bool)
    (walk : list (string * list string)) : World :=
  {| getcwd := "/w";
     module_file := "/opt/ff/flaskforge.py";
     platform_system := "Linux";
     proc_outcome := fun _ inv => Exited (rc inv);
     mkdir_denied := fun _ => false;
     read_denied := fun _ => false;
     write_denied := denied;
     os_walk := fun top => if String.eqb top "/opt/ff/templates/rest_api" then walk else [];
     jinja_render := fun src _ => Some src;
     str_exc := fun e =>
       match e with
       | OSError p => "cannot access " +:+ p
       | CalledProcessError _ _ => "non-zero exit status"
       | AttributeError a => "no attribute " +:+ a
       | TypeError => "type error"
       | TemplateError => "template error"
       end |}.

Definition all_zero (inv : Invocation) : Z := 0%Z.

Definition nothing_denied (p : string) : bool := false.

(** The return code 1 for the shell commands that run [cmd], 0 otherwise. *)
Definition fails_on (cmd : string) (inv : Invocation) : Z :=
  if inv_shell inv && Py.contains ("&& " +:+ cmd) (command_text inv) then 1%Z else 0%Z.

(** Dependency installation and the hook [false] exit 1, everything else 0. *)
Definition pip_and_false_fail (inv : Invocation) : Z :=
  Z.max (fails_on "pip install" inv) (fails_on "false" inv).

(** Environment creation exits 1, everything else 0. *)
Definition venv_fails (inv : Invocation) : Z :=
  match inv_args inv with
  | ArgList ("python" :: _) => 1%Z
  | _ => 0%Z
  end.

Definition empty_state : State :=
  {| activate_command := None; fs_dirs := ∅; fs_files := ∅; procs := []; log := [];
     stages := [] |}.

(** The disk holds the one template file [/opt/ff/templates/rest_api/app.py]. *)
Definition template_state : State :=
  {| activate_command := None; fs_dirs := ∅;
     fs_files := {[ "/opt/ff/templates/rest_api/app.py" := "app = '{{ project_name }}'" ]};
     procs := []; log := []; stages := [] |}.

Definition one_template : list (string * list string) :=
  [("/opt/ff/templates/rest_api", ["app.py"])].

Definition command_line (name bps deps hooks : string) (venv : option string) : CommandLine :=
  {| arg_project_name := name; arg_blueprints := bps; arg_dependencies := deps;
     arg_verbosity := 0; arg_template := "rest_api"; arg_config := "";
     arg_post_gen_hooks := hooks; arg_venv_dir := venv |}.

(** The object the constructor builds from a command line in these worlds. *)
Definition forge (a : CommandLine) : Forge :=
  {| project_name := arg_project_name a;
     blueprints := split_list (arg_blueprints a);
     dependencies := split_list (arg_dependencies a);
     verbosity := arg_verbosity a;
     template := arg_template a;
     config_path := arg_config a;
     post_gen_hooks := arg_post_gen_hooks a;
     project_path := PosixPath.join "/w" (arg_project_name a);
     venv_dir := PosixPath.join (PosixPath.join "/w" (arg_project_name a)) ".fforge";
     log_level := setup_logging (arg_verbosity a) |}.

(** The package initializer cannot be written. *)
Definition init_py_denied (p : string) : bool := String.eqb p "/w/shop/shop/__init__.py".

(** The container build file cannot be written. *)
Definition dockerfile_denied (p : string) : bool := String.eqb p "/w/shop/Dockerfile".

(** The rendered copy of the template file cannot be written. *)
Definition app_py_denied (p : string) : bool := String.eqb p "/w/shop/app.py".

Definition default_dependencies : string :=
  "Flask,Flask-CKEditor,Flask-Mail,Flask-Login,Flask-Migrate,Flask-SQLAlchemy,Flask-WTF,email_validator,python-dotenv".

End Scenario.

(** ** Observations on the single stages *)
Module StageObs.
Import Sys.
Import Common.
Import Obs.

(** The directories [create_directories] asks for, in the order of its calls. *)
Definition skeleton_dirs (self : Forge) : list string :=
  [ project_path self;
    package_root self;
    PosixPath.join (package_root self) "templates";
    PosixPath.join (package_root self) "static" ].

(** The launch of [install_dependencies] under the prefix [p]. *)
Definition pip_invocation (self : Forge) (p : string) : Invocation :=
  {| inv_args := ArgList [p +:+ " && pip install " +:+ Py.join " " (dependencies self)];
     inv_shell := true; inv_cwd := None |}.

(** A machine that differs from [w] in the directories it refuses to make. *)
Definition refuse_mkdir (denied : string -> bool) (w : World) : World :=
  {| getcwd := getcwd w; module_file := module_file w;
     platform_system := platform_system w; proc_outcome := proc_outcome w;
     mkdir_denied := denied; read_denied := read_denied w;
     write_denied := write_denied w; os_walk := os_walk w;
     jinja_render := jinja_render w; str_exc := str_exc w |}.

(** The log only grows under the method, by records that satisfy [P]. *)
Definition appends {A : Type} (P : Level * string -> Prop) (m : M A) : Prop :=
  forall st, exists l, log (m st).2 = (log st ++ l)%list /\ Forall P l.

(** The records a handler lets through when the threshold handed to
    [logging.basicConfig] is [level]: those whose level number is not below
    the threshold's. *)
Definition emitted (level : Level) (l : list (Level * string)) : list (Level * string) :=
  filter (fun r => (levelno level <= levelno r.1)%Z) l.

(** The record [run] logs last. *)
Definition success_record (self : Forge) : Level * string :=
  (INFO, "Flask project " +:+ project_name self +:+ " created successfully").

(** The files with fixed text, in the order [run] writes them. *)
Definition fixed_files (self : Forge) : list (string * string) :=
  [ (PosixPath.join (package_root self) "__init__.py", app_init_py);
    (PosixPath.join (package_root self) "models.py", models_py);
    (PosixPath.join (project_path self) "Dockerfile", dockerfile);
    (PosixPath.join (project_path self) "docker-compose.yml", docker_compose_yml);
    (PosixPath.join
       (PosixPath.join (PosixPath.join (project_path self) ".github") "workflows")
       "python-app.yml", python_app_yml) ].

(** Every path a run may open for writing. *)
Definition planned_files (w : World) (self : Forge) : list string :=
  (template_dests w self ++ flat_map (bp_files self) (blueprint_names self)
     ++ map fst (fixed_files self))%list.

(** Between [st0] and [st] no file outside [L] changed and no file or
    directory disappeared. *)
Definition untouched_outside (L : list string) (st0 st : State) : Prop :=
  (forall p, p ∉ L -> fs_files st !! p = fs_files st0 !! p) /\
  dom (fs_files st0) ⊆ dom (fs_files st) /\
  fs_dirs st0 ⊆ fs_dirs st.

(** The state with the trace of stages replaced. *)
Definition restage (x : list Stage) (st : State) : State :=
  {| activate_command := activate_command st; fs_dirs := fs_dirs st;
     fs_files := fs_files st; procs := procs st; log := log st; stages := x |}.

(** A method neither reads nor assigns the trace of stages. *)
Definition oblivious {A : Type} (m : M A) : Prop :=
  forall x st, m (restage x st) = ((m st).1, restage x (m st).2).

(** The stages of a run one after the other, without the trace. *)
Definition plain (l : list (Stage * M unit)) (final : M unit) : M unit :=
  for_each l (fun sm => sm.2);; final.

(** The compose file cannot be written. *)
Definition compose_denied (p : string) : bool := String.eqb p "/w/shop/docker-compose.yml".

(** The four files of a blueprint with their texts, in the order
    [create_blueprint_files] writes them. *)
Definition bp_texts (self : Forge) (bp : string) : list (string * string) :=
  [ (PosixPath.join (bp_dir self bp) "routes.py", routes_py bp);
    (PosixPath.join (bp_dir self bp) "__init__.py", init_py bp);
    (PosixPath.join (bp_dir self bp) "forms.py", forms_py);
    (PosixPath.join (PosixPath.join (bp_dir self bp) "templates") (bp +:+ "_home.html"),
     home_html bp) ].

(** The destinations of the template files with the renderings of their
    sources as the files [F] hold them (the empty text where a source is
    missing or the renderer refuses it, which a stage that returns excludes). *)
Definition rendered (w : World) (self : Forge) (F : gmap string string)
  : list (string * string) :=
  map (fun it =>
         (dest_path w self it.1 it.2,
          default "" (jinja_render w (default "" (F !! src_path it.1 it.2))
                        (project_name self))))
    (template_items w self).

(** Every whole-file write of a run that returns, oldest first. *)
Definition run_writes (w : World) (self : Forge) (F : gmap string string)
  : list (string * string) :=
  (rendered w self F ++ flat_map (bp_texts self) (blueprint_names self)
     ++ fixed_files self)%list.

End StageObs.

(** * Properties *)

Import Sys Common Obs.

(** ** Strings and paths *)

Example strip_example : Py.strip "  echo b " = "echo b".
Proof. reflexivity. Qed.

Example split_example : Py.split "," "echo a,false,echo b" = ["echo a"; "false"; "echo b"].
Proof. reflexivity. Qed.

Example split_trailing : Py.split "," "echo a," = ["echo a"; ""].
Proof. reflexivity. Qed.

Example relpath_example :
  PosixPath.relpath "/w" (PosixPath.join "/opt/ff/templates/rest_api/app" "main.py")
    "/opt/ff/templates/rest_api" = "app/main.py".
Proof. vm_compute. reflexivity. Qed.

Example dirname_example : PosixPath.dirname "/w/shop/app/main.py" = "/w/shop/app".
Proof. reflexivity. Qed.

Lemma append_cons (c : ascii) (a b : string) : String c a +:+ b = String c (a +:+ b).
Proof. reflexivity. Qed.

Lemma append_empty_l (b : string) : "" +:+ b = b.
Proof. reflexivity. Qed.

Lemma append_nil_r (s : string) : s +:+ "" = s.
Proof.
  induction s as [|c s IH]; [reflexivity |].
  rewrite append_cons, IH. reflexivity.
Qed.

Lemma append_assoc (a b c : string) : (a +:+ b) +:+ c = a +:+ (b +:+ c).
Proof.
  induction a as [|x a IH]; [reflexivity |].
  rewrite !append_cons, IH. reflexivity.
Qed.

Lemma truthy_append_r (a b : string) : Py.truthy b = true -> Py.truthy (a +:+ b) = true.
Proof. destruct a; [rewrite append_empty_l; done | reflexivity]. Qed.

Lemma startswith_append (p s : string) : Py.startswith p (p +:+ s) = true.
Proof.
  induction p as [|c p IH]; [reflexivity |].
  rewrite append_cons. simpl. rewrite Ascii.eqb_refl. exact IH.
Qed.

Lemma contains_startswith (sub s : string) :
  Py.startswith sub s = true -> Py.contains sub s = true.
Proof. intros H. destruct s; simpl in *; rewrite H; reflexivity. Qed.

Lemma contains_middle (pre sub post : string) :
  Py.contains sub (pre +:+ sub +:+ post) = true.
Proof.
  induction pre as [|c pre IH].
  - rewrite append_empty_l. apply contains_startswith, startswith_append.
  - rewrite append_cons. simpl. rewrite IH. apply orb_true_r.
Qed.

Lemma join_relative (a b : string) :
  PosixPath.isabs b = false ->
  PosixPath.join a b =
    if negb (Py.truthy a) || PosixPath.endswith_sep a then a +:+ b else a +:+ "/" +:+ b.
Proof. intros H. unfold PosixPath.join. by rewrite H. Qed.

Lemma join_truthy (a b : string) : Py.truthy b = true -> Py.truthy (PosixPath.join a b) = true.
Proof.
  intros Hb. unfold PosixPath.join.
  destruct (PosixPath.isabs b); [exact Hb |].
  destruct (negb (Py.truthy a) || PosixPath.endswith_sep a).
  - by apply truthy_append_r.
  - apply truthy_append_r. reflexivity.
Qed.

(** ** The constructor *)

Lemma choose_venv_dir_fixed (pp : string) (d : option string) :
  choose_venv_dir pp d = Ok (PosixPath.join pp ".fforge").
Proof. unfold choose_venv_dir. by rewrite join_truthy. Qed.

Lemma init_ok (w : World) (c : Config) :
  __init__ w c =
    Ok {| project_name := cfg_project_name c;
          blueprints := cfg_blueprints c;
          dependencies := cfg_dependencies c;
          verbosity := cfg_verbosity c;
          template := cfg_template c;
          config_path := cfg_config_path c;
          post_gen_hooks := cfg_post_gen_hooks c;
          project_path := PosixPath.join (getcwd w) (cfg_project_name c);
          venv_dir := PosixPath.join (PosixPath.join (getcwd w) (cfg_project_name c)) ".fforge";
          log_level := setup_logging (cfg_verbosity c) |}.
Proof. unfold __init__. by rewrite choose_venv_dir_fixed. Qed.

(** ** The monad *)

Lemma bind_run {A B : Type} (m : M A) (k : A -> M B) (st : State) :
  (m ≫= k) st =
    match m st with
    | (Ok a, st') => k a st'
    | (Raised e, st') => (Raised e, st')
    end.
Proof. reflexivity. Qed.

Lemma bind_ok {A B : Type} (m : M A) (k : A -> M B) (st st' : State) (a : A) :
  m st = (Ok a, st') -> (m ≫= k) st = k a st'.
Proof. intros H. rewrite bind_run, H. reflexivity. Qed.

Lemma bind_raised {A B : Type} (m : M A) (k : A -> M B) (st st' : State) (e : Exn) :
  m st = (Raised e, st') -> (m ≫= k) st = (Raised e, st').
Proof. intros H. rewrite bind_run, H. reflexivity. Qed.

Lemma for_each_cons {A : Type} (x : A) (l : list A) (body : A -> M unit) :
  for_each (x :: l) body = (body x;; for_each l body).
Proof. reflexivity. Qed.

Lemma for_each_app {A : Type} (l1 l2 : list A) (body : A -> M unit) (st : State) :
  for_each (l1 ++ l2) body st = (for_each l1 body;; for_each l2 body) st.
Proof.
  revert st. induction l1 as [|x l1 IH]; intros st.
  - reflexivity.
  - simpl app. rewrite (for_each_cons x (l1 ++ l2)), bind_run.
    rewrite (bind_run (for_each (x :: l1) body)), (for_each_cons x l1), bind_run.
    destruct (body x st) as [[[]|e] st1]; [|reflexivity].
    rewrite IH, bind_run. reflexivity.
Qed.

(** A nested loop is one loop over the pairs. *)
Lemma for_each_nested {A B : Type} (l : list (A * list B)) (body : A -> B -> M unit)
    (st : State) :
  for_each l (fun entry => for_each entry.2 (body entry.1)) st =
  for_each (flat_map (fun entry => map (fun b => (entry.1, b)) entry.2) l)
    (fun it => body it.1 it.2) st.
Proof.
  revert st. induction l as [|[a bs] l IH]; intros st; [reflexivity |].
  simpl flat_map. rewrite for_each_app, for_each_cons, !bind_run. simpl.
  assert (Hin : forall st0, for_each bs (body a) st0 =
            for_each (map (fun b => (a, b)) bs) (fun it => body it.1 it.2) st0).
  { clear. induction bs as [|b bs IHb]; intros st0; [reflexivity |].
    simpl map. rewrite !for_each_cons, !bind_run. simpl.
    destruct (body a b st0) as [[[]|e] st1]; [apply IHb | reflexivity]. }
  rewrite Hin.
  destruct (for_each (map (fun b => (a, b)) bs) _ st) as [[[]|e] st1]; [apply IH | reflexivity].
Qed.

(** ** Frame lemmas *)

Section Keeps.
Context {X : Type} (proj : State -> X).

Lemma keeps_ret {A : Type} (a : A) : keeps proj (mret a : M A).
Proof. intros st. reflexivity. Qed.

Lemma keeps_raise {A : Type} (e : Exn) : keeps proj (raise e : M A).
Proof. intros st. reflexivity. Qed.

Lemma keeps_bind {A B : Type} (m : M A) (k : A -> M B) :
  keeps proj m -> (forall a, keeps proj (k a)) -> keeps proj (m ≫= k).
Proof.
  intros Hm Hk st. rewrite bind_run. specialize (Hm st).
  destruct (m st) as [[a|e] st1]; simpl in *; [|exact Hm].
  rewrite Hk. exact Hm.
Qed.

Lemma keeps_try_except {A : Type} (body : M A) (catches : Exn -> bool) (h : Exn -> M A) :
  keeps proj body -> (forall e, keeps proj (h e)) -> keeps proj (try_except body catches h).
Proof.
  intros Hb Hh st. unfold try_except. specialize (Hb st).
  destruct (body st) as [[a|e] st1]; simpl in *; [exact Hb |].
  destruct (catches e); simpl; [|exact Hb].
  rewrite Hh. exact Hb.
Qed.

Lemma keeps_for_each {A : Type} (l : list A) (body : A -> M unit) :
  (forall x, keeps proj (body x)) -> keeps proj (for_each l body).
Proof.
  intros Hb. induction l as [|x l IH].
  - apply keeps_ret.
  - rewrite for_each_cons. apply keeps_bind; [apply Hb | intros _; exact IH].
Qed.

End Keeps.

(** A primitive keeps every component it does not assign. *)
Ltac keeps_prim :=
  let st := fresh "st" in
  intros st;
  unfold os_makedirs, open_r, open_w, file_read, file_write, render_template,
    subprocess_run, logger_info, logger_error, get_activate_command,
    assign_activate_command, raise, mret, M_ret;
  repeat case_match; reflexivity.

Ltac keeps_step :=
  match goal with
  | |- keeps _ (mbind _ _) => apply keeps_bind; [| intros ?]
  | |- keeps _ (try_except _ _ _) => apply keeps_try_except; [| intros ?]
  | |- keeps _ (for_each _ _) => apply keeps_for_each; intros ?
  | |- keeps _ (mret _) => apply keeps_ret
  | |- keeps _ (write_text _ _ _) => unfold write_text
  | |- keeps _ (match ?x with _ => _ end) => destruct x
  | |- keeps _ _ => keeps_prim
  end.

Ltac keeps_tac := repeat keeps_step.

Section StageFrames.
Variable w : World.
Variable self : Forge.

Lemma create_base_files_keeps_stages : keeps stages (create_base_files w self).
Proof. unfold create_base_files, render_file. keeps_tac. Qed.

Lemma create_blueprints_keeps_stages : keeps stages (create_blueprints w self).
Proof. unfold create_blueprints, create_blueprint, create_blueprint_files. keeps_tac. Qed.

Lemma create_init_py_keeps_stages : keeps stages (create_init_py w self).
Proof. unfold create_init_py. keeps_tac. Qed.

Lemma create_models_py_keeps_stages : keeps stages (create_models_py w self).
Proof. unfold create_models_py. keeps_tac. Qed.

Lemma create_docker_files_keeps_stages : keeps stages (create_docker_files w self).
Proof. unfold create_docker_files. keeps_tac. Qed.

Lemma create_ci_cd_files_keeps_stages : keeps stages (create_ci_cd_files w self).
Proof. unfold create_ci_cd_files. keeps_tac. Qed.

Lemma ff_create_directories_keeps_stages : keeps stages (FlaskForge.create_directories w self).
Proof. unfold FlaskForge.create_directories. keeps_tac. Qed.

Lemma ff_create_virtualenv_keeps_stages : keeps stages (FlaskForge.create_virtualenv w self).
Proof. unfold FlaskForge.create_virtualenv. keeps_tac. Qed.

Lemma ff_install_dependencies_keeps_stages :
  keeps stages (FlaskForge.install_dependencies w self).
Proof. unfold FlaskForge.install_dependencies. keeps_tac. Qed.

Lemma ff_initialize_database_keeps_stages :
  keeps stages (FlaskForge.initialize_database w self).
Proof. unfold FlaskForge.initialize_database. keeps_tac. Qed.

Lemma ff_run_post_gen_hooks_keeps_stages :
  keeps stages (FlaskForge.run_post_gen_hooks w self).
Proof. unfold FlaskForge.run_post_gen_hooks, FlaskForge.run_hook. keeps_tac. Qed.

Lemma fforge_create_directories_keeps_stages : keeps stages (FForge.create_directories w self).
Proof. unfold FForge.create_directories. keeps_tac. Qed.

Lemma fforge_create_virtualenv_keeps_stages : keeps stages (FForge.create_virtualenv w self).
Proof. unfold FForge.create_virtualenv. keeps_tac. Qed.

Lemma fforge_initialize_database_keeps_stages :
  keeps stages (FForge.initialize_database w self).
Proof. unfold FForge.initialize_database. keeps_tac. Qed.

Lemma fforge_run_post_gen_hooks_keeps_stages :
  keeps stages (FForge.run_post_gen_hooks w self).
Proof. unfold FForge.run_post_gen_hooks, FForge.run_hook. keeps_tac. Qed.

End StageFrames.

(** ** The order of the stages *)

Lemma chain_trace (l : list (Stage * M unit)) (final : M unit) :
  Forall (fun sm => keeps stages sm.2) l -> keeps stages final ->
  forall st, exists k,
    k <= length l /\
    stages (chain l final st).2 = (stages st ++ take k (map fst l))%list /\
    ((chain l final st).1 = Ok tt -> k = length l) /\
    (l <> [] -> 1 <= k).
Proof.
  intros Hl Hf. induction Hl as [|[s m] l Hm Hl IH]; intros st.
  - exists 0. simpl. rewrite Hf, app_nil_r. split_and!; [lia | done | done | done].
  - change (chain ((s, m) :: l) final st) with
      (match m (add_stage s st) with
       | (Ok _, st') => chain l final st'
       | (Raised e, st') => (Raised e, st')
       end).
    simpl in Hm. pose proof (Hm (add_stage s st)) as Hs.
    destruct (m (add_stage s st)) as [[[]|e] st1] eqn:Em; simpl in Hs.
    + destruct (IH st1) as (k & Hk & Htr & Hok & _).
      exists (S k). simpl. split_and!.
      * lia.
      * rewrite Htr, Hs. simpl. rewrite <- app_assoc. reflexivity.
      * intros H. f_equal. apply Hok, H.
      * intros _. lia.
    + exists 1. simpl. split_and!.
      * lia.
      * rewrite Hs. simpl. rewrite take_0. reflexivity.
      * discriminate.
      * intros _. lia.
Qed.

Lemma ff_run_chain (w : World) (self : Forge) :
  FlaskForge.run w self =
  chain [ (createDirectories, FlaskForge.create_directories w self);
          (createEnvironment, FlaskForge.create_virtualenv w self);
          (installDependencies, FlaskForge.install_dependencies w self);
          (renderTemplateSet, create_base_files w self);
          (generateBlueprints, create_blueprints w self);
          (writeInitFile, create_init_py w self);
          (writeModelsFile, create_models_py w self);
          (writeDockerFiles, create_docker_files w self);
          (writeCiFiles, create_ci_cd_files w self);
          (initializeDatabase, FlaskForge.initialize_database w self);
          (runPostGenHooks, FlaskForge.run_post_gen_hooks w self) ]
        (logger_info ("Flask project " +:+ project_name self +:+ " created successfully")).
Proof. reflexivity. Qed.

Lemma fforge_run_chain (w : World) (self : Forge) :
  FForge.run w self =
  chain [ (createDirectories, FForge.create_directories w self);
          (createEnvironment, FForge.create_virtualenv w self);
          (renderTemplateSet, create_base_files w self);
          (generateBlueprints, create_blueprints w self);
          (writeInitFile, create_init_py w self);
          (writeModelsFile, create_models_py w self);
          (writeDockerFiles, create_docker_files w self);
          (writeCiFiles, create_ci_cd_files w self);
          (initializeDatabase, FForge.initialize_database w self);
          (runPostGenHooks, FForge.run_post_gen_hooks w self) ]
        (logger_info ("Flask project " +:+ project_name self +:+ " created successfully")).
Proof. reflexivity. Qed.

(** The stages a run of [flaskforge.py] has entered are the first [k] of the
    fixed order, and all eleven when the run returns. *)
Lemma ff_run_trace (w : World) (self : Forge) (st : State) :
  exists k, 1 <= k <= 11 /\
    stages (FlaskForge.run w self st).2 = (stages st ++ take k FlaskForge.pipeline)%list /\
    ((FlaskForge.run w self st).1 = Ok tt -> k = 11).
Proof.
  rewrite ff_run_chain.
  match goal with |- context [chain ?l ?f st] =>
    assert (Hl : Forall (fun sm => keeps stages sm.2) l)
      by (repeat constructor; simpl;
          auto using ff_create_directories_keeps_stages, ff_create_virtualenv_keeps_stages,
            ff_install_dependencies_keeps_stages, create_base_files_keeps_stages,
            create_blueprints_keeps_stages, create_init_py_keeps_stages,
            create_models_py_keeps_stages, create_docker_files_keeps_stages,
            create_ci_cd_files_keeps_stages, ff_initialize_database_keeps_stages,
            ff_run_post_gen_hooks_keeps_stages);
    assert (Hf : keeps stages f) by keeps_prim;
    destruct (chain_trace l f Hl Hf st) as (k & Hk & Htr & Hok & H1)
  end.
  exists k. split_and!; [apply H1; discriminate | exact Hk | exact Htr | exact Hok].
Qed.

Lemma fforge_run_trace (w : World) (self : Forge) (st : State) :
  exists k, 1 <= k <= 10 /\
    stages (FForge.run w self st).2 = (stages st ++ take k FForge.pipeline)%list /\
    ((FForge.run w self st).1 = Ok tt -> k = 10).
Proof.
  rewrite fforge_run_chain.
  match goal with |- context [chain ?l ?f st] =>
    assert (Hl : Forall (fun sm => keeps stages sm.2) l)
      by (repeat constructor; simpl;
          auto using fforge_create_directories_keeps_stages,
            fforge_create_virtualenv_keeps_stages, create_base_files_keeps_stages,
            create_blueprints_keeps_stages, create_init_py_keeps_stages,
            create_models_py_keeps_stages, create_docker_files_keeps_stages,
            create_ci_cd_files_keeps_stages, fforge_initialize_database_keeps_stages,
            fforge_run_post_gen_hooks_keeps_stages);
    assert (Hf : keeps stages f) by keeps_prim;
    destruct (chain_trace l f Hl Hf st) as (k & Hk & Htr & Hok & H1)
  end.
  exists k. split_and!; [apply H1; discriminate | exact Hk | exact Htr | exact Hok].
Qed.

Lemma ff_initialize_database_procs (w : World) (self : Forge) (st : State) (p : string) :
  activate_command st = Some p ->
  exists j, 1 <= j <= 3 /\
    procs (FlaskForge.initialize_database w self st).2 =
      (procs st ++ take j (db_invocations self p))%list /\
    (j = 3 \/
     proc_outcome w (procs st ++ take (j - 1) (db_invocations self p))%list
       (nth (j - 1) (db_invocations self p) (venv_invocation self)) <> Exited 0).
Proof.
  intros Ha.
  unfold FlaskForge.initialize_database, try_except, mbind, M_bind,
    get_activate_command, subprocess_run, logger_info, logger_error.
  rewrite Ha. simpl.
  destruct (proc_outcome w (procs st) _) as [rc1|] eqn:E1.
  2:{ exists 1. simpl. rewrite app_nil_r. split_and!; [lia | lia | done |].
      right. unfold db_invocations in *. simpl in *. rewrite E1. discriminate. }
  destruct (rc1 =? 0)%Z eqn:Z1; simpl.
  2:{ exists 1. simpl. rewrite app_nil_r. split_and!; [lia | lia | done |].
      right. unfold db_invocations in *. simpl in *. rewrite E1.
      intros [= ->]. discriminate. }
  rewrite Ha. simpl.
  destruct (proc_outcome w (procs st ++ [_]) _) as [rc2|] eqn:E2.
  2:{ exists 2. simpl. split_and!; [lia | lia | by rewrite <- app_assoc |].
      right. unfold db_invocations in *. simpl in *. rewrite E2. discriminate. }
  destruct (rc2 =? 0)%Z eqn:Z2; simpl.
  2:{ exists 2. simpl. split_and!; [lia | lia | by rewrite <- app_assoc |].
      right. unfold db_invocations in *. simpl in *. rewrite E2.
      intros [= ->]. discriminate. }
  rewrite Ha. simpl.
  exists 3. split_and!; [lia | lia | | by left].
  destruct (proc_outcome w ((procs st ++ [_]) ++ [_]) _) as [rc3|] eqn:E3; simpl;
    [destruct (rc3 =? 0)%Z; simpl |]; by rewrite <- !app_assoc.
Qed.


Lemma scenario_forge_constructed (rc : Invocation -> Z) (denied : string -> bool)
    (walk : list (string * list string)) (a : CommandLine) :
  __init__ (Scenario.world rc denied walk) (config_of a) = Ok (Scenario.forge a).
Proof. apply init_ok. Qed.



(** ** The log level *)

(** C9.  The level handed to the logging configuration is CRITICAL, ERROR,
    WARNING, INFO, DEBUG for verbosity 0, 1, 2, 3, 4, and INFO for every
    other integer; the constructor stores exactly that level. *)
Theorem verbosity_log_level (w : World) (c : Config) :
  (exists self, __init__ w c = Ok self /\ log_level self = setup_logging (cfg_verbosity c)) /\
  setup_logging 0 = CRITICAL /\
  setup_logging 1 = ERROR /\
  setup_logging 2 = WARNING /\
  setup_logging 3 = INFO /\
  setup_logging 4 = DEBUG /\
  (forall v : Z, (v < 0 \/ 4 < v)%Z -> setup_logging v = INFO).
Proof.
  split_and!; try reflexivity.
  - eexists. split; [apply init_ok | reflexivity].
  - intros v Hv. unfold setup_logging, log_levels.
    repeat case_match; try reflexivity; lia.
Qed.

Lemma verbosity_log_level_witness :
  setup_logging 7 = INFO /\ setup_logging (-1) = INFO.
Proof.
  pose proof (verbosity_log_level
    (Scenario.world Scenario.all_zero Scenario.nothing_denied [])
    (config_of (Scenario.command_line "shop" "" "" "" None))) as (_ & _ & _ & _ & _ & _ & H).
  split; apply H; lia.
Defined.

(** ** The environment directory *)

Lemma ff_create_virtualenv_effect (w : World) (self : Forge) (st : State) :
  procs (FlaskForge.create_virtualenv w self st).2 = (procs st ++ [venv_invocation self])%list /\
  (activate_command (FlaskForge.create_virtualenv w self st).2 = activate_command st \/
   activate_command (FlaskForge.create_virtualenv w self st).2 = Some (activation_prefix w self)).
Proof.
  unfold FlaskForge.create_virtualenv, try_except, mbind, M_bind, subprocess_run,
    logger_info, logger_error, assign_activate_command, venv_invocation.
  destruct (proc_outcome w (procs st) _) as [rc|]; simpl.
  - destruct (rc =? 0)%Z; simpl; auto.
  - auto.
Qed.

Lemma fforge_create_virtualenv_effect (w : World) (self : Forge) (st : State) :
  procs (FForge.create_virtualenv w self st).2 = (procs st ++ [venv_invocation self])%list /\
  (activate_command (FForge.create_virtualenv w self st).2 = activate_command st \/
   activate_command (FForge.create_virtualenv w self st).2 = Some (activation_prefix w self)).
Proof.
  unfold FForge.create_virtualenv, mbind, M_bind, subprocess_run,
    logger_info, assign_activate_command, venv_invocation.
  destruct (proc_outcome w (procs st) _) as [rc|]; simpl; auto.
Qed.

(** ** Post-generation hooks *)

Lemma split_nonempty (c : ascii) (s : string) : Py.split c s <> [].
Proof. induction s as [|a s IH]; simpl; [done |]. destruct (Ascii.eqb a c); [done |]. by destruct (Py.split c s). Qed.

Lemma split_length (c : ascii) (s : string) :
  length (Py.split c s) = S (Py.count_char c s).
Proof.
  induction s as [|a s IH]; [reflexivity |]. simpl.
  destruct (Ascii.eqb a c); simpl; [by rewrite IH |].
  pose proof (split_nonempty c s). destruct (Py.split c s); [done |]. simpl in *. lia.
Qed.

Lemma split_trailing_sep (c : ascii) (s : string) :
  Py.split c (s +:+ String c "") = (Py.split c s ++ [""])%list.
Proof.
  induction s as [|a s IH].
  - rewrite append_empty_l. simpl. rewrite Ascii.eqb_refl. reflexivity.
  - rewrite append_cons. simpl. rewrite IH.
    destruct (Ascii.eqb a c); [reflexivity |].
    pose proof (split_nonempty c s). destruct (Py.split c s); [done | reflexivity].
Qed.

Section Hooks.
Variable w : World.
Variable self : Forge.
Hypothesis Hlaunch : launches w.

Lemma ff_hooks_loop (hooks : list string) (st : State) (p : string) :
  activate_command st = Some p ->
  (for_each hooks (FlaskForge.run_hook w self) st).1 = Ok tt /\
  procs (for_each hooks (FlaskForge.run_hook w self) st).2 =
    (procs st ++ map (hook_invocation self p) hooks)%list /\
  activate_command (for_each hooks (FlaskForge.run_hook w self) st).2 = Some p.
Proof.
  revert st. induction hooks as [|h hooks IH]; intros st Ha.
  - simpl. rewrite app_nil_r. auto.
  - rewrite for_each_cons, bind_run.
    assert (Hh : exists st1, FlaskForge.run_hook w self h st = (Ok tt, st1) /\
                 procs st1 = (procs st ++ [hook_invocation self p h])%list /\
                 activate_command st1 = Some p).
    { unfold FlaskForge.run_hook, try_except, mbind, M_bind, get_activate_command,
        subprocess_run, logger_error, hook_invocation.
      rewrite Ha. simpl.
      destruct (Hlaunch (procs st)
        {| inv_args := ArgStr (p +:+ " && " +:+ Py.strip h); inv_shell := true;
           inv_cwd := Some (project_path self) |}) as [rc ->].
      destruct (rc =? 0)%Z; simpl; eexists; split_and!; reflexivity || exact Ha. }
    destruct Hh as (st1 & -> & Hp1 & Ha1).
    destruct (IH st1 Ha1) as (Hr & Hp & Ha2).
    split_and!; [exact Hr | | exact Ha2].
    rewrite Hp, Hp1. simpl. rewrite <- app_assoc. reflexivity.
Qed.

Lemma fforge_hooks_loop (hooks : list string) (st : State) (p : string) :
  activate_command st = Some p ->
  (for_each hooks (FForge.run_hook w self) st).1 = Ok tt /\
  procs (for_each hooks (FForge.run_hook w self) st).2 =
    (procs st ++ map (hook_invocation self p) hooks)%list /\
  activate_command (for_each hooks (FForge.run_hook w self) st).2 = Some p.
Proof.
  revert st. induction hooks as [|h hooks IH]; intros st Ha.
  - simpl. rewrite app_nil_r. auto.
  - rewrite for_each_cons, bind_run.
    assert (Hh : exists st1, FForge.run_hook w self h st = (Ok tt, st1) /\
                 procs st1 = (procs st ++ [hook_invocation self p h])%list /\
                 activate_command st1 = Some p).
    { unfold FForge.run_hook, mbind, M_bind, get_activate_command,
        subprocess_run, hook_invocation.
      rewrite Ha. simpl.
      destruct (Hlaunch (procs st)
        {| inv_args := ArgStr (p +:+ " && " +:+ Py.strip h); inv_shell := true;
           inv_cwd := Some (project_path self) |}) as [rc ->].
      simpl. eexists; split_and!; reflexivity || exact Ha. }
    destruct Hh as (st1 & -> & Hp1 & Ha1).
    destruct (IH st1 Ha1) as (Hr & Hp & Ha2).
    split_and!; [exact Hr | | exact Ha2].
    rewrite Hp, Hp1. simpl. rewrite <- app_assoc. reflexivity.
Qed.

Lemma ff_hooks_procs (st : State) (p : string) :
  activate_command st = Some p ->
  (FlaskForge.run_post_gen_hooks w self st).1 = Ok tt /\
  procs (FlaskForge.run_post_gen_hooks w self st).2 =
    (procs st ++ map (hook_invocation self p) (split_list (post_gen_hooks self)))%list /\
  activate_command (FlaskForge.run_post_gen_hooks w self st).2 = Some p.
Proof.
  intros Ha. unfold FlaskForge.run_post_gen_hooks, split_list.
  destruct (Py.truthy (post_gen_hooks self)).
  - rewrite bind_run. destruct (ff_hooks_loop (Py.split "," (post_gen_hooks self)) st p Ha)
      as (Hr & Hp & Ha1).
    destruct (for_each _ _ st) as [[[]|e] st1]; simpl in *; [auto | discriminate].
  - simpl. rewrite app_nil_r. auto.
Qed.

Lemma fforge_hooks_procs (st : State) (p : string) :
  activate_command st = Some p ->
  (FForge.run_post_gen_hooks w self st).1 = Ok tt /\
  procs (FForge.run_post_gen_hooks w self st).2 =
    (procs st ++ map (hook_invocation self p) (split_list (post_gen_hooks self)))%list /\
  activate_command (FForge.run_post_gen_hooks w self st).2 = Some p.
Proof.
  intros Ha. unfold FForge.run_post_gen_hooks, split_list.
  destruct (Py.truthy (post_gen_hooks self)).
  - rewrite bind_run. destruct (fforge_hooks_loop (Py.split "," (post_gen_hooks self)) st p Ha)
      as (Hr & Hp & Ha1).
    destruct (for_each _ _ st) as [[[]|e] st1]; simpl in *; [auto | discriminate].
  - simpl. rewrite app_nil_r. auto.
Qed.

End Hooks.



(** C10.  For a non-empty hook string the stage launches one command per
    comma-separated segment, blank segments included: 1 + the number of
    commas.  A string that ends in a comma therefore ends with the launch of
    the bare prefix followed by [ && ].  A blank blueprint name, by
    contrast, generates nothing. *)
Theorem blank_hook_segments_are_run (w : World) (self : Forge) (st : State) (p : string) :
  launches w ->
  activate_command st = Some p ->
  Py.truthy (post_gen_hooks self) = true ->
  length (procs (FlaskForge.run_post_gen_hooks w self st).2) =
    length (procs st) + S (Py.count_char "," (post_gen_hooks self)) /\
  length (procs (FlaskForge.run_post_gen_hooks w self st).2) =
    length (procs st) + length (Py.split "," (post_gen_hooks self)) /\
  length (procs (FForge.run_post_gen_hooks w self st).2) =
    length (procs st) + S (Py.count_char "," (post_gen_hooks self)) /\
  (forall s, post_gen_hooks self = s +:+ "," ->
     last (procs (FlaskForge.run_post_gen_hooks w self st).2) =
       Some {| inv_args := ArgStr (p +:+ " && "); inv_shell := true;
               inv_cwd := Some (project_path self) |}) /\
  (forall blank st', Py.strip blank = "" ->
     create_blueprint w self (Py.strip blank) st' = (Ok tt, st')).
Proof.
  intros Hl Ha Ht.
  destruct (ff_hooks_procs w self Hl st p Ha) as (_ & H2 & _).
  destruct (fforge_hooks_procs w self Hl st p Ha) as (_ & H4 & _).
  unfold split_list in *. rewrite Ht in *.
  split_and!.
  - rewrite H2, length_app, length_map, split_length. reflexivity.
  - rewrite H2, length_app, length_map. reflexivity.
  - rewrite H4, length_app, length_map, split_length. reflexivity.
  - intros s Hs. rewrite H2, Hs.
    change (s +:+ ",") with (s +:+ String "," "").
    rewrite split_trailing_sep, map_app. simpl map.
    rewrite app_assoc, last_snoc. unfold hook_invocation. reflexivity.
  - intros blank st' ->. reflexivity.
Qed.

(** The hook string [echo a,] launches two commands, the second one blank. *)
Lemma blank_hook_segments_are_run_witness :
  let w := Scenario.world Scenario.all_zero Scenario.nothing_denied [] in
  let self := Scenario.forge (Scenario.command_line "shop" "" "" "echo a," None) in
  let st := set_activate "source /w/shop/.fforge/bin/activate" Scenario.empty_state in
  length (procs (FlaskForge.run_post_gen_hooks w self st).2) = 2 /\
  last (procs (FlaskForge.run_post_gen_hooks w self st).2) =
    Some {| inv_args := ArgStr "source /w/shop/.fforge/bin/activate && "; inv_shell := true;
            inv_cwd := Some "/w/shop" |}.
Proof.
  intros w self st.
  destruct (blank_hook_segments_are_run w self st "source /w/shop/.fforge/bin/activate")
    as (Hn & _ & _ & Hlast & _).
  - intros tr inv. eexists. reflexivity.
  - reflexivity.
  - reflexivity.
  - split; [rewrite Hn; reflexivity | apply (Hlast "echo a"); reflexivity].
Defined.

(** ** Which exceptions can leave a method *)

Section NeverRaises.
Context (bad : Exn -> bool).

Lemma nr_ret {A : Type} (a : A) : never_raises bad (mret a : M A).
Proof. intros st. exact I. Qed.

Lemma nr_bind {A B : Type} (m : M A) (k : A -> M B) :
  never_raises bad m -> (forall a, never_raises bad (k a)) -> never_raises bad (m ≫= k).
Proof.
  intros Hm Hk st. rewrite bind_run. specialize (Hm st).
  destruct (m st) as [[a|e] st1]; simpl in *; [apply Hk | exact Hm].
Qed.

Lemma nr_for_each {A : Type} (l : list A) (body : A -> M unit) :
  (forall x, never_raises bad (body x)) -> never_raises bad (for_each l body).
Proof.
  intros Hb. induction l as [|x l IH]; [apply nr_ret |].
  rewrite for_each_cons. apply nr_bind; [apply Hb | intros _; exact IH].
Qed.

(** A handler for the whole class shields it, whatever the body does. *)
Lemma nr_try_catch {A : Type} (body : M A) (catches : Exn -> bool) (h : Exn -> M A) :
  (forall e, bad e = true -> catches e = true) ->
  (forall e, never_raises bad (h e)) ->
  never_raises bad (try_except body catches h).
Proof.
  intros Hsub Hh st. unfold try_except.
  destruct (body st) as [[a|e] st1]; simpl; [exact I |].
  destruct (catches e) eqn:Ec; [apply Hh |]. simpl.
  destruct (bad e) eqn:Eb; [|reflexivity].
  rewrite (Hsub e Eb) in Ec. discriminate.
Qed.

Lemma nr_try {A : Type} (body : M A) (catches : Exn -> bool) (h : Exn -> M A) :
  never_raises bad body ->
  (forall e, never_raises bad (h e)) ->
  never_raises bad (try_except body catches h).
Proof.
  intros Hb Hh st. unfold try_except. specialize (Hb st).
  destruct (body st) as [[a|e] st1]; simpl in *; [exact I |].
  destruct (catches e); [apply Hh | exact Hb].
Qed.

Lemma nr_call (s : Stage) (m : M unit) : never_raises bad m -> never_raises bad (call s m).
Proof. intros Hm st. apply Hm. Qed.

Lemma nr_chain (l : list (Stage * M unit)) (final : M unit) :
  Forall (fun sm => never_raises bad sm.2) l -> never_raises bad final ->
  never_raises bad (chain l final).
Proof.
  intros Hl Hf. induction Hl as [|[s m] l Hm Hl IH]; [exact Hf |].
  simpl chain. apply nr_bind; [apply nr_call, Hm | intros _; exact IH].
Qed.

End NeverRaises.

(** A body that raises nothing its handler misses, under a handler that
    raises nothing, always returns. *)
Lemma total_try {A : Type} (body : M A) (catches : Exn -> bool) (h : Exn -> M A) :
  never_raises (fun e => negb (catches e)) body ->
  (forall e, never_raises (fun _ => true) (h e)) ->
  never_raises (fun _ => true) (try_except body catches h).
Proof.
  intros Hb Hh st. unfold try_except. specialize (Hb st).
  destruct (body st) as [[a|e] st1]; simpl in *; [exact I |].
  destruct (catches e); [apply Hh | discriminate].
Qed.

Lemma total_returns (m : M unit) (st : State) :
  never_raises (fun _ => true) m -> (m st).1 = Ok tt.
Proof. intros H. specialize (H st). destruct (m st).1 as [[]|e]; [reflexivity | discriminate]. Qed.

(** Without [check=True] a launch raises no [CalledProcessError]; no other
    primitive ever does. *)
Ltac nr_prim :=
  let st := fresh "st" in
  intros st;
  unfold os_makedirs, open_r, open_w, file_read, file_write, render_template,
    subprocess_run, logger_info, logger_error, get_activate_command,
    assign_activate_command, raise, mret, M_ret;
  repeat (case_match; simplify_eq/=); done.

Ltac nr_step :=
  match goal with
  | |- never_raises is_CalledProcessError (try_except _ is_CalledProcessError _) =>
      apply nr_try_catch; [done | intros ?]
  | |- never_raises _ (try_except _ _ _) => apply nr_try; [| intros ?]
  | |- never_raises _ (mbind _ _) => apply nr_bind; [| intros ?]
  | |- never_raises _ (for_each _ _) => apply nr_for_each; intros ?
  | |- never_raises _ (mret _) => apply nr_ret
  | |- never_raises _ (write_text _ _ _) => unfold write_text
  | |- never_raises _ (match ?x with _ => _ end) => destruct x
  | |- never_raises _ _ => nr_prim
  end.

Ltac nr_tac := repeat nr_step.

Lemma ff_run_no_called_process_error (w : World) (self : Forge) :
  never_raises is_CalledProcessError (FlaskForge.run w self).
Proof.
  rewrite ff_run_chain. apply nr_chain; [| nr_prim].
  repeat constructor; simpl.
  - unfold FlaskForge.create_directories. nr_tac.
  - unfold FlaskForge.create_virtualenv. nr_tac.
  - unfold FlaskForge.install_dependencies. nr_tac.
  - unfold create_base_files, render_file. nr_tac.
  - unfold create_blueprints, create_blueprint, create_blueprint_files. nr_tac.
  - unfold create_init_py. nr_tac.
  - unfold create_models_py. nr_tac.
  - unfold create_docker_files. nr_tac.
  - unfold create_ci_cd_files. nr_tac.
  - unfold FlaskForge.initialize_database. nr_tac.
  - unfold FlaskForge.run_post_gen_hooks, FlaskForge.run_hook. nr_tac.
Qed.

Lemma ff_create_directories_returns (w : World) (self : Forge) (st : State) :
  (FlaskForge.create_directories w self st).1 = Ok tt.
Proof.
  apply total_returns. unfold FlaskForge.create_directories.
  apply total_try; [| intros e; nr_prim]. nr_tac.
Qed.

(** What [create_directories] reports when the project root cannot be made. *)
Lemma ff_create_directories_logs_failure (w : World) (self : Forge) (st : State) :
  mkdir_denied w (project_path self) = true ->
  FlaskForge.create_directories w self st =
    (Ok tt, add_log (ERROR, "Error creating directories: " +:+
                            str_exc w (OSError (project_path self))) st).
Proof.
  intros Hd.
  unfold FlaskForge.create_directories, try_except, mbind, M_bind, os_makedirs, logger_error.
  rewrite Hd. reflexivity.
Qed.

(** What [create_virtualenv] does when the environment command exits with a
    status other than 0. *)
Lemma ff_create_virtualenv_logs_failure (w : World) (self : Forge) (st : State) (rc : Z) :
  proc_outcome w (procs st) (venv_invocation self) = Exited rc -> rc <> 0%Z ->
  FlaskForge.create_virtualenv w self st =
    (Ok tt, add_log (ERROR, "Error creating virtual environment: " +:+
                            str_exc w (CalledProcessError (venv_invocation self) rc))
              (add_proc (venv_invocation self) st)).
Proof.
  intros Ho Hrc.
  unfold FlaskForge.create_virtualenv, try_except, mbind, M_bind, subprocess_run,
    logger_error, venv_invocation in *.
  rewrite Ho. apply Z.eqb_neq in Hrc. rewrite Hrc. reflexivity.
Qed.

(** ** A run in which nothing but return codes goes wrong *)

Section BenignRun.
Variable w : World.
Variable self : Forge.
Hypothesis Hlaunch : launches w.
Hypothesis Hmkdir : forall p, mkdir_denied w p = false.
Hypothesis Hwrite : forall p, write_denied w p = false.
Hypothesis Hread : forall p, read_denied w p = false.
Hypothesis Hrender : forall src name, is_Some (jinja_render w src name).

Ltac total_prim :=
  let st := fresh "st" in
  unfold never_raises; intros st;
  unfold os_makedirs, open_w, file_write, logger_info, logger_error, mret, M_ret;
  rewrite ?Hmkdir, ?Hwrite; simpl; done.

Ltac total_step :=
  match goal with
  | |- never_raises _ (mbind _ _) => apply nr_bind; [| intros ?]
  | |- never_raises _ (for_each _ _) => apply nr_for_each; intros ?
  | |- never_raises _ (mret _) => apply nr_ret
  | |- never_raises _ (write_text _ _ _) => unfold write_text
  | |- never_raises _ (if ?x then _ else _) => destruct x
  | |- never_raises _ _ => total_prim
  end.

Lemma create_blueprints_total : never_raises (fun _ => true) (create_blueprints w self).
Proof.
  unfold create_blueprints, create_blueprint, create_blueprint_files. repeat total_step.
Qed.

Lemma create_init_py_total : never_raises (fun _ => true) (create_init_py w self).
Proof. unfold create_init_py. repeat total_step. Qed.

Lemma create_models_py_total : never_raises (fun _ => true) (create_models_py w self).
Proof. unfold create_models_py. repeat total_step. Qed.

Lemma create_docker_files_total : never_raises (fun _ => true) (create_docker_files w self).
Proof. unfold create_docker_files. repeat total_step. Qed.

Lemma create_ci_cd_files_total : never_raises (fun _ => true) (create_ci_cd_files w self).
Proof. unfold create_ci_cd_files. repeat total_step. Qed.

Lemma render_file_returns (root file : string) (st : State) :
  is_Some (fs_files st !! src_path root file) ->
  exists st', render_file w self root file st = (Ok tt, st') /\
    (forall p, is_Some (fs_files st !! p) -> is_Some (fs_files st' !! p)) /\
    activate_command st' = activate_command st.
Proof.
  intros [c Hc].
  unfold render_file, mbind, M_bind, os_makedirs, open_r, open_w, file_read,
    render_template, file_write.
  rewrite Hmkdir, Hread. simpl. rewrite Hc, Hwrite. simpl.
  destruct (Hrender (default "" (<[dest_path w self root file:=""]> (fs_files st)
                                   !! src_path root file)) (project_name self))
    as [out ->].
  simpl. eexists. split_and!; [reflexivity | | reflexivity].
  intros p Hp. simpl.
  destruct (decide (dest_path w self root file = p)) as [->|Hne].
  - rewrite lookup_insert_eq. eauto.
  - rewrite !lookup_insert_ne by done. exact Hp.
Qed.

Lemma render_loop_returns (items : list (string * string)) (st : State) :
  (forall it, it ∈ items -> is_Some (fs_files st !! src_path it.1 it.2)) ->
  (for_each items (fun it => render_file w self it.1 it.2) st).1 = Ok tt /\
  activate_command (for_each items (fun it => render_file w self it.1 it.2) st).2 =
    activate_command st.
Proof.
  revert st. induction items as [|[root file] items IH]; intros st Hs; [split; reflexivity |].
  rewrite for_each_cons, bind_run.
  destruct (render_file_returns root file st) as (st1 & Hr & Hmono & Ha).
  { apply (Hs (root, file)). left. }
  simpl. rewrite Hr.
  destruct (IH st1) as [H1 H2].
  { intros it Hit. apply Hmono, Hs. by right. }
  split; [exact H1 | by rewrite H2].
Qed.

Lemma create_base_files_returns (st : State) :
  (forall p, p ∈ template_sources w self -> is_Some (fs_files st !! p)) ->
  (create_base_files w self st).1 = Ok tt /\
  activate_command (create_base_files w self st).2 = activate_command st.
Proof.
  intros Hs. unfold create_base_files. rewrite bind_run.
  assert (Hn : for_each (os_walk w (template_path w self))
                 (fun entry => for_each entry.2 (fun file => render_file w self entry.1 file)) st =
               for_each (template_items w self) (fun it => render_file w self it.1 it.2) st)
    by exact (for_each_nested _ (render_file w self) st).
  rewrite Hn. clear Hn.
  destruct (render_loop_returns (template_items w self) st) as [H1 H2].
  { intros it Hit. apply Hs. unfold template_sources.
    apply list_elem_of_fmap. exists it. done. }
  destruct (for_each _ _ st) as [[[]|e] st1]; simpl in *; [|discriminate].
  split; [reflexivity | exact H2].
Qed.

Hypothesis Hvenv : venv_succeeds w self.

Local Abbreviation sources_present := (Obs.sources_present w self).
Local Abbreviation activated := (Obs.activated w self).

Lemma returns_keeps_files (m : M unit) :
  never_raises (fun _ => true) m -> keeps fs_files m ->
  returns sources_present m sources_present.
Proof.
  intros Ht Hk st Hs. split; [by apply total_returns |].
  unfold Obs.sources_present. rewrite Hk. exact Hs.
Qed.

Lemma returns_keeps_activation (m : M unit) :
  never_raises (fun _ => true) m -> keeps activate_command m ->
  returns activated m activated.
Proof.
  intros Ht Hk st Hs. split; [by apply total_returns |].
  unfold Obs.activated. rewrite Hk. exact Hs.
Qed.

Lemma returns_chain_cons (P Q R : State -> Prop) (s : Stage) (m : M unit)
    (l : list (Stage * M unit)) (final : M unit) :
  (forall st, P st -> P (add_stage s st)) ->
  returns P m Q -> returns Q (chain l final) R ->
  returns P (chain ((s, m) :: l) final) R.
Proof.
  intros Hs Hm Hc st HP.
  change (chain ((s, m) :: l) final st) with
    (match m (add_stage s st) with
     | (Ok _, st') => chain l final st'
     | (Raised e, st') => (Raised e, st')
     end).
  destruct (Hm (add_stage s st) (Hs st HP)) as [Hr HQ].
  destruct (m (add_stage s st)) as [[[]|e] st1]; simpl in *; [|discriminate].
  apply Hc, HQ.
Qed.

Lemma ff_create_directories_stage :
  returns sources_present (FlaskForge.create_directories w self) sources_present.
Proof.
  apply returns_keeps_files.
  - intros st. rewrite ff_create_directories_returns. exact I.
  - unfold FlaskForge.create_directories. keeps_tac.
Qed.

Lemma ff_create_virtualenv_stage :
  returns sources_present (FlaskForge.create_virtualenv w self)
    (fun st => sources_present st /\ activated st).
Proof.
  intros st Hs.
  unfold FlaskForge.create_virtualenv, try_except, mbind, M_bind, subprocess_run,
    logger_info, assign_activate_command.
  pose proof (Hvenv (procs st)) as Hv. unfold venv_invocation in Hv. rewrite Hv.
  simpl. split_and!; [reflexivity | exact Hs | reflexivity].
Qed.

Lemma ff_install_dependencies_ok (st : State) (p : string) :
  activate_command st = Some p ->
  (FlaskForge.install_dependencies w self st).1 = Ok tt /\
  activate_command (FlaskForge.install_dependencies w self st).2 = Some p /\
  fs_files (FlaskForge.install_dependencies w self st).2 = fs_files st.
Proof.
  intros Ha. unfold FlaskForge.install_dependencies.
  destruct (dependencies self) as [|d ds]; [by split_and! |].
  unfold try_except, mbind, M_bind, get_activate_command, subprocess_run,
    logger_info, logger_error.
  rewrite Ha. simpl.
  match goal with |- context [proc_outcome w ?tr ?i] =>
    destruct (Hlaunch tr i) as [rc ->] end.
  destruct (rc =? 0)%Z; simpl; split_and!; (reflexivity || exact Ha).
Qed.

Lemma ff_install_dependencies_stage :
  returns (fun st => sources_present st /\ activated st)
    (FlaskForge.install_dependencies w self)
    (fun st => sources_present st /\ activated st).
Proof.
  intros st [Hs Ha]. destruct (ff_install_dependencies_ok st _ Ha) as (H1 & H2 & H3).
  split_and!; [exact H1 | | exact H2].
  unfold Obs.sources_present. rewrite H3. exact Hs.
Qed.

Lemma create_base_files_stage :
  returns (fun st => sources_present st /\ activated st) (create_base_files w self) activated.
Proof.
  intros st [Hs Ha]. destruct (create_base_files_returns st Hs) as [H1 H2].
  split; [exact H1 |]. unfold Obs.activated. by rewrite H2.
Qed.

Lemma ff_initialize_database_ok (st : State) (p : string) :
  activate_command st = Some p ->
  (FlaskForge.initialize_database w self st).1 = Ok tt /\
  activate_command (FlaskForge.initialize_database w self st).2 = Some p.
Proof.
  intros Ha.
  unfold FlaskForge.initialize_database, try_except, mbind, M_bind,
    get_activate_command, subprocess_run, logger_info, logger_error.
  rewrite Ha. simpl.
  match goal with |- context [proc_outcome w ?tr ?i] =>
    destruct (Hlaunch tr i) as [rc1 ->] end.
  destruct (rc1 =? 0)%Z; simpl; [| by split].
  rewrite Ha. simpl.
  match goal with |- context [proc_outcome w ?tr ?i] =>
    destruct (Hlaunch tr i) as [rc2 ->] end.
  destruct (rc2 =? 0)%Z; simpl; [| by split].
  rewrite Ha. simpl.
  match goal with |- context [proc_outcome w ?tr ?i] =>
    destruct (Hlaunch tr i) as [rc3 ->] end.
  destruct (rc3 =? 0)%Z; simpl; by split.
Qed.

Lemma ff_initialize_database_stage :
  returns activated (FlaskForge.initialize_database w self) activated.
Proof. intros st Ha. by apply ff_initialize_database_ok. Qed.

Lemma ff_run_post_gen_hooks_stage :
  returns activated (FlaskForge.run_post_gen_hooks w self) activated.
Proof.
  intros st Ha. destruct (ff_hooks_procs w self Hlaunch st _ Ha) as (H1 & _ & H3).
  split; [exact H1 | exact H3].
Qed.

(** With the environment created and no file operation refused, the run
    returns, whatever the later commands' return codes. *)
Lemma errors_app (l1 l2 : list (Level * string)) :
  errors (l1 ++ l2) = errors l1 + errors l2.
Proof.
  induction l1 as [|[[] msg] l1 IH]; simpl; rewrite ?IH; reflexivity.
Qed.

Lemma replay_failures_snoc (done todo : list Invocation) (i : Invocation) :
  replay_failures w done (todo ++ [i]) =
  replay_failures w done todo +
    (if failed (proc_outcome w (done ++ todo) i) then 1 else 0).
Proof.
  revert done. induction todo as [|j todo IH]; intros done; simpl.
  - rewrite app_nil_r. lia.
  - rewrite IH, <- app_assoc. simpl. lia.
Qed.

Lemma failures_snoc (tr : list Invocation) (i : Invocation) :
  failures w (tr ++ [i]) =
  failures w tr + (if failed (proc_outcome w tr i) then 1 else 0).
Proof. unfold failures. rewrite replay_failures_snoc. reflexivity. Qed.

Lemma logger_info_keeps_errors (msg : string) :
  keeps (fun st => errors (log st)) (logger_info msg).
Proof. intros st. simpl. rewrite errors_app. simpl. lia. Qed.

Ltac keeps_errors_tac := repeat first [apply logger_info_keeps_errors | keeps_step].

Lemma balanced_of_keeps (m : M unit) (st : State) :
  keeps procs m -> keeps (fun st => errors (log st)) m -> balanced w st (m st).2.
Proof. intros Hp He. unfold balanced. rewrite Hp, (He st). reflexivity. Qed.

Lemma create_base_files_balanced (st : State) :
  balanced w st (create_base_files w self st).2.
Proof.
  apply balanced_of_keeps; unfold create_base_files, render_file;
    [keeps_tac | keeps_errors_tac].
Qed.

Lemma create_blueprints_balanced (st : State) :
  balanced w st (create_blueprints w self st).2.
Proof.
  apply balanced_of_keeps;
    unfold create_blueprints, create_blueprint, create_blueprint_files;
    [keeps_tac | keeps_errors_tac].
Qed.

Lemma create_init_py_balanced (st : State) : balanced w st (create_init_py w self st).2.
Proof. apply balanced_of_keeps; unfold create_init_py; [keeps_tac | keeps_errors_tac]. Qed.

Lemma create_models_py_balanced (st : State) : balanced w st (create_models_py w self st).2.
Proof. apply balanced_of_keeps; unfold create_models_py; [keeps_tac | keeps_errors_tac]. Qed.

Lemma create_docker_files_balanced (st : State) :
  balanced w st (create_docker_files w self st).2.
Proof. apply balanced_of_keeps; unfold create_docker_files; [keeps_tac | keeps_errors_tac]. Qed.

Lemma create_ci_cd_files_balanced (st : State) :
  balanced w st (create_ci_cd_files w self st).2.
Proof. apply balanced_of_keeps; unfold create_ci_cd_files; [keeps_tac | keeps_errors_tac]. Qed.

Lemma ff_create_directories_balanced (st : State) :
  balanced w st (FlaskForge.create_directories w self st).2.
Proof.
  unfold FlaskForge.create_directories, try_except, mbind, M_bind, os_makedirs, logger_info.
  rewrite !Hmkdir. unfold balanced. simpl. rewrite errors_app. simpl. lia.
Qed.

Lemma ff_create_virtualenv_balanced (st : State) :
  balanced w st (FlaskForge.create_virtualenv w self st).2.
Proof.
  unfold FlaskForge.create_virtualenv, try_except, mbind, M_bind, subprocess_run,
    logger_info, assign_activate_command.
  pose proof (Hvenv (procs st)) as Hv. unfold venv_invocation in Hv. rewrite Hv.
  unfold balanced. simpl. rewrite errors_app, failures_snoc, Hv. simpl. lia.
Qed.

(** One guarded launch: the two ways it can end, each balanced. *)
Ltac launch_cases Ha :=
  rewrite ?Ha; simpl;
  match goal with
  | |- context [proc_outcome w ?tr ?i] =>
      let rc := fresh "rc" in
      let Hrc := fresh "Hrc" in
      let Hz := fresh "Hz" in
      destruct (Hlaunch tr i) as [rc Hrc]; rewrite Hrc;
      destruct (rc =? 0)%Z eqn:Hz; simpl
  end.

Ltac balance_arith :=
  unfold balanced; simpl;
  rewrite ?errors_app, ?failures_snoc; simpl;
  repeat match goal with
         | H : proc_outcome w _ _ = Exited _ |- _ => rewrite H; clear H
         end;
  simpl;
  repeat match goal with
         | H : (_ =? 0)%Z = _ |- _ => rewrite H; clear H
         end;
  simpl; lia.

Lemma ff_install_dependencies_balanced (st : State) (p : string) :
  activate_command st = Some p ->
  balanced w st (FlaskForge.install_dependencies w self st).2.
Proof.
  intros Ha. unfold FlaskForge.install_dependencies.
  destruct (dependencies self) as [|d ds]; [reflexivity |].
  unfold try_except, mbind, M_bind, get_activate_command, subprocess_run,
    logger_info, logger_error.
  launch_cases Ha; balance_arith.
Qed.

Lemma ff_initialize_database_balanced (st : State) (p : string) :
  activate_command st = Some p ->
  balanced w st (FlaskForge.initialize_database w self st).2.
Proof.
  intros Ha.
  unfold FlaskForge.initialize_database, try_except, mbind, M_bind,
    get_activate_command, subprocess_run, logger_info, logger_error.
  launch_cases Ha; [| balance_arith].
  launch_cases Ha; [| balance_arith].
  launch_cases Ha; balance_arith.
Qed.

Lemma ff_hooks_loop_balanced (hooks : list string) (st : State) (p : string) :
  activate_command st = Some p ->
  balanced w st (for_each hooks (FlaskForge.run_hook w self) st).2.
Proof.
  revert st. induction hooks as [|h hooks IH]; intros st Ha; [reflexivity |].
  rewrite for_each_cons, bind_run.
  assert (Hh : exists st1, FlaskForge.run_hook w self h st = (Ok tt, st1) /\
               activate_command st1 = Some p /\ balanced w st st1).
  { unfold FlaskForge.run_hook, try_except, mbind, M_bind, get_activate_command,
      subprocess_run, logger_error.
    launch_cases Ha; (eexists; split_and!; [reflexivity | exact Ha | balance_arith]). }
  destruct Hh as (st1 & -> & Ha1 & Hb1).
  specialize (IH st1 Ha1). unfold balanced in *. lia.
Qed.

Lemma ff_run_post_gen_hooks_balanced (st : State) (p : string) :
  activate_command st = Some p ->
  balanced w st (FlaskForge.run_post_gen_hooks w self st).2.
Proof.
  intros Ha. unfold FlaskForge.run_post_gen_hooks.
  destruct (Py.truthy (post_gen_hooks self)); [| reflexivity].
  rewrite bind_run.
  pose proof (ff_hooks_loop_balanced (Py.split "," (post_gen_hooks self)) st p Ha) as Hb.
  destruct (for_each _ _ st) as [[[]|e] st1]; simpl in *; [| exact Hb].
  unfold balanced in *. simpl. rewrite errors_app. simpl. lia.
Qed.

(** A stage that returns and is balanced carries the balance with [st0]. *)
Lemma returns_balanced (P Q : State -> Prop) (m : M unit) (st0 : State) :
  returns P m Q -> (forall st, P st -> balanced w st (m st).2) ->
  returns (fun st => P st /\ balanced w st0 st) m (fun st => Q st /\ balanced w st0 st).
Proof.
  intros Hm Hb st [HP H0]. destruct (Hm st HP) as [Hr HQ].
  split_and!; [exact Hr | exact HQ |].
  specialize (Hb st HP). unfold balanced in *. lia.
Qed.

(** With the environment created and no file operation refused, the run
    returns, whatever the later commands' return codes, and has logged one
    ERROR record for each launch that failed. *)
Lemma ff_run_returns (st0 : State) :
  sources_present st0 ->
  (FlaskForge.run w self st0).1 = Ok tt /\ balanced w st0 (FlaskForge.run w self st0).2.
Proof.
  intros Hs. rewrite ff_run_chain.
  assert (Hrun : returns (fun st => sources_present st /\ balanced w st0 st)
                   (chain
                      [ (createDirectories, FlaskForge.create_directories w self);
                        (createEnvironment, FlaskForge.create_virtualenv w self);
                        (installDependencies, FlaskForge.install_dependencies w self);
                        (renderTemplateSet, create_base_files w self);
                        (generateBlueprints, create_blueprints w self);
                        (writeInitFile, create_init_py w self);
                        (writeModelsFile, create_models_py w self);
                        (writeDockerFiles, create_docker_files w self);
                        (writeCiFiles, create_ci_cd_files w self);
                        (initializeDatabase, FlaskForge.initialize_database w self);
                        (runPostGenHooks, FlaskForge.run_post_gen_hooks w self) ]
                      (logger_info ("Flask project " +:+ project_name self +:+
                                    " created successfully")))
                   (balanced w st0)).
  2:{ apply Hrun. split; [exact Hs | reflexivity]. }
  eapply returns_chain_cons; [intros ? H; exact H | |].
  { apply returns_balanced; [apply ff_create_directories_stage |].
    intros st _. apply ff_create_directories_balanced. }
  eapply returns_chain_cons; [intros ? H; exact H | |].
  { apply returns_balanced; [apply ff_create_virtualenv_stage |].
    intros st _. apply ff_create_virtualenv_balanced. }
  eapply returns_chain_cons; [intros ? H; exact H | |].
  { apply returns_balanced; [apply ff_install_dependencies_stage |].
    intros st [_ Ha]. by eapply ff_install_dependencies_balanced. }
  eapply returns_chain_cons; [intros ? H; exact H | |].
  { apply returns_balanced; [apply create_base_files_stage |].
    intros st _. apply create_base_files_balanced. }
  eapply returns_chain_cons; [intros ? H; exact H | |].
  { apply returns_balanced; [apply (returns_keeps_activation _ create_blueprints_total) |].
    - unfold create_blueprints, create_blueprint, create_blueprint_files. keeps_tac.
    - intros st _. apply create_blueprints_balanced. }
  eapply returns_chain_cons; [intros ? H; exact H | |].
  { apply returns_balanced; [apply (returns_keeps_activation _ create_init_py_total) |].
    - unfold create_init_py. keeps_tac.
    - intros st _. apply create_init_py_balanced. }
  eapply returns_chain_cons; [intros ? H; exact H | |].
  { apply returns_balanced; [apply (returns_keeps_activation _ create_models_py_total) |].
    - unfold create_models_py. keeps_tac.
    - intros st _. apply create_models_py_balanced. }
  eapply returns_chain_cons; [intros ? H; exact H | |].
  { apply returns_balanced; [apply (returns_keeps_activation _ create_docker_files_total) |].
    - unfold create_docker_files. keeps_tac.
    - intros st _. apply create_docker_files_balanced. }
  eapply returns_chain_cons; [intros ? H; exact H | |].
  { apply returns_balanced; [apply (returns_keeps_activation _ create_ci_cd_files_total) |].
    - unfold create_ci_cd_files. keeps_tac.
    - intros st _. apply create_ci_cd_files_balanced. }
  eapply returns_chain_cons; [intros ? H; exact H | |].
  { apply returns_balanced; [apply ff_initialize_database_stage |].
    intros st Ha. by eapply ff_initialize_database_balanced. }
  eapply returns_chain_cons; [intros ? H; exact H | |].
  { apply returns_balanced; [apply ff_run_post_gen_hooks_stage |].
    intros st Ha. by eapply ff_run_post_gen_hooks_balanced. }
  intros st' [_ Hb]. split; [reflexivity |].
  unfold balanced in *. simpl. rewrite errors_app. simpl. lia.
Qed.

End BenignRun.

(** ** Failure isolation *)




(** When environment creation exits 1 the attribute [activate_command] is
    never assigned, and reading it raises an [AttributeError] that no handler
    of [flaskforge.py] catches: the run ends in installDependencies (or, with
    no dependencies, in initializeDatabase) with exit status 1.  [fforge.py],
    which assigns the attribute whatever the return code, goes through all
    its stages. *)
Example environment_failure_scenario :
  let w := Scenario.world Scenario.venv_fails Scenario.nothing_denied [] in
  let r := FlaskForge.main w
             (Scenario.command_line "shop" "" Scenario.default_dependencies "echo a" None)
             Scenario.empty_state in
  let r' := FlaskForge.main w (Scenario.command_line "shop" "" "" "echo a" None)
              Scenario.empty_state in
  let r'' := FForge.main w (Scenario.command_line "shop" "" "" "echo a" None)
               Scenario.empty_state in
  (r.1 = Raised (AttributeError "activate_command") /\
   exit_status r.1 = 1%Z /\
   stages r.2 = [createDirectories; createEnvironment; installDependencies]) /\
  (r'.1 = Raised (AttributeError "activate_command") /\
   stages r'.2 = take 10 FlaskForge.pipeline) /\
  (r''.1 = Ok tt /\ stages r''.2 = FForge.pipeline).
Proof. vm_compute. split_and!; reflexivity. Qed.

(** ** Failures of the rendering stage *)

Lemma for_each_raises {A : Type} (l : list A) (body : A -> M unit) (x : A) :
  x ∈ l -> (forall st, exists e, (body x st).1 = Raised e) ->
  forall st, exists e, (for_each l body st).1 = Raised e.
Proof.
  intros Hx Hbad. induction l as [|y l IH]; intros st.
  - by apply not_elem_of_nil in Hx.
  - rewrite for_each_cons, bind_run.
    destruct (body y st) as [[[]|e] st1] eqn:Ey.
    + apply elem_of_cons in Hx as [->|Hx].
      * destruct (Hbad st) as [e He]. rewrite Ey in He. discriminate.
      * apply IH, Hx.
    + by exists e.
Qed.

Lemma chain_stops (l : list (Stage * M unit)) (final : M unit) (i : nat) (s : Stage)
    (m : M unit) :
  l !! i = Some (s, m) ->
  (forall st, exists e, (m st).1 = Raised e) ->
  Forall (fun sm => keeps stages sm.2) l ->
  forall st, exists e k,
    (chain l final st).1 = Raised e /\ 1 <= k <= S i /\
    stages (chain l final st).2 = (stages st ++ take k (map fst l))%list.
Proof.
  intros Hi Hbad Hl. revert i Hi.
  induction Hl as [|[s0 m0] l Hm Hl IH]; intros i Hi st; [done |].
  change (chain ((s0, m0) :: l) final st) with
    (match m0 (add_stage s0 st) with
     | (Ok _, st') => chain l final st'
     | (Raised e, st') => (Raised e, st')
     end).
  simpl in Hm. pose proof (Hm (add_stage s0 st)) as Hs.
  destruct (m0 (add_stage s0 st)) as [[[]|e] st1] eqn:Em; simpl in Hs.
  - destruct i as [|i]; simpl in Hi.
    + injection Hi as -> ->. destruct (Hbad (add_stage s st)) as [e He].
      rewrite Em in He. discriminate.
    + destruct (IH i Hi st1) as (e & k & Hr & Hk & Htr).
      exists e, (S k). split_and!; [exact Hr | lia | lia |].
      rewrite Htr, Hs. simpl. rewrite <- app_assoc. reflexivity.
  - exists e, 1. split_and!; [reflexivity | lia | lia |].
    simpl. rewrite Hs, take_0. reflexivity.
Qed.

Section RenderFailure.
Variable w : World.
Variable self : Forge.

Lemma render_file_raises (root file : string) :
  read_denied w (src_path root file) = true \/
  write_denied w (dest_path w self root file) = true ->
  forall st, exists e, (render_file w self root file st).1 = Raised e.
Proof.
  intros Hd st.
  unfold render_file, mbind, M_bind, os_makedirs, open_r, open_w.
  destruct (mkdir_denied w _); [eauto |]. simpl.
  destruct (read_denied w (src_path root file)) eqn:Er; [eauto |].
  destruct Hd as [Hd | Hd]; [discriminate |].
  destruct (fs_files st !! src_path root file); [| eauto].
  simpl. rewrite Hd. eauto.
Qed.

Lemma render_loop_keeps_log :
  keeps log (for_each (os_walk w (template_path w self)) (fun entry =>
               for_each entry.2 (fun file => render_file w self entry.1 file))).
Proof. unfold render_file. keeps_tac. Qed.

Lemma create_base_files_raises (root file : string) (files : list string) :
  (root, files) ∈ os_walk w (template_path w self) -> file ∈ files ->
  read_denied w (src_path root file) = true \/
  write_denied w (dest_path w self root file) = true ->
  forall st, exists e,
    (create_base_files w self st).1 = Raised e /\
    log (create_base_files w self st).2 = log st.
Proof.
  intros Hroot Hfile Hd st. unfold create_base_files. rewrite bind_run.
  pose proof (render_loop_keeps_log st) as Hlog.
  assert (Hr : exists e,
             (for_each (os_walk w (template_path w self)) (fun entry =>
                for_each entry.2 (fun file => render_file w self entry.1 file)) st).1
             = Raised e).
  { apply (for_each_raises _ _ (root, files) Hroot). intros st0. simpl.
    apply (for_each_raises _ _ file Hfile). intros st1.
    by apply render_file_raises. }
  destruct Hr as [e He].
  destruct (for_each _ _ st) as [[[]|e'] st1]; simpl in *; [discriminate |].
  exists e'. split; [reflexivity | exact Hlog].
Qed.

End RenderFailure.

(** C5 (as amended).  When some template file cannot be read, or its
    destination cannot be written, the rendering stage of either variant
    ends by raising; it has no handler and logs nothing, so the exception
    leaves the stage.  A run then ends with an exception as well, in the
    rendering stage at the latest: blueprint generation and the stages after
    it are not entered. *)
Theorem render_failure_propagates (w : World) (self : Forge) (root file : string)
    (files : list string) :
  (root, files) ∈ os_walk w (template_path w self) ->
  file ∈ files ->
  read_denied w (PosixPath.join root file) = true \/
  write_denied w (dest_path w self root file) = true ->
  forall st,
    (exists e, (create_base_files w self st).1 = Raised e /\
               log (create_base_files w self st).2 = log st) /\
    (exists e k, (FlaskForge.run w self st).1 = Raised e /\ 1 <= k <= 4 /\
       stages (FlaskForge.run w self st).2 = (stages st ++ take k FlaskForge.pipeline)%list) /\
    (exists e k, (FForge.run w self st).1 = Raised e /\ 1 <= k <= 3 /\
       stages (FForge.run w self st).2 = (stages st ++ take k FForge.pipeline)%list).
Proof.
  intros Hroot Hfile Hd st.
  assert (Hbad : forall st0, exists e, (create_base_files w self st0).1 = Raised e).
  { intros st0. destruct (create_base_files_raises w self root file files Hroot Hfile Hd st0)
      as (e & He & _). by exists e. }
  split_and!.
  - by eapply create_base_files_raises.
  - rewrite ff_run_chain.
    match goal with |- context [chain ?l ?f st] =>
      destruct (chain_stops l f 3 renderTemplateSet (create_base_files w self)
                  eq_refl Hbad) with (st := st) as (e & k & Hr & Hk & Htr)
    end.
    + repeat constructor; simpl;
        auto using ff_create_directories_keeps_stages, ff_create_virtualenv_keeps_stages,
          ff_install_dependencies_keeps_stages, create_base_files_keeps_stages,
          create_blueprints_keeps_stages, create_init_py_keeps_stages,
          create_models_py_keeps_stages, create_docker_files_keeps_stages,
          create_ci_cd_files_keeps_stages, ff_initialize_database_keeps_stages,
          ff_run_post_gen_hooks_keeps_stages.
    + exists e, k. split_and!; [exact Hr | lia | lia | exact Htr].
  - rewrite fforge_run_chain.
    match goal with |- context [chain ?l ?f st] =>
      destruct (chain_stops l f 2 renderTemplateSet (create_base_files w self)
                  eq_refl Hbad) with (st := st) as (e & k & Hr & Hk & Htr)
    end.
    + repeat constructor; simpl;
        auto using fforge_create_directories_keeps_stages,
          fforge_create_virtualenv_keeps_stages, create_base_files_keeps_stages,
          create_blueprints_keeps_stages, create_init_py_keeps_stages,
          create_models_py_keeps_stages, create_docker_files_keeps_stages,
          create_ci_cd_files_keeps_stages, fforge_initialize_database_keeps_stages,
          fforge_run_post_gen_hooks_keeps_stages.
    + exists e, k. split_and!; [exact Hr | lia | lia | exact Htr].
Qed.

(** The rendered copy of [app.py] cannot be written: the stage logs nothing. *)
Lemma render_failure_propagates_witness :
  let w := Scenario.world Scenario.all_zero Scenario.app_py_denied Scenario.one_template in
  let self := Scenario.forge (Scenario.command_line "shop" "" "" "" None) in
  write_denied w (dest_path w self "/opt/ff/templates/rest_api" "app.py") = true /\
  log (create_base_files w self Scenario.template_state).2 = [].
Proof.
  intros w self.
  assert (Hd : write_denied w (dest_path w self "/opt/ff/templates/rest_api" "app.py") = true)
    by (vm_compute; reflexivity).
  split; [exact Hd |].
  destruct (render_failure_propagates w self "/opt/ff/templates/rest_api" "app.py" ["app.py"])
    with (st := Scenario.template_state) as ((e & _ & Hlog) & _).
  - vm_compute. left.
  - left.
  - right. exact Hd.
  - exact Hlog.
Defined.

(** C5, as stated, fails: the unwritable destination is not logged, and the
    error leaves the rendering stage and ends the run with exit status 1. *)
Lemma render_failure_is_not_logged :
  let w := Scenario.world Scenario.all_zero Scenario.app_py_denied Scenario.one_template in
  let self := Scenario.forge (Scenario.command_line "shop" "" "" "" None) in
  let r := FlaskForge.main w (Scenario.command_line "shop" "" "" "" None)
             Scenario.template_state in
  create_base_files w self Scenario.template_state =
    (Raised (OSError "/w/shop/app.py"),
     set_dirs {[ "/w/shop" ]} Scenario.template_state) /\
  r.1 = Raised (OSError "/w/shop/app.py") /\
  exit_status r.1 = 1%Z /\
  errors (log r.2) = 0 /\
  stages r.2 = [createDirectories; createEnvironment; installDependencies; renderTemplateSet].
Proof. vm_compute. split_and!; reflexivity. Qed.

(** ** Paths of a blueprint *)

Lemma startswith_app_cancel (a x y : string) :
  Py.startswith (a +:+ x) (a +:+ y) = Py.startswith x y.
Proof.
  induction a as [|c a IH]; [reflexivity |].
  rewrite !append_cons. simpl. rewrite Ascii.eqb_refl. exact IH.
Qed.

Lemma no_sep_cons (c : ascii) (s : string) :
  no_sep (String c s) -> c <> "/"%char /\ no_sep s.
Proof.
  unfold no_sep. simpl. destruct (Ascii.eqb_spec c "/"%char) as [->|Hne]; [discriminate |].
  intros H. split; [exact Hne | exact H].
Qed.

(** A component without separator is cut off a path in one way only. *)
Lemma component_unique (b b' s s' : string) :
  no_sep b -> no_sep b' -> is_tail s -> is_tail s' ->
  b +:+ s = b' +:+ s' -> b = b' /\ s = s'.
Proof.
  revert b'. induction b as [|c b IH]; intros [|c' b'] Hb Hb' Hs Hs' Heq.
  - by rewrite !append_empty_l in Heq.
  - rewrite append_empty_l, append_cons in Heq. apply no_sep_cons in Hb' as [Hc _].
    destruct s; [discriminate |]. simpl in Hs. congruence.
  - rewrite append_empty_l, append_cons in Heq. apply no_sep_cons in Hb as [Hc _].
    destruct s'; [discriminate |]. simpl in Hs'. congruence.
  - rewrite !append_cons in Heq. injection Heq as -> Heq.
    apply no_sep_cons in Hb as [_ Hb]. apply no_sep_cons in Hb' as [_ Hb'].
    destruct (IH b' Hb Hb' Hs Hs' Heq) as [-> ->]. done.
Qed.

Lemma startswith_cons (a b : ascii) (p s : string) :
  Py.startswith (String a p) (String b s) = Ascii.eqb a b && Py.startswith p s.
Proof. reflexivity. Qed.

Lemma component_prefix_unique (b b' s' : string) :
  no_sep b -> no_sep b' -> is_tail s' ->
  Py.startswith (b +:+ "/") (b' +:+ s') = true -> b = b'.
Proof.
  revert b'. induction b as [|c b IH]; intros [|c' b'] Hb Hb' Hs' Hp.
  - reflexivity.
  - rewrite append_empty_l, append_cons, startswith_cons in Hp.
    apply no_sep_cons in Hb' as [Hc _].
    apply andb_true_iff in Hp as [Hp _]. apply Ascii.eqb_eq in Hp. congruence.
  - rewrite append_empty_l, append_cons in Hp. apply no_sep_cons in Hb as [Hc _].
    destruct s' as [|x s']; [discriminate |]. rewrite startswith_cons in Hp.
    apply andb_true_iff in Hp as [Hp _]. apply Ascii.eqb_eq in Hp.
    simpl in Hs'. congruence.
  - rewrite !append_cons, startswith_cons in Hp.
    apply andb_true_iff in Hp as [Hc Hp]. apply Ascii.eqb_eq in Hc. subst c'.
    apply no_sep_cons in Hb as [_ Hb]. apply no_sep_cons in Hb' as [_ Hb'].
    f_equal. by eapply IH.
Qed.

Lemma join_dir_prefix (a b : string) :
  PosixPath.isabs b = false -> PosixPath.join a b = dir_prefix a +:+ b.
Proof.
  intros Hb. rewrite join_relative by exact Hb. unfold dir_prefix.
  destruct (negb (Py.truthy a) || PosixPath.endswith_sep a); [reflexivity |].
  by rewrite append_assoc.
Qed.

Lemma isabs_component (b s : string) :
  Py.truthy b = true -> no_sep b -> PosixPath.isabs (b +:+ s) = false.
Proof.
  destruct b as [|c b]; [discriminate |]. intros _ Hb.
  apply no_sep_cons in Hb as [Hc _]. rewrite append_cons. simpl.
  by apply Ascii.eqb_neq.
Qed.

Lemma endswith_sep_component (a b : string) :
  Py.truthy b = true -> no_sep b -> PosixPath.endswith_sep (a +:+ b) = false.
Proof.
  intros Hb Hn. induction a as [|c a IH].
  - rewrite append_empty_l. clear Hb.
    induction b as [|c b IHb]; [reflexivity |].
    apply no_sep_cons in Hn as [Hc Hn]. simpl.
    destruct b; [by apply Ascii.eqb_neq | by apply IHb].
  - rewrite append_cons. simpl.
    destruct (a +:+ b) eqn:E; [| exact IH].
    destruct a; [| discriminate]. rewrite append_empty_l in E. subst b. discriminate.
Qed.

Lemma dir_prefix_component (a b : string) :
  Py.truthy b = true -> no_sep b -> dir_prefix (a +:+ b) = a +:+ b +:+ "/".
Proof.
  intros Hb Hn. unfold dir_prefix.
  rewrite (truthy_append_r a b Hb), (endswith_sep_component a b Hb Hn). simpl.
  by rewrite append_assoc.
Qed.

Section BlueprintPaths.
Variable self : Forge.

Local Abbreviation pkg := (Obs.pkg self).

Lemma bp_dir_eq (b : string) :
  Py.truthy b = true -> no_sep b -> bp_dir self b = pkg +:+ b.
Proof.
  intros Hb Hn. unfold bp_dir, Obs.pkg. apply join_dir_prefix.
  rewrite <- (append_nil_r b). by apply isabs_component.
Qed.

Lemma bp_join_eq (b name : string) :
  Py.truthy b = true -> no_sep b -> PosixPath.isabs name = false ->
  PosixPath.join (bp_dir self b) name = pkg +:+ b +:+ "/" +:+ name.
Proof.
  intros Hb Hn Hname. rewrite join_dir_prefix by exact Hname.
  rewrite bp_dir_eq by done. rewrite dir_prefix_component by done.
  by rewrite !append_assoc.
Qed.

Lemma bp_home_eq (b : string) :
  Py.truthy b = true -> no_sep b ->
  PosixPath.join (PosixPath.join (bp_dir self b) "templates") (b +:+ "_home.html") =
    pkg +:+ b +:+ "/templates/" +:+ b +:+ "_home.html".
Proof.
  intros Hb Hn. rewrite bp_join_eq by done.
  rewrite join_dir_prefix by (by apply isabs_component).
  assert (Hd : dir_prefix (pkg +:+ b +:+ "/" +:+ "templates") =
               pkg +:+ b +:+ "/" +:+ "templates" +:+ "/").
  { rewrite <- !append_assoc. rewrite dir_prefix_component by done.
    by rewrite !append_assoc. }
  rewrite Hd. rewrite !append_assoc. reflexivity.
Qed.

(** Each path of a blueprint is its directory followed by a tail. *)
Lemma bp_paths_shape (b p : string) :
  Py.truthy b = true -> no_sep b ->
  p ∈ (bp_dirs self b ++ bp_files self b)%list ->
  exists s, is_tail s /\ p = pkg +:+ b +:+ s.
Proof.
  intros Hb Hn Hp. unfold bp_dirs, bp_files in Hp. simpl in Hp.
  rewrite bp_home_eq in Hp by done. rewrite !bp_join_eq in Hp by done.
  rewrite bp_dir_eq in Hp by done.
  repeat (apply elem_of_cons in Hp as [-> | Hp]);
    [ exists "" | exists "/templates" | exists "/static" | exists "/routes.py"
    | exists "/__init__.py" | exists "/forms.py"
    | exists ("/templates/" +:+ b +:+ "_home.html") | by apply not_elem_of_nil in Hp ];
    (split; [by cbv | by rewrite ?append_nil_r]).
Qed.

Lemma bp_paths_under (b p : string) :
  Py.truthy b = true -> no_sep b ->
  p ∈ (bp_dirs self b ++ bp_files self b)%list -> under (bp_dir self b) p = true.
Proof.
  intros Hb Hn Hp. destruct (bp_paths_shape b p Hb Hn Hp) as (s & Hs & ->).
  rewrite bp_dir_eq by done. unfold under.
  destruct s as [|c s].
  - rewrite append_nil_r, String.eqb_refl. reflexivity.
  - simpl in Hs. subst c. apply orb_true_iff. right.
    rewrite (append_assoc pkg b "/").
    rewrite startswith_app_cancel, startswith_app_cancel. reflexivity.
Qed.

(** A path of one blueprint lies under the directory of no other. *)
Lemma bp_path_owner (b b' p : string) :
  Py.truthy b = true -> no_sep b -> Py.truthy b' = true -> no_sep b' ->
  p ∈ (bp_dirs self b' ++ bp_files self b')%list ->
  under (bp_dir self b) p = true -> b = b'.
Proof.
  intros Hb Hn Hb' Hn' Hp Hu.
  destruct (bp_paths_shape b' p Hb' Hn' Hp) as (s & Hs & ->).
  rewrite bp_dir_eq in Hu by done. unfold under in Hu.
  apply orb_true_iff in Hu as [Hu | Hu].
  - apply String.eqb_eq in Hu. apply (inj (String.app pkg)) in Hu.
    rewrite <- (append_nil_r b) in Hu.
    symmetry. by eapply (component_unique b' b s "").
  - rewrite (append_assoc pkg b "/"), startswith_app_cancel in Hu.
    by eapply component_prefix_unique.
Qed.

End BlueprintPaths.

(** ** Effects of blueprint generation *)

Section BlueprintEffects.
Variable w : World.
Variable self : Forge.
Hypothesis Hmkdir : forall p, mkdir_denied w p = false.
Hypothesis Hwrite : forall p, write_denied w p = false.

Lemma os_makedirs_effect (p : string) (st : State) :
  os_makedirs w p st = (Ok tt, set_dirs ({[p]} ∪ fs_dirs st) st).
Proof. unfold os_makedirs. by rewrite Hmkdir. Qed.

Lemma write_text_effect (p s : string) (st : State) :
  write_text w p s st = (Ok tt, set_files (<[p := s]> (fs_files st)) st).
Proof.
  unfold write_text, mbind, M_bind, open_w, file_write. rewrite Hwrite. simpl.
  rewrite lookup_insert_eq. simpl. rewrite append_empty_l, insert_insert_eq.
  reflexivity.
Qed.

Lemma create_blueprint_effect (bp : string) (st : State) :
  Py.truthy bp = true ->
  create_blueprint w self bp st =
    (Ok tt, set_files (bp_written self bp (fs_files st))
              (set_dirs (bp_made self bp (fs_dirs st)) st)).
Proof.
  intros Hb. unfold create_blueprint, create_blueprint_files. rewrite Hb.
  rewrite (bind_ok _ _ _ _ _ (os_makedirs_effect _ _)).
  rewrite (bind_ok _ _ _ _ _ (os_makedirs_effect _ _)).
  rewrite (bind_ok _ _ _ _ _ (os_makedirs_effect _ _)).
  rewrite (bind_ok _ _ _ _ _ (write_text_effect _ _ _)).
  rewrite (bind_ok _ _ _ _ _ (write_text_effect _ _ _)).
  rewrite (bind_ok _ _ _ _ _ (write_text_effect _ _ _)).
  rewrite write_text_effect. reflexivity.
Qed.

Lemma create_blueprints_loop (bps : list string) (st : State) :
  let names := filter (fun b => Py.truthy b = true) (map Py.strip bps) in
  for_each bps (fun bp => create_blueprint w self (Py.strip bp)) st =
    (Ok tt, set_files (foldl (fun m b => bp_written self b m) (fs_files st) names)
              (set_dirs (foldl (fun d b => bp_made self b d) (fs_dirs st) names) st)).
Proof.
  revert st. induction bps as [|bp bps IH]; intros st.
  - simpl. destruct st; reflexivity.
  - rewrite for_each_cons, bind_run. simpl map. rewrite filter_cons.
    destruct (decide (Py.truthy (Py.strip bp) = true)) as [Hb|Hb].
    + rewrite create_blueprint_effect by exact Hb. rewrite IH. reflexivity.
    + unfold create_blueprint at 1. apply not_true_is_false in Hb. rewrite Hb.
      simpl. apply IH.
Qed.

Lemma create_blueprints_effect (st : State) :
  create_blueprints w self st =
    (Ok tt,
     add_log (INFO, "Blueprints created")
       (set_files (foldl (fun m b => bp_written self b m) (fs_files st) (blueprint_names self))
          (set_dirs (foldl (fun d b => bp_made self b d) (fs_dirs st) (blueprint_names self))
             st))).
Proof.
  unfold create_blueprints. rewrite bind_run, create_blueprints_loop. reflexivity.
Qed.

End BlueprintEffects.

Lemma made_dirs (self : Forge) (names : list string) (d : gset string) :
  foldl (fun d b => bp_made self b d) d names =
    list_to_set (flat_map (bp_dirs self) names) ∪ d.
Proof.
  revert d. induction names as [|b names IH]; intros d; simpl.
  - set_solver.
  - rewrite IH. unfold bp_made, bp_dirs. set_solver.
Qed.

Lemma written_dom (self : Forge) (names : list string) (m : gmap string string) :
  dom (foldl (fun m b => bp_written self b m) m names) =
    list_to_set (flat_map (bp_files self) names) ∪ dom m.
Proof.
  revert m. induction names as [|b names IH]; intros m; simpl.
  - set_solver.
  - rewrite IH. unfold bp_written, bp_files. rewrite !dom_insert_L. set_solver.
Qed.

Lemma written_other (self : Forge) (names : list string) (m : gmap string string)
    (p : string) :
  (forall b, b ∈ names -> p ∉ bp_files self b) ->
  foldl (fun m b => bp_written self b m) m names !! p = m !! p.
Proof.
  revert m. induction names as [|b names IH]; intros m Hp; [reflexivity |].
  simpl. rewrite IH by (intros b' Hb'; apply Hp; by right).
  assert (Hb : p ∉ bp_files self b) by (apply Hp; left).
  unfold bp_files in Hb. unfold bp_written.
  rewrite !lookup_insert_ne; [reflexivity | | | |]; intros <-; apply Hb; set_solver.
Qed.

(** ** The trees of the blueprints *)

Lemma elem_of_flat_map {A B : Type} (f : A -> list B) (l : list A) (x : B) :
  x ∈ flat_map f l <-> exists a, a ∈ l /\ x ∈ f a.
Proof.
  rewrite list_elem_of_In, in_flat_map. split; intros (a & Ha & Hx); exists a;
    by rewrite ?list_elem_of_In in *.
Qed.

Lemma NoDup_flat_map {A B : Type} (f : A -> list B) (l : list A) :
  NoDup l ->
  (forall a, a ∈ l -> NoDup (f a)) ->
  (forall a a' x, a ∈ l -> a' ∈ l -> x ∈ f a -> x ∈ f a' -> a = a') ->
  NoDup (flat_map f l).
Proof.
  intros Hl Hf Hdisj. induction Hl as [|a l Ha Hl IH]; simpl; [constructor |].
  apply NoDup_app. split_and!.
  - apply Hf. left.
  - intros x Hx Hx'. apply elem_of_flat_map in Hx' as (a' & Ha' & Hx').
    assert (a = a') by (eapply Hdisj; [left | by right | exact Hx | exact Hx']).
    subst a'. contradiction.
  - apply IH.
    + intros a' Ha'. apply Hf. by right.
    + intros a1 a2 x H1 H2. apply Hdisj; by right.
Qed.

Lemma length_flat_map_const {A B : Type} (f : A -> list B) (l : list A) (n : nat) :
  (forall a, length (f a) = n) -> length (flat_map f l) = n * length l.
Proof.
  intros Hf. induction l as [|a l IH]; simpl; [lia |].
  rewrite length_app, Hf, IH. lia.
Qed.

Lemma blueprint_names_truthy (self : Forge) (b : string) :
  b ∈ blueprint_names self -> Py.truthy b = true.
Proof. unfold blueprint_names. intros Hb. by apply list_elem_of_filter in Hb as [Hb _]. Qed.

Lemma text_cons (l : string) (r : list string) :
  text (l :: r) = l +:+ String (ascii_of_nat 10) (text r).
Proof. reflexivity. Qed.

Lemma text_app (a b : list string) : text (a ++ b) = text a +:+ text b.
Proof.
  induction a as [|x a IH]; [reflexivity |].
  simpl app. rewrite !text_cons, IH, append_assoc, append_cons. reflexivity.
Qed.

(** A line of a file body is contained in the body. *)
Lemma line_in_text (before after : list string) (l : string) :
  Py.contains l (text (before ++ l :: after)) = true.
Proof. rewrite text_app, text_cons. apply contains_middle. Qed.

Lemma route_in_routes_py (bp : string) :
  Py.contains ("@" +:+ bp +:+ ".route('/" +:+ bp +:+ "_home')") (routes_py bp) = true.
Proof.
  exact (line_in_text
    [ "from flask import Blueprint, render_template";
      bp +:+ " = Blueprint('" +:+ bp
         +:+ "', __name__, template_folder='templates', static_folder='static')";
      "" ]
    [ "def " +:+ bp +:+ "_home():";
      "    return render_template('" +:+ bp +:+ "/" +:+ bp +:+ "_home.html')" ] _).
Qed.

Lemma heading_in_home_html (bp : string) :
  Py.contains ("<h1>Welcome to the " +:+ Py.capitalize bp +:+ " Home Page</h1>")
    (home_html bp) = true.
Proof.
  exact (line_in_text
    [ "{% extends " +:+ Py.dq +:+ "base.html" +:+ Py.dq +:+ " %}"; "{% block content %}" ]
    [ "{% endblock %}" ] _).
Qed.

Section BlueprintTrees.
Variable self : Forge.

Lemma bp_dirs_NoDup (b : string) :
  Py.truthy b = true -> no_sep b -> NoDup (bp_dirs self b).
Proof.
  intros Hb Hn. unfold bp_dirs. rewrite !bp_join_eq, bp_dir_eq by done.
  rewrite <- (append_nil_r (Obs.pkg self +:+ b)), !append_assoc.
  repeat (apply NoDup_cons; split);
    [ | | | apply NoDup_nil_2 ];
    rewrite ?not_elem_of_cons; split_and?; try apply not_elem_of_nil;
    intros Heq; do 2 apply (inj (String.app _)) in Heq; discriminate.
Qed.

Lemma bp_files_NoDup (b : string) :
  Py.truthy b = true -> no_sep b -> NoDup (bp_files self b).
Proof.
  intros Hb Hn. unfold bp_files. rewrite bp_home_eq, !bp_join_eq by done.
  repeat (apply NoDup_cons; split);
    [ | | | | apply NoDup_nil_2 ];
    rewrite ?not_elem_of_cons; split_and?; try apply not_elem_of_nil;
    intros Heq; do 2 apply (inj (String.app _)) in Heq; discriminate.
Qed.

Lemma good_names_tail (b : string) (names : list string) :
  good_names (b :: names) -> good_names names.
Proof.
  intros [Hnd Hg]. apply NoDup_cons in Hnd as [_ Hnd].
  split; [exact Hnd | intros b' Hb'; apply Hg; by right].
Qed.

Lemma names_disjoint (names : list string) (b b' x : string) :
  good_names names -> b ∈ names -> b' ∈ names ->
  x ∈ (bp_dirs self b ++ bp_files self b)%list ->
  x ∈ (bp_dirs self b' ++ bp_files self b')%list -> b = b'.
Proof.
  intros [_ Hg] Hb Hb' Hx Hx'.
  destruct (Hg b Hb) as [Ht Hn]. destruct (Hg b' Hb') as [Ht' Hn'].
  apply (bp_path_owner self b b' x); auto. by apply bp_paths_under.
Qed.

Lemma all_dirs_NoDup (names : list string) :
  good_names names -> NoDup (flat_map (bp_dirs self) names).
Proof.
  intros Hg. apply NoDup_flat_map; [apply Hg | |].
  - intros b Hb. apply bp_dirs_NoDup; by apply Hg.
  - intros b b' x Hb Hb' Hx Hx'.
    apply (names_disjoint names b b' x); auto; apply elem_of_app; by left.
Qed.

Lemma all_files_NoDup (names : list string) :
  good_names names -> NoDup (flat_map (bp_files self) names).
Proof.
  intros Hg. apply NoDup_flat_map; [apply Hg | |].
  - intros b Hb. apply bp_files_NoDup; by apply Hg.
  - intros b b' x Hb Hb' Hx Hx'.
    apply (names_disjoint names b b' x); auto; apply elem_of_app; by right.
Qed.

Lemma bp_roots_NoDup (names : list string) :
  good_names names -> NoDup (map (bp_dir self) names).
Proof.
  intros Hg. apply NoDup_fmap_2_strong; [| apply Hg].
  intros b b' Hb Hb' Heq.
  apply (names_disjoint names b b' (bp_dir self b)); auto.
  - unfold bp_dirs. set_solver.
  - rewrite Heq. unfold bp_dirs. set_solver.
Qed.

(** The last text written to a file of blueprint [b] is the one [b] wrote. *)
Lemma written_lookup (names : list string) (b p c : string) (m : gmap string string) :
  good_names names -> b ∈ names -> p ∈ bp_files self b ->
  (forall m0, bp_written self b m0 !! p = Some c) ->
  foldl (fun m b => bp_written self b m) m names !! p = Some c.
Proof.
  intros Hg Hb Hp Hc. revert m.
  induction names as [|b0 names IH]; intros m.
  - by apply not_elem_of_nil in Hb.
  - simpl. destruct (decide (b = b0)) as [->|Hne].
    + rewrite written_other; [apply Hc |].
      intros b' Hb' Hp'.
      assert (b0 = b').
      { apply (names_disjoint (b0 :: names) b0 b' p); auto.
        - by right.
        - apply elem_of_app. by right.
        - apply elem_of_app. by right. }
      subst b'. destruct Hg as [Hnd _]. apply NoDup_cons in Hnd as [Hnot _]. contradiction.
    + apply IH; [by eapply good_names_tail | set_solver].
Qed.

End BlueprintTrees.

Section GeneratedTrees.
Variable w : World.
Variable self : Forge.
Variable st : State.
Hypothesis Hmkdir : forall p, mkdir_denied w p = false.
Hypothesis Hwrite : forall p, write_denied w p = false.
Hypothesis Hgood : good_names (blueprint_names self).
Hypothesis Hfresh : fresh_for self st.

Lemma generated_dirs :
  fs_dirs (create_blueprints w self st).2 =
    list_to_set (flat_map (bp_dirs self) (blueprint_names self)) ∪ fs_dirs st.
Proof. rewrite create_blueprints_effect by done. simpl. apply made_dirs. Qed.

Lemma generated_files_dom :
  dom (fs_files (create_blueprints w self st).2) =
    list_to_set (flat_map (bp_files self) (blueprint_names self)) ∪ dom (fs_files st).
Proof. rewrite create_blueprints_effect by done. simpl. apply written_dom. Qed.

Lemma generated_paths_fresh (p : string) :
  p ∈ flat_map (fun b => bp_dirs self b ++ bp_files self b)%list (blueprint_names self) ->
  (p ∉ fs_dirs st) /\ (p ∉ dom (fs_files st)).
Proof.
  intros Hp. apply elem_of_flat_map in Hp as (b & Hb & Hp).
  destruct Hgood as [_ Hg]. destruct (Hg b Hb) as [Ht Hn].
  destruct (Hfresh b p Hb (bp_paths_under self b p Ht Hn Hp)) as [Hd Hf].
  split; [exact Hd | by apply not_elem_of_dom].
Qed.

Lemma tree_dirs_generated (b : string) :
  b ∈ blueprint_names self ->
  tree_dirs (create_blueprints w self st).2 (bp_dir self b) = list_to_set (bp_dirs self b).
Proof.
  intros Hb. unfold tree_dirs. rewrite generated_dirs.
  destruct Hgood as [Hnd Hg]. destruct (Hg b Hb) as [Ht Hn].
  apply set_eq. intros p.
  rewrite elem_of_filter, elem_of_union, !elem_of_list_to_set, elem_of_flat_map.
  split.
  - intros [Hu [(b' & Hb' & Hp) | Hold]].
    + destruct (Hg b' Hb') as [Ht' Hn'].
      assert (b = b'); [| by subst b'].
      apply (bp_path_owner self b b' p); auto. apply elem_of_app. by left.
    + destruct (Hfresh b p Hb Hu) as [Hnot _]. contradiction.
  - intros Hp. split; [| left; by exists b].
    apply bp_paths_under; auto. apply elem_of_app. by left.
Qed.

Lemma tree_files_generated (b : string) :
  b ∈ blueprint_names self ->
  tree_files (create_blueprints w self st).2 (bp_dir self b) = list_to_set (bp_files self b).
Proof.
  intros Hb. unfold tree_files. rewrite generated_files_dom.
  destruct Hgood as [Hnd Hg]. destruct (Hg b Hb) as [Ht Hn].
  apply set_eq. intros p.
  rewrite elem_of_filter, elem_of_union, !elem_of_list_to_set, elem_of_flat_map.
  split.
  - intros [Hu [(b' & Hb' & Hp) | Hold]].
    + destruct (Hg b' Hb') as [Ht' Hn'].
      assert (b = b'); [| by subst b'].
      apply (bp_path_owner self b b' p); auto. apply elem_of_app. by right.
    + destruct (Hfresh b p Hb Hu) as [_ Hnone]. by apply not_elem_of_dom in Hnone.
  - intros Hp. split; [| left; by exists b].
    apply bp_paths_under; auto. apply elem_of_app. by right.
Qed.

Lemma generated_dirs_count :
  size (fs_dirs (create_blueprints w self st).2 ∖ fs_dirs st) =
    3 * length (blueprint_names self).
Proof.
  rewrite generated_dirs.
  assert (Hd : forall p, p ∈ flat_map (bp_dirs self) (blueprint_names self) ->
                 p ∉ fs_dirs st).
  { intros p Hp. apply generated_paths_fresh.
    apply elem_of_flat_map in Hp as (b & Hb & Hp). apply elem_of_flat_map.
    exists b. split; [exact Hb | apply elem_of_app; by left]. }
  replace ((list_to_set (flat_map (bp_dirs self) (blueprint_names self)) ∪ fs_dirs st)
             ∖ fs_dirs st)
    with (list_to_set (C := gset string) (flat_map (bp_dirs self) (blueprint_names self))).
  - rewrite size_list_to_set by (by apply all_dirs_NoDup).
    by apply length_flat_map_const.
  - apply set_eq. intros p. rewrite elem_of_difference, elem_of_union, elem_of_list_to_set.
    split; [intros Hp; split; [by left | by apply Hd] | intros [[Hp | Hp] Hn]; done].
Qed.

Lemma generated_files_count :
  size (dom (fs_files (create_blueprints w self st).2) ∖ dom (fs_files st)) =
    4 * length (blueprint_names self).
Proof.
  rewrite generated_files_dom.
  assert (Hd : forall p, p ∈ flat_map (bp_files self) (blueprint_names self) ->
                 p ∉ dom (fs_files st)).
  { intros p Hp. apply generated_paths_fresh.
    apply elem_of_flat_map in Hp as (b & Hb & Hp). apply elem_of_flat_map.
    exists b. split; [exact Hb | apply elem_of_app; by right]. }
  replace ((list_to_set (flat_map (bp_files self) (blueprint_names self)) ∪ dom (fs_files st))
             ∖ dom (fs_files st))
    with (list_to_set (C := gset string) (flat_map (bp_files self) (blueprint_names self))).
  - rewrite size_list_to_set by (by apply all_files_NoDup).
    by apply length_flat_map_const.
  - apply set_eq. intros p. rewrite elem_of_difference, elem_of_union, elem_of_list_to_set.
    split; [intros Hp; split; [by left | by apply Hd] | intros [[Hp | Hp] Hn]; done].
Qed.

Lemma routes_file_generated (b : string) :
  b ∈ blueprint_names self ->
  fs_files (create_blueprints w self st).2 !! PosixPath.join (bp_dir self b) "routes.py" =
    Some (routes_py b).
Proof.
  intros Hb. rewrite create_blueprints_effect by done. simpl.
  destruct Hgood as [Hnd Hg]. destruct (Hg b Hb) as [Ht Hn].
  apply (written_lookup self _ b); [split; done | exact Hb | unfold bp_files; set_solver |].
  intros m0. pose proof (bp_files_NoDup self b Ht Hn) as Hnd4. unfold bp_files in Hnd4.
  apply NoDup_cons in Hnd4 as [Hne _]. unfold bp_written.
  rewrite !lookup_insert_ne by (intros Heq; apply Hne; rewrite <- Heq; set_solver).
  apply lookup_insert_eq.
Qed.

Lemma home_file_generated (b : string) :
  b ∈ blueprint_names self ->
  fs_files (create_blueprints w self st).2 !!
      PosixPath.join (PosixPath.join (bp_dir self b) "templates") (b +:+ "_home.html") =
    Some (home_html b).
Proof.
  intros Hb. rewrite create_blueprints_effect by done. simpl.
  apply (written_lookup self _ b); [exact Hgood | exact Hb | unfold bp_files; set_solver |].
  intros m0. unfold bp_written. apply lookup_insert_eq.
Qed.

End GeneratedTrees.




(** A name with a separator puts one tree inside another: the names [a] and
    [a/static] are distinct, and the tree of [a] then holds 5 directories and
    8 files. *)
Example nested_blueprint_names :
  let w := Scenario.world Scenario.all_zero Scenario.nothing_denied [] in
  let self := Scenario.forge (Scenario.command_line "shop" "a,a/static" "" "" None) in
  let r := create_blueprints w self Scenario.empty_state in
  blueprint_names self = ["a"; "a/static"] /\
  size (tree_dirs r.2 (bp_dir self "a")) = 5 /\
  size (tree_files r.2 (bp_dir self "a")) = 8.
Proof. vm_compute. split_and!; reflexivity. Qed.

(** ** The heading of the child template *)

Lemma title_after_cased (s : string) :
  isalpha s = true -> Py.title_from true s = Py.lower s.
Proof.
  induction s as [|c s IH]; [reflexivity |]. simpl.
  intros H. apply andb_true_iff in H as [Hc Hs]. rewrite Hc, (IH Hs). reflexivity.
Qed.

Lemma capitalize_is_title_on_words (s : string) :
  isalpha s = true -> Py.capitalize s = Py.title s.
Proof.
  destruct s as [|c s]; [reflexivity |]. simpl.
  intros H. apply andb_true_iff in H as [Hc Hs].
  unfold Py.title. simpl. rewrite Hc, (title_after_cased s Hs). reflexivity.
Qed.



(** The scenario of the specification, as a whole run: project [shop],
    blueprints [catalog,cart], template set [rest_api], no dependencies. *)
Example shop_scenario :
  let w := Scenario.world Scenario.all_zero Scenario.nothing_denied Scenario.one_template in
  let r := FlaskForge.main w (Scenario.command_line "shop" "catalog,cart" "" "" None)
             Scenario.template_state in
  r.1 = Ok tt /\
  Py.contains "@catalog.route('/catalog_home')"
    (default "" (fs_files r.2 !! "/w/shop/shop/catalog/routes.py")) = true /\
  Py.contains "Welcome to the Cart Home Page"
    (default "" (fs_files r.2 !! "/w/shop/shop/cart/templates/cart_home.html")) = true.
Proof. vm_compute. split_and!; reflexivity. Qed.


(** ** Rendering twice *)

Lemma writes_cons (k v : string) (L : list (string * string)) (m : gmap string string) :
  writes ((k, v) :: L) m = writes L (<[k := v]> m).
Proof. reflexivity. Qed.

Lemma writes_app (L1 L2 : list (string * string)) (m : gmap string string) :
  writes (L1 ++ L2) m = writes L2 (writes L1 m).
Proof. apply foldl_app. Qed.

Lemma writes_lookup_other (L : list (string * string)) (m : gmap string string)
    (p : string) :
  (forall kv, kv ∈ L -> kv.1 <> p) -> writes L m !! p = m !! p.
Proof.
  revert m. induction L as [|[k v] L IH]; intros m HL; [reflexivity |].
  rewrite writes_cons, IH by (intros kv Hkv; apply HL; by right).
  apply lookup_insert_ne. apply (HL (k, v)). left.
Qed.

Lemma writes_lookup_cases (L : list (string * string)) (p : string) :
  (exists v, forall m : gmap string string, writes L m !! p = Some v) \/
  (forall m : gmap string string, writes L m !! p = m !! p).
Proof.
  induction L as [|[k v] L IH]; [by right |].
  destruct IH as [[x Hx] | Hno].
  - left. exists x. intros m. rewrite writes_cons. apply Hx.
  - destruct (decide (k = p)) as [->|Hne].
    + left. exists v. intros m. rewrite writes_cons, Hno. apply lookup_insert_eq.
    + right. intros m. rewrite writes_cons, Hno. by apply lookup_insert_ne.
Qed.

Lemma writes_idempotent (L : list (string * string)) (m : gmap string string) :
  writes L (writes L m) = writes L m.
Proof.
  apply map_eq. intros p.
  destruct (writes_lookup_cases L p) as [[v Hv] | Hno]; [by rewrite !Hv | by rewrite Hno].
Qed.

Section Idempotence.
Variable w : World.
Variable self : Forge.

(** What one pass of the loop body does is fixed by the source file's
    presence and content. *)
Lemma render_file_plan (root file : string) (source : option string) :
  exists (r : Outcome unit) (L : list (string * string)) (D : gset string),
    (forall kv, kv ∈ L -> kv.1 = dest_path w self root file) /\
    forall st, fs_files st !! src_path root file = source ->
      render_file w self root file st =
        (r, set_files (writes L (fs_files st)) (set_dirs (D ∪ fs_dirs st) st)).
Proof.
  set (src := src_path root file). set (dest := dest_path w self root file).
  assert (Hstay : forall st, st = set_files (writes [] (fs_files st)) (set_dirs (∅ ∪ fs_dirs st) st)).
  { intros [a d f p l s]. unfold set_files, set_dirs. simpl. by rewrite union_empty_l_L. }
  destruct (mkdir_denied w (PosixPath.dirname dest)) eqn:Em.
  { exists (Raised (OSError (PosixPath.dirname dest))), [], ∅. split; [set_solver |].
    intros st _. unfold render_file, mbind, M_bind, os_makedirs. fold dest. rewrite Em.
    f_equal. apply Hstay. }
  destruct (read_denied w src) eqn:Er.
  { exists (Raised (OSError src)), [], {[PosixPath.dirname dest]}. split; [set_solver |].
    intros st _. unfold render_file, mbind, M_bind, os_makedirs, open_r.
    fold dest src. rewrite Em. simpl. rewrite Er. reflexivity. }
  destruct source as [c|].
  2:{ exists (Raised (OSError src)), [], {[PosixPath.dirname dest]}. split; [set_solver |].
      intros st Hs. unfold render_file, mbind, M_bind, os_makedirs, open_r.
      fold dest src. rewrite Em. simpl. rewrite Er, Hs. reflexivity. }
  destruct (write_denied w dest) eqn:Ew.
  { exists (Raised (OSError dest)), [], {[PosixPath.dirname dest]}. split; [set_solver |].
    intros st Hs. unfold render_file, mbind, M_bind, os_makedirs, open_r, open_w.
    fold dest src. rewrite Em. simpl. rewrite Er, Hs. simpl. rewrite Ew.
    reflexivity. }
  set (content := if decide (dest = src) then "" else c).
  assert (Hread : forall st, fs_files st !! src = Some c ->
            default "" (<[dest := ""]> (fs_files st) !! src) = content).
  { intros st Hs. unfold content. destruct (decide (dest = src)) as [->|Hne].
    - by rewrite lookup_insert_eq.
    - by rewrite lookup_insert_ne, Hs. }
  destruct (jinja_render w content (project_name self)) as [out|] eqn:Ej.
  - exists (Ok tt), [(dest, ""); (dest, out)], {[PosixPath.dirname dest]}.
    split; [intros kv Hkv; set_solver |].
    intros st Hs.
    unfold render_file, mbind, M_bind, os_makedirs, open_r, open_w, file_read,
      render_template, file_write.
    fold dest src. rewrite Em. simpl. rewrite Er, Hs. simpl. rewrite Ew. simpl.
    rewrite (Hread st Hs), Ej. simpl.
    rewrite lookup_insert_eq. simpl. rewrite append_empty_l. reflexivity.
  - exists (Raised TemplateError), [(dest, "")], {[PosixPath.dirname dest]}.
    split; [intros kv Hkv; set_solver |].
    intros st Hs.
    unfold render_file, mbind, M_bind, os_makedirs, open_r, open_w, file_read,
      render_template, raise.
    fold dest src. rewrite Em. simpl. rewrite Er, Hs. simpl. rewrite Ew. simpl.
    rewrite (Hread st Hs), Ej. reflexivity.
Qed.

Lemma render_loop_plan (items : list (string * string)) (source : string -> option string) :
  exists (r : Outcome unit) (L : list (string * string)) (D : gset string),
    (forall kv, kv ∈ L -> kv.1 ∈ map (fun it => dest_path w self it.1 it.2) items) /\
    forall st,
      (forall it, it ∈ items -> fs_files st !! src_path it.1 it.2 = source (src_path it.1 it.2)) ->
      (forall it, it ∈ items ->
         src_path it.1 it.2 ∉ map (fun it => dest_path w self it.1 it.2) items) ->
      for_each items (fun it => render_file w self it.1 it.2) st =
        (r, set_files (writes L (fs_files st)) (set_dirs (D ∪ fs_dirs st) st)).
Proof.
  induction items as [|[root file] items IH].
  - exists (Ok tt), [], ∅. split; [set_solver |].
    intros [a d f p l s] _ _. unfold set_files, set_dirs. simpl.
    by rewrite union_empty_l_L.
  - destruct (render_file_plan root file (source (src_path root file)))
      as (r0 & L0 & D0 & HL0 & Hhead).
    destruct IH as (r' & L' & D' & HL' & Htail).
    destruct r0 as [[]|e].
    + exists r', (L0 ++ L')%list, (D' ∪ D0). split.
      * intros kv Hkv. apply elem_of_app in Hkv as [Hkv | Hkv].
        -- rewrite (HL0 kv Hkv). simpl. left.
        -- simpl. right. by apply HL'.
      * intros st Hsrc Hsep. rewrite for_each_cons, bind_run. cbn [fst snd].
        rewrite (Hhead st (Hsrc (root, file) ltac:(left))).
        rewrite Htail.
        -- simpl. rewrite writes_app, (assoc_L (∪)). reflexivity.
        -- intros it Hit. simpl.
           rewrite writes_lookup_other; [apply Hsrc; by right |].
           intros kv Hkv Heq. apply (Hsep it); [by right |].
           rewrite <- Heq, (HL0 kv Hkv). simpl. left.
        -- intros it Hit Hin. apply (Hsep it); [by right |]. simpl. by right.
    + exists (Raised e), L0, D0. split.
      * intros kv Hkv. rewrite (HL0 kv Hkv). simpl. left.
      * intros st Hsrc Hsep. rewrite for_each_cons, bind_run. cbn [fst snd].
        rewrite (Hhead st (Hsrc (root, file) ltac:(left))). reflexivity.
Qed.

Hypothesis Hfixed :
  forall p, p ∈ template_sources w self -> p ∉ template_dests w self.

Lemma create_base_files_twice (st : State) :
  let st1 := (create_base_files w self st).2 in
  let st2 := (create_base_files w self st1).2 in
  fs_files st2 = fs_files st1 /\ fs_dirs st2 = fs_dirs st1 /\
  (create_base_files w self st1).1 = (create_base_files w self st).1.
Proof.
  destruct (render_loop_plan (template_items w self) (fun p => fs_files st !! p))
    as (r & L & D & HL & Hplan).
  assert (Hsep : forall it, it ∈ template_items w self ->
            src_path it.1 it.2 ∉
              map (fun it => dest_path w self it.1 it.2) (template_items w self)).
  { intros it Hit. apply Hfixed. unfold template_sources.
    apply list_elem_of_fmap. by exists it. }
  assert (Hrun : forall st0,
            (forall it, it ∈ template_items w self ->
               fs_files st0 !! src_path it.1 it.2 = fs_files st !! src_path it.1 it.2) ->
            fs_files (create_base_files w self st0).2 = writes L (fs_files st0) /\
            fs_dirs (create_base_files w self st0).2 = D ∪ fs_dirs st0 /\
            (create_base_files w self st0).1 = r).
  { intros st0 Hsrc. unfold create_base_files. rewrite bind_run.
    assert (Hn : for_each (os_walk w (template_path w self))
                   (fun entry => for_each entry.2 (fun file => render_file w self entry.1 file))
                   st0 =
                 for_each (template_items w self) (fun it => render_file w self it.1 it.2) st0)
      by exact (for_each_nested _ (render_file w self) st0).
    rewrite Hn, (Hplan st0 Hsrc Hsep). destruct r as [[]|e]; simpl; done. }
  intros st1 st2.
  destruct (Hrun st (fun _ _ => eq_refl)) as (Hf1 & Hd1 & Hr1).
  destruct (Hrun st1) as (Hf2 & Hd2 & Hr2).
  { intros it Hit. subst st1. rewrite Hf1. apply writes_lookup_other.
    intros kv Hkv Heq. apply (Hsep it Hit). rewrite <- Heq. by apply HL. }
  subst st2. split_and!.
  - rewrite Hf2. subst st1. rewrite Hf1. apply writes_idempotent.
  - rewrite Hd2. subst st1. rewrite Hd1. set_solver.
  - by rewrite Hr2, Hr1.
Qed.

End Idempotence.



(** ** Which commands run under which prefix *)

Lemma preserves_bind {A B : Type} (I : State -> Prop) (m : M A) (k : A -> M B) :
  preserves I m -> (forall a, preserves I (k a)) -> preserves I (m ≫= k).
Proof.
  intros Hm Hk st HI. rewrite bind_run. specialize (Hm st HI).
  destruct (m st) as [[a|e] st1]; simpl in *; [by apply Hk | exact Hm].
Qed.

Lemma preserves_for_each {A : Type} (I : State -> Prop) (l : list A) (body : A -> M unit) :
  (forall x, preserves I (body x)) -> preserves I (for_each l body).
Proof.
  intros Hb. induction l as [|x l IH]; [by intros st HI |].
  rewrite for_each_cons. apply preserves_bind; [apply Hb | intros _; exact IH].
Qed.

Lemma preserves_chain (I : State -> Prop) (l : list (Stage * M unit)) (final : M unit) :
  (forall st s, I st -> I (add_stage s st)) ->
  Forall (fun sm => preserves I sm.2) l -> preserves I final ->
  preserves I (chain l final).
Proof.
  intros Hs Hl Hf. induction Hl as [|[s m] l Hm Hl IH]; [exact Hf |].
  simpl chain. apply preserves_bind; [| intros _; exact IH].
  intros st HI. apply Hm, Hs, HI.
Qed.

Section PrefixDiscipline.
Variable w : World.
Variable self : Forge.
Variable old : list Invocation.

Local Abbreviation disciplined := (prefix_discipline w self old).

Lemma discipline_of_keeps {A : Type} (m : M A) :
  keeps procs m -> keeps activate_command m -> preserves disciplined m.
Proof.
  intros Hp Ha st [H1 H2]. unfold prefix_discipline. rewrite Hp, Ha. by split.
Qed.

(** A state reached by launching commands under the prefix. *)
Ltac discipline_tac Hp :=
  split;
  [ simpl; auto
  | let inv := fresh "inv" in
    let Hin := fresh "Hin" in
    simpl; intros inv Hin;
    rewrite ?elem_of_app, ?list_elem_of_singleton in Hin;
    repeat match goal with H : _ \/ _ |- _ => destruct H end;
    first
      [ by apply Hp
      | subst; right; right; unfold uses_prefix, command_text; simpl;
        rewrite startswith_app_cancel; reflexivity ] ].

Lemma ff_create_virtualenv_discipline :
  preserves disciplined (FlaskForge.create_virtualenv w self).
Proof.
  intros st [Ha Hp].
  unfold FlaskForge.create_virtualenv, try_except, mbind, M_bind, subprocess_run,
    logger_info, logger_error, assign_activate_command.
  destruct (proc_outcome w (procs st) _) as [rc|]; [destruct (rc =? 0)%Z |];
    (split; [simpl; auto |]);
    simpl; intros inv Hin; apply elem_of_app in Hin as [Hin | Hin];
    try (by apply Hp); apply list_elem_of_singleton in Hin; subst inv; right; by left.
Qed.

Lemma fforge_create_virtualenv_discipline :
  preserves disciplined (FForge.create_virtualenv w self).
Proof.
  intros st [Ha Hp].
  unfold FForge.create_virtualenv, mbind, M_bind, subprocess_run,
    logger_info, assign_activate_command.
  destruct (proc_outcome w (procs st) _) as [rc|];
    (split; [simpl; auto |]);
    simpl; intros inv Hin; apply elem_of_app in Hin as [Hin | Hin];
    try (by apply Hp); apply list_elem_of_singleton in Hin; subst inv; right; by left.
Qed.

Lemma ff_install_dependencies_discipline :
  preserves disciplined (FlaskForge.install_dependencies w self).
Proof.
  intros st [Ha Hp]. unfold FlaskForge.install_dependencies.
  destruct (dependencies self) as [|d ds]; [by split |].
  unfold try_except, mbind, M_bind, get_activate_command, subprocess_run,
    logger_info, logger_error.
  destruct Ha as [Ha | Ha]; rewrite Ha; simpl; [split; [by left | exact Hp] |].
  destruct (proc_outcome w (procs st) _) as [rc|]; [destruct (rc =? 0)%Z |];
    discipline_tac Hp.
Qed.

Lemma ff_initialize_database_discipline :
  preserves disciplined (FlaskForge.initialize_database w self).
Proof.
  intros st [Ha Hp].
  unfold FlaskForge.initialize_database, try_except, mbind, M_bind,
    get_activate_command, subprocess_run, logger_info, logger_error.
  destruct Ha as [Ha | Ha]; rewrite Ha; simpl; [split; [by left | exact Hp] |].
  destruct (proc_outcome w (procs st) _) as [rc1|]; [destruct (rc1 =? 0)%Z |]; simpl;
    [| discipline_tac Hp | discipline_tac Hp].
  rewrite Ha. simpl.
  destruct (proc_outcome w (procs st ++ [_]) _) as [rc2|]; [destruct (rc2 =? 0)%Z |]; simpl;
    [| discipline_tac Hp | discipline_tac Hp].
  rewrite Ha. simpl.
  destruct (proc_outcome w ((procs st ++ [_]) ++ [_]) _) as [rc3|];
    [destruct (rc3 =? 0)%Z |]; discipline_tac Hp.
Qed.

Lemma fforge_initialize_database_discipline :
  preserves disciplined (FForge.initialize_database w self).
Proof.
  intros st [Ha Hp].
  unfold FForge.initialize_database, mbind, M_bind,
    get_activate_command, subprocess_run, logger_info.
  destruct Ha as [Ha | Ha]; rewrite Ha; simpl; [split; [by left | exact Hp] |].
  destruct (proc_outcome w (procs st) _) as [rc1|]; simpl; [| discipline_tac Hp].
  rewrite Ha. simpl.
  destruct (proc_outcome w (procs st ++ [_]) _) as [rc2|]; simpl; [| discipline_tac Hp].
  rewrite Ha. simpl.
  destruct (proc_outcome w ((procs st ++ [_]) ++ [_]) _) as [rc3|]; discipline_tac Hp.
Qed.

Lemma ff_run_hook_discipline (hook : string) :
  preserves disciplined (FlaskForge.run_hook w self hook).
Proof.
  intros st [Ha Hp].
  unfold FlaskForge.run_hook, try_except, mbind, M_bind, get_activate_command,
    subprocess_run, logger_error.
  destruct Ha as [Ha | Ha]; rewrite Ha; simpl; [split; [by left | exact Hp] |].
  destruct (proc_outcome w (procs st) _) as [rc|]; [destruct (rc =? 0)%Z |];
    discipline_tac Hp.
Qed.

Lemma fforge_run_hook_discipline (hook : string) :
  preserves disciplined (FForge.run_hook w self hook).
Proof.
  intros st [Ha Hp].
  unfold FForge.run_hook, mbind, M_bind, get_activate_command, subprocess_run.
  destruct Ha as [Ha | Ha]; rewrite Ha; simpl; [split; [by left | exact Hp] |].
  destruct (proc_outcome w (procs st) _) as [rc|]; discipline_tac Hp.
Qed.

Lemma ff_run_post_gen_hooks_discipline :
  preserves disciplined (FlaskForge.run_post_gen_hooks w self).
Proof.
  unfold FlaskForge.run_post_gen_hooks.
  destruct (Py.truthy (post_gen_hooks self)); [| by intros st H].
  apply preserves_bind; [apply preserves_for_each, ff_run_hook_discipline |].
  intros _. apply discipline_of_keeps; keeps_prim.
Qed.

Lemma fforge_run_post_gen_hooks_discipline :
  preserves disciplined (FForge.run_post_gen_hooks w self).
Proof.
  unfold FForge.run_post_gen_hooks.
  destruct (Py.truthy (post_gen_hooks self)); [| by intros st H].
  apply preserves_bind; [apply preserves_for_each, fforge_run_hook_discipline |].
  intros _. apply discipline_of_keeps; keeps_prim.
Qed.

Ltac file_stage_discipline :=
  apply discipline_of_keeps;
  unfold FlaskForge.create_directories, FForge.create_directories, create_base_files,
    render_file, create_blueprints, create_blueprint, create_blueprint_files,
    create_init_py, create_models_py, create_docker_files, create_ci_cd_files;
  keeps_tac.

Lemma ff_run_discipline : preserves disciplined (FlaskForge.run w self).
Proof.
  rewrite ff_run_chain. apply preserves_chain.
  - intros st s H. exact H.
  - repeat (apply Forall_cons; split;
      [ simpl;
        first [ apply ff_create_virtualenv_discipline
              | apply ff_install_dependencies_discipline
              | apply ff_initialize_database_discipline
              | apply ff_run_post_gen_hooks_discipline
              | file_stage_discipline ] |]).
    apply Forall_nil_2.
  - apply discipline_of_keeps; keeps_prim.
Qed.

Lemma fforge_run_discipline : preserves disciplined (FForge.run w self).
Proof.
  rewrite fforge_run_chain. apply preserves_chain.
  - intros st s H. exact H.
  - repeat (apply Forall_cons; split;
      [ simpl;
        first [ apply fforge_create_virtualenv_discipline
              | apply fforge_initialize_database_discipline
              | apply fforge_run_post_gen_hooks_discipline
              | file_stage_discipline ] |]).
    apply Forall_nil_2.
  - apply discipline_of_keeps; keeps_prim.
Qed.

End PrefixDiscipline.

(** ** The environment directory, concluded *)

(** C2.  Whatever the configuration, the constructor succeeds and sets the
    environment path to the [.fforge] entry of the project root; a configured
    [venv_dir] changes nothing of the object built.  Environment creation
    launches [python -m venv] on that path in both variants, the only
    activation prefix it can assign is built on that path, and every other
    command a run launches starts with that prefix. *)
Theorem venv_dir_is_fixed (w : World) (c : Config) :
  exists self,
    __init__ w c = Ok self /\
    project_path self = PosixPath.join (getcwd w) (cfg_project_name c) /\
    venv_dir self = PosixPath.join (project_path self) ".fforge" /\
    (forall d, __init__ w (set_cfg_venv_dir d c) = Ok self) /\
    activation_prefix w self =
      (if String.eqb (platform_system w) "Windows"
       then PosixPath.join (PosixPath.join (PosixPath.join (project_path self) ".fforge")
              "Scripts") "activate"
       else "source " +:+
            PosixPath.join (PosixPath.join (PosixPath.join (project_path self) ".fforge")
              "bin") "activate") /\
    (forall st,
       let inv := {| inv_args :=
                       ArgList ["python"; "-m"; "venv";
                                PosixPath.join (project_path self) ".fforge"];
                     inv_shell := false; inv_cwd := None |} in
       procs (FlaskForge.create_virtualenv w self st).2 = (procs st ++ [inv])%list /\
       procs (FForge.create_virtualenv w self st).2 = (procs st ++ [inv])%list /\
       (activate_command (FlaskForge.create_virtualenv w self st).2 = activate_command st \/
        activate_command (FlaskForge.create_virtualenv w self st).2 =
          Some (activation_prefix w self)) /\
       (activate_command (FForge.create_virtualenv w self st).2 = activate_command st \/
        activate_command (FForge.create_virtualenv w self st).2 =
          Some (activation_prefix w self))) /\
    (forall st, activate_command st = None ->
       (forall inv, inv ∈ procs (FlaskForge.run w self st).2 ->
          inv ∈ procs st \/ inv = venv_invocation self \/
          uses_prefix (activation_prefix w self) inv) /\
       (forall inv, inv ∈ procs (FForge.run w self st).2 ->
          inv ∈ procs st \/ inv = venv_invocation self \/
          uses_prefix (activation_prefix w self) inv)).
Proof.
  eexists. split; [apply init_ok |]. split_and!; try reflexivity.
  - intros d. rewrite init_ok. reflexivity.
  - intros st inv.
    match goal with |- context [FlaskForge.create_virtualenv w ?f st] =>
      destruct (ff_create_virtualenv_effect w f st) as [H1 H2];
      destruct (fforge_create_virtualenv_effect w f st) as [H3 H4]
    end.
    split_and!; assumption.
  - intros st Ha.
    match goal with |- context [FlaskForge.run w ?f st] =>
      pose proof (ff_run_discipline w f (procs st) st) as [_ Hff];
        [split; [by left | by left] |];
      pose proof (fforge_run_discipline w f (procs st) st) as [_ Hfforge];
        [split; [by left | by left] |]
    end.
    split; assumption.
Qed.

(** A whole run with the option [--venv-dir env]: the environment is made at
    [/w/shop/.fforge], and each later command starts with the prefix built
    on that path. *)
Lemma venv_dir_is_fixed_witness :
  let w := Scenario.world Scenario.all_zero Scenario.nothing_denied [] in
  let a := Scenario.command_line "shop" "" "Flask" "echo a" (Some "env") in
  map command_text (procs (FlaskForge.run w (Scenario.forge a) Scenario.empty_state).2) =
    [ "python -m venv /w/shop/.fforge";
      "source /w/shop/.fforge/bin/activate && pip install Flask";
      "source /w/shop/.fforge/bin/activate && flask db init";
      "source /w/shop/.fforge/bin/activate && flask db migrate";
      "source /w/shop/.fforge/bin/activate && flask db upgrade";
      "source /w/shop/.fforge/bin/activate && echo a" ] /\
  Forall (fun inv => inv = venv_invocation (Scenario.forge a) \/
                     uses_prefix "source /w/shop/.fforge/bin/activate" inv)
    (procs (FlaskForge.run w (Scenario.forge a) Scenario.empty_state).2).
Proof.
  intros w a. split; [vm_compute; reflexivity |].
  destruct (venv_dir_is_fixed w (config_of a)) as (self & Hinit & _ & _ & _ & _ & _ & Hrun).
  unfold w in Hinit.
  rewrite (scenario_forge_constructed Scenario.all_zero Scenario.nothing_denied [] a) in Hinit.
  injection Hinit as <-.
  destruct (Hrun Scenario.empty_state eq_refl) as [Hff _].
  apply Forall_forall. intros inv Hin.
  destruct (Hff inv Hin) as [Hold | H]; [| exact H].
  by apply not_elem_of_nil in Hold.
Defined.

(** The option [--venv-dir env] leaves the environment at [/w/shop/.fforge]. *)
Example venv_dir_option_ignored :
  venv_dir (Scenario.forge (Scenario.command_line "shop" "" "" "" (Some "env")))
    = "/w/shop/.fforge" /\
  __init__ (Scenario.world Scenario.all_zero Scenario.nothing_denied [])
    (config_of (Scenario.command_line "shop" "" "" "" (Some "env"))) =
  __init__ (Scenario.world Scenario.all_zero Scenario.nothing_denied [])
    (config_of (Scenario.command_line "shop" "" "" "" None)).
Proof. split; reflexivity. Qed.

(** * Further properties of the stages *)

Import StageObs.


(** ** The directory skeleton *)





(** ** Dependency installation *)



(** X4.  A stage that reads the activation prefix before
    [create_virtualenv] has assigned it raises [AttributeError] at the read:
    nothing is launched and nothing logged, and no handler of the stage
    catches it.  This holds for [install_dependencies] (unless the dependency
    list is empty: then the attribute is not read and the stage does
    nothing), for [initialize_database] and for [run_post_gen_hooks] (unless
    the hook string is empty), in both variants. *)
Theorem stages_need_the_prefix (w : World) (self : Forge) (st : State) :
  activate_command st = None ->
  let missing : Outcome unit * State := (Raised (AttributeError "activate_command"), st) in
  FlaskForge.install_dependencies w self st =
    match dependencies self with [] => (Ok tt, st) | _ => missing end /\
  FlaskForge.initialize_database w self st = missing /\
  FForge.initialize_database w self st = missing /\
  FlaskForge.run_post_gen_hooks w self st =
    (if Py.truthy (post_gen_hooks self) then missing else (Ok tt, st)) /\
  FForge.run_post_gen_hooks w self st =
    (if Py.truthy (post_gen_hooks self) then missing else (Ok tt, st)).
Proof.
  intros Hn missing. subst missing. split_and!.
  - unfold FlaskForge.install_dependencies. destruct (dependencies self); [reflexivity |].
    unfold try_except, mbind, M_bind, get_activate_command. by rewrite Hn.
  - unfold FlaskForge.initialize_database, try_except, mbind, M_bind, get_activate_command.
    by rewrite Hn.
  - unfold FForge.initialize_database, mbind, M_bind, get_activate_command. by rewrite Hn.
  - unfold FlaskForge.run_post_gen_hooks.
    destruct (Py.truthy (post_gen_hooks self)); [|reflexivity].
    pose proof (split_nonempty "," (post_gen_hooks self)) as Hne.
    destruct (Py.split "," (post_gen_hooks self)) as [|h hs]; [done |].
    rewrite bind_run, for_each_cons, bind_run.
    unfold FlaskForge.run_hook at 1.
    unfold try_except, mbind, M_bind, get_activate_command. by rewrite Hn.
  - unfold FForge.run_post_gen_hooks.
    destruct (Py.truthy (post_gen_hooks self)); [|reflexivity].
    pose proof (split_nonempty "," (post_gen_hooks self)) as Hne.
    destruct (Py.split "," (post_gen_hooks self)) as [|h hs]; [done |].
    rewrite bind_run, for_each_cons, bind_run.
    unfold FForge.run_hook at 1.
    unfold mbind, M_bind, get_activate_command. by rewrite Hn.
Qed.

Lemma stages_need_the_prefix_witness :
  let w := Scenario.world Scenario.all_zero Scenario.nothing_denied [] in
  let self := Scenario.forge (Scenario.command_line "shop" "" "Flask" "echo a" None) in
  FlaskForge.install_dependencies w self Scenario.empty_state =
    (Raised (AttributeError "activate_command"), Scenario.empty_state) /\
  FForge.run_post_gen_hooks w self Scenario.empty_state =
    (Raised (AttributeError "activate_command"), Scenario.empty_state).
Proof.
  intros w self.
  destruct (stages_need_the_prefix w self Scenario.empty_state) as (H1 & _ & _ & _ & H5);
    [reflexivity |].
  split; [exact H1 | exact H5].
Defined.

(** ** The variants of [create_virtualenv] and [initialize_database] *)

(** X5.  [fforge.py] does not look at the return code of the environment
    creation: it logs success and assigns the activation prefix whatever the
    code.  [flaskforge.py] ends in the same state when the code is 0; on any
    other code it logs an ERROR record and leaves the prefix as it was. *)
Theorem fforge_create_virtualenv_ignores_exit_code (w : World) (self : Forge) (st : State)
    (rc : Z) :
  proc_outcome w (procs st) (venv_invocation self) = Exited rc ->
  let r := FForge.create_virtualenv w self st in
  let r' := FlaskForge.create_virtualenv w self st in
  r.1 = Ok tt /\ r'.1 = Ok tt /\
  activate_command r.2 = Some (activation_prefix w self) /\
  log r.2 = (log st ++ [(INFO, "Virtual environment created")])%list /\
  procs r.2 = (procs st ++ [venv_invocation self])%list /\
  procs r'.2 = procs r.2 /\
  (if (rc =? 0)%Z then r' = r
   else activate_command r'.2 = activate_command st /\
        log r'.2 =
          (log st ++ [(ERROR, "Error creating virtual environment: " +:+
                              str_exc w (CalledProcessError (venv_invocation self) rc))])%list).
Proof.
  intros Hrc r r'. subst r r'.
  unfold FForge.create_virtualenv, FlaskForge.create_virtualenv, try_except, mbind, M_bind,
    subprocess_run, logger_info, logger_error, assign_activate_command.
  unfold venv_invocation in Hrc. rewrite Hrc.
  destruct (rc =? 0)%Z eqn:E; simpl; split_and!; reflexivity.
Qed.

Lemma fforge_create_virtualenv_ignores_exit_code_witness :
  let w := Scenario.world Scenario.venv_fails Scenario.nothing_denied [] in
  let self := Scenario.forge (Scenario.command_line "shop" "" "" "" None) in
  activate_command (FForge.create_virtualenv w self Scenario.empty_state).2 =
    Some "source /w/shop/.fforge/bin/activate" /\
  activate_command (FlaskForge.create_virtualenv w self Scenario.empty_state).2 = None /\
  log (FForge.create_virtualenv w self Scenario.empty_state).2 =
    [(INFO, "Virtual environment created")].
Proof.
  intros w self.
  destruct (fforge_create_virtualenv_ignores_exit_code w self Scenario.empty_state 1)
    as (_ & _ & Ha & Hl & _ & _ & Ha' & _); [reflexivity |].
  split_and!; [exact Ha | exact Ha' | exact Hl].
Defined.



(** ** The list arguments of [main] *)

Lemma join_split (c : ascii) (s : string) :
  Py.join (String c "") (Py.split c s) = s.
Proof.
  induction s as [|a s IH]; [reflexivity |].
  simpl Py.split. destruct (Ascii.eqb a c) eqn:E.
  - apply Ascii.eqb_eq in E as ->.
    pose proof (split_nonempty c s) as Hne.
    destruct (Py.split c s) as [|h t] eqn:Es; [done |].
    change (Py.join (String c "") ("" :: h :: t))
      with ("" +:+ String c "" +:+ Py.join (String c "") (h :: t)).
    rewrite IH. reflexivity.
  - pose proof (split_nonempty c s) as Hne.
    destruct (Py.split c s) as [|h t] eqn:Es; [done |].
    destruct t as [|h' t].
    + simpl in *. by rewrite IH.
    + change (Py.join (String c "") (String a h :: h' :: t))
        with (String a h +:+ String c "" +:+ Py.join (String c "") (h' :: t)).
      change (Py.join (String c "") (h :: h' :: t))
        with (h +:+ String c "" +:+ Py.join (String c "") (h' :: t)) in IH.
      rewrite append_cons, IH. reflexivity.
Qed.

Lemma split_segments (c : ascii) (s : string) :
  Forall (fun x => Py.count_char c x = 0) (Py.split c s).
Proof.
  induction s as [|a s IH]; [by repeat constructor |].
  simpl Py.split. destruct (Ascii.eqb a c) eqn:E.
  - constructor; [reflexivity | exact IH].
  - destruct (Py.split c s) as [|h t]; [constructor; [simpl; by rewrite E | constructor] |].
    apply Forall_cons in IH as [Hh Ht]. constructor; [|exact Ht].
    simpl. by rewrite E, Hh.
Qed.

(** X7.  [main] turns the [--blueprints] and [--dependencies] arguments
    into lists with [s.split(',') if s else []].  Joining the list with
    commas gives the argument back, so nothing is trimmed or dropped at this
    point: the list is empty only for the empty argument, it has one more
    element than the argument has commas, and no element contains a
    comma. *)
Theorem split_list_round_trip (s : string) :
  Py.join "," (split_list s) = s /\
  (split_list s = [] <-> s = "") /\
  length (split_list s) = (if Py.truthy s then S (Py.count_char "," s) else 0) /\
  Forall (fun x => Py.count_char "," x = 0) (split_list s).
Proof.
  unfold split_list. destruct s as [|a s].
  - simpl. split_and!; [reflexivity | done | reflexivity | constructor].
  - cbn [Py.truthy]. split_and!.
    + apply join_split.
    + split; [|done]. intros H. by apply split_nonempty in H.
    + apply split_length.
    + apply split_segments.
Qed.

(** ** What a run logs *)

Section Appends.
Context (P : Level * string -> Prop).

Lemma appends_keeps {A : Type} (m : M A) : keeps log m -> appends P m.
Proof. intros H st. exists []. rewrite H, app_nil_r. split; [reflexivity | constructor]. Qed.

Lemma appends_logger_info (msg : string) : P (INFO, msg) -> appends P (logger_info msg).
Proof. intros H st. exists [(INFO, msg)]. split; [reflexivity | by constructor]. Qed.

Lemma appends_logger_error (msg : string) : P (ERROR, msg) -> appends P (logger_error msg).
Proof. intros H st. exists [(ERROR, msg)]. split; [reflexivity | by constructor]. Qed.

Lemma appends_bind {A B : Type} (m : M A) (k : A -> M B) :
  appends P m -> (forall a, appends P (k a)) -> appends P (m ≫= k).
Proof.
  intros Hm Hk st. rewrite bind_run. destruct (Hm st) as (l & El & Hl).
  destruct (m st) as [[a|e] st1]; simpl in *; [|by exists l].
  destruct (Hk a st1) as (l' & El' & Hl'). exists (l ++ l')%list.
  rewrite El', El, app_assoc. split; [reflexivity | by apply Forall_app].
Qed.

Lemma appends_try_except {A : Type} (body : M A) (catches : Exn -> bool) (h : Exn -> M A) :
  appends P body -> (forall e, appends P (h e)) -> appends P (try_except body catches h).
Proof.
  intros Hb Hh st. unfold try_except. destruct (Hb st) as (l & El & Hl).
  destruct (body st) as [[a|e] st1]; simpl in *; [by exists l |].
  destruct (catches e); [|by exists l].
  destruct (Hh e st1) as (l' & El' & Hl'). exists (l ++ l')%list.
  rewrite El', El, app_assoc. split; [reflexivity | by apply Forall_app].
Qed.

Lemma appends_for_each {A : Type} (l : list A) (body : A -> M unit) :
  (forall x, appends P (body x)) -> appends P (for_each l body).
Proof.
  intros Hb. induction l as [|x l IH].
  - apply appends_keeps. intros st. reflexivity.
  - rewrite for_each_cons. apply appends_bind; [apply Hb | intros _; exact IH].
Qed.

Lemma appends_chain (l : list (Stage * M unit)) (final : M unit) :
  Forall (fun sm => appends P sm.2) l -> appends P final -> appends P (chain l final).
Proof.
  intros Hl Hf. induction Hl as [|[s m] l Hm Hl IH]; [exact Hf |].
  simpl chain. apply appends_bind; [|intros _; exact IH].
  intros st. exact (Hm (add_stage s st)).
Qed.

End Appends.

Ltac appends_step :=
  match goal with
  | |- appends _ (mbind _ _) => apply appends_bind; [| intros ?]
  | |- appends _ (try_except _ _ _) => apply appends_try_except; [| intros ?]
  | |- appends _ (for_each _ _) => apply appends_for_each; intros ?
  | |- appends _ (logger_info _) => apply appends_logger_info
  | |- appends _ (logger_error _) => apply appends_logger_error
  | |- appends _ (write_text _ _ _) => unfold write_text
  | |- appends _ (match ?x with _ => _ end) => destruct x
  | |- appends _ _ => apply appends_keeps; keeps_prim
  end.

Ltac appends_tac := repeat appends_step.

(** The stages of both variants, unfolded down to the primitives. *)
Ltac unfold_stages :=
  unfold FlaskForge.create_directories, FlaskForge.create_virtualenv,
    FlaskForge.install_dependencies, FlaskForge.initialize_database,
    FlaskForge.run_post_gen_hooks, FlaskForge.run_hook,
    FForge.create_directories, FForge.create_virtualenv, FForge.initialize_database,
    FForge.run_post_gen_hooks, FForge.run_hook,
    create_base_files, render_file, create_blueprints, create_blueprint,
    create_blueprint_files, create_init_py, create_models_py, create_docker_files,
    create_ci_cd_files.

(** A run is its stages, then the last record. *)
Lemma chain_final (l : list (Stage * M unit)) (final : M unit) (st : State) :
  chain l final st = (chain l (mret tt);; final) st.
Proof.
  revert st. induction l as [|[s m] l IH]; intros st; [reflexivity |].
  simpl chain. rewrite !bind_run.
  destruct (call s m st) as [[[]|e] st1]; [|reflexivity].
  rewrite IH, bind_run. reflexivity.
Qed.

Lemma ff_stages_append (P : Level * string -> Prop) (w : World) (self : Forge) :
  (forall msg, P (ERROR, msg)) ->
  (forall msg, Py.startswith "Flask project " msg = false -> P (INFO, msg)) ->
  Forall (fun sm : Stage * M unit => appends P sm.2)
    [ (createDirectories, FlaskForge.create_directories w self);
      (createEnvironment, FlaskForge.create_virtualenv w self);
      (installDependencies, FlaskForge.install_dependencies w self);
      (renderTemplateSet, create_base_files w self);
      (generateBlueprints, create_blueprints w self);
      (writeInitFile, create_init_py w self);
      (writeModelsFile, create_models_py w self);
      (writeDockerFiles, create_docker_files w self);
      (writeCiFiles, create_ci_cd_files w self);
      (initializeDatabase, FlaskForge.initialize_database w self);
      (runPostGenHooks, FlaskForge.run_post_gen_hooks w self) ].
Proof.
  intros He Hi.
  repeat (apply Forall_cons; split;
          [cbn [snd]; unfold_stages; appends_tac; first [apply He | apply Hi; reflexivity] |]).
  apply Forall_nil_2.
Qed.

Lemma fforge_stages_append (P : Level * string -> Prop) (w : World) (self : Forge) :
  (forall msg, Py.startswith "Flask project " msg = false -> P (INFO, msg)) ->
  Forall (fun sm : Stage * M unit => appends P sm.2)
    [ (createDirectories, FForge.create_directories w self);
      (createEnvironment, FForge.create_virtualenv w self);
      (renderTemplateSet, create_base_files w self);
      (generateBlueprints, create_blueprints w self);
      (writeInitFile, create_init_py w self);
      (writeModelsFile, create_models_py w self);
      (writeDockerFiles, create_docker_files w self);
      (writeCiFiles, create_ci_cd_files w self);
      (initializeDatabase, FForge.initialize_database w self);
      (runPostGenHooks, FForge.run_post_gen_hooks w self) ].
Proof.
  intros Hi.
  repeat (apply Forall_cons; split;
          [cbn [snd]; unfold_stages; appends_tac; apply Hi; reflexivity |]).
  apply Forall_nil_2.
Qed.


Lemma emitted_by_level (l : list (Level * string)) :
  Forall (fun r => r.1 = INFO \/ r.1 = ERROR) l ->
  emitted CRITICAL l = [] /\
  emitted WARNING l = emitted ERROR l /\
  emitted INFO l = l /\ emitted DEBUG l = l.
Proof.
  unfold emitted. induction 1 as [|[lv msg] l Hr Hl (IH1 & IH2 & IH3 & IH4)]; [done |].
  rewrite !filter_cons, IH1, IH2, IH3, IH4.
  destruct Hr as [Hr|Hr]; simpl in Hr; subst lv; simpl;
    repeat (case_decide; try lia); done.
Qed.

Lemma setup_logging_out_of_range (v : Z) :
  (v < 0 \/ 5 <= v)%Z -> setup_logging v = INFO.
Proof.
  intros H. unfold setup_logging, log_levels.
  repeat (case_match; [lia |]). reflexivity.
Qed.

(** X8.  Every record a run adds to the log is at level INFO or ERROR, in
    both variants and however the run ends.  Hence with the default verbosity
    0 (threshold CRITICAL) nothing the generator logs is let through, not
    even its error records; verbosity 1 and 2 let through the same records;
    verbosity 3, 4 and every value outside 0..4 let through all of them. *)
Theorem run_logs_info_and_error_only (w : World) (self : Forge) (st : State) :
  let by_level (m : M unit) :=
    exists new,
      log (m st).2 = (log st ++ new)%list /\
      Forall (fun r => r.1 = INFO \/ r.1 = ERROR) new /\
      emitted (setup_logging 0) new = [] /\
      emitted (setup_logging 2) new = emitted (setup_logging 1) new /\
      forall v, (v < 0 \/ 3 <= v)%Z -> emitted (setup_logging v) new = new in
  by_level (FlaskForge.run w self) /\ by_level (FForge.run w self).
Proof.
  assert (Hlevels : forall new, Forall (fun r => r.1 = INFO \/ r.1 = ERROR) new ->
            emitted (setup_logging 0) new = [] /\
            emitted (setup_logging 2) new = emitted (setup_logging 1) new /\
            forall v, (v < 0 \/ 3 <= v)%Z -> emitted (setup_logging v) new = new).
  { intros new Hnew. destruct (emitted_by_level new Hnew) as (H0 & H1 & H3 & H4).
    split_and!; [exact H0 | exact H1 |].
    intros v Hv. destruct (decide (v = 3%Z)) as [->|]; [exact H3 |].
    destruct (decide (v = 4%Z)) as [->|]; [exact H4 |].
    rewrite setup_logging_out_of_range by lia. exact H3. }
  set (P := fun r : Level * string => r.1 = INFO \/ r.1 = ERROR).
  assert (He : forall msg, P (ERROR, msg)) by (intros; by right).
  assert (Hi : forall msg, Py.startswith "Flask project " msg = false -> P (INFO, msg))
    by (intros; by left).
  intros by_level. subst by_level. cbv beta. split.
  - rewrite ff_run_chain.
    destruct (appends_chain P _ _ (ff_stages_append P w self He Hi)
                (appends_logger_info P
                   ("Flask project " +:+ project_name self +:+ " created successfully")
                   (or_introl eq_refl)) st) as (new & El & Hn).
    exists new. split; [exact El |]. split; [exact Hn |]. apply Hlevels, Hn.
  - rewrite fforge_run_chain.
    destruct (appends_chain P _ _ (fforge_stages_append P w self Hi)
                (appends_logger_info P
                   ("Flask project " +:+ project_name self +:+ " created successfully")
                   (or_introl eq_refl)) st) as (new & El & Hn).
    exists new. split; [exact El |]. split; [exact Hn |]. apply Hlevels, Hn.
Qed.

Lemma success_record_last (self : Forge) (l : list (Stage * M unit)) (st : State) :
  Forall (fun sm : Stage * M unit => appends (fun r => r <> success_record self) sm.2) l ->
  let r := chain l (logger_info ("Flask project " +:+ project_name self
                                   +:+ " created successfully")) st in
  exists new,
    log r.2 = (log st ++ new)%list /\
    (r.1 = Ok tt <-> success_record self ∈ new) /\
    (r.1 = Ok tt -> last new = Some (success_record self)).
Proof.
  intros Hl r. subst r. rewrite chain_final, bind_run.
  destruct (appends_chain _ l (mret tt) Hl
              (appends_keeps _ _ (keeps_ret log tt)) st) as (pre & El & Hpre).
  destruct (chain l (mret tt) st) as [[[]|e] st1]; simpl in *.
  - exists (pre ++ [success_record self])%list. rewrite El, app_assoc.
    split; [reflexivity |]. split.
    + split; [intros _; apply elem_of_app; right; by apply list_elem_of_singleton | done].
    + intros _. apply last_snoc.
  - exists pre. split; [exact El |]. split.
    + split; [done |]. intros Hin. rewrite Forall_forall in Hpre. by destruct (Hpre _ Hin).
    + done.
Qed.

(** X9.  The record [Flask project <name> created successfully] is among
    the records of a run exactly when [run] returned, and then it is the last
    one; no stage logs it.  This holds in both variants. *)
Theorem success_record_iff_returned (w : World) (self : Forge) (st : State) :
  let marks (r : Outcome unit * State) :=
    exists new,
      log r.2 = (log st ++ new)%list /\
      (r.1 = Ok tt <-> success_record self ∈ new) /\
      (r.1 = Ok tt -> last new = Some (success_record self)) in
  marks (FlaskForge.run w self st) /\ marks (FForge.run w self st).
Proof.
  set (P := fun r : Level * string => r <> success_record self).
  assert (He : forall msg, P (ERROR, msg)) by (intros msg; unfold P, success_record; congruence).
  assert (Hi : forall msg, Py.startswith "Flask project " msg = false -> P (INFO, msg)).
  { intros msg Hs [= ->]. by rewrite startswith_append in Hs. }
  intros marks. subst marks. cbv beta. split.
  - rewrite ff_run_chain. apply success_record_last, ff_stages_append; assumption.
  - rewrite fforge_run_chain. apply success_record_last, fforge_stages_append; assumption.
Qed.

(** ** What a run leaves alone *)

Lemma preserves_try_except {A : Type} (I : State -> Prop) (body : M A)
    (catches : Exn -> bool) (h : Exn -> M A) :
  preserves I body -> (forall e, preserves I (h e)) -> preserves I (try_except body catches h).
Proof.
  intros Hb Hh st HI. unfold try_except. specialize (Hb st HI).
  destruct (body st) as [[a|e] st1]; simpl in *; [exact Hb |].
  destruct (catches e); [apply Hh, Hb | exact Hb].
Qed.

Lemma preserves_for_each_in {A : Type} (I : State -> Prop) (l : list A)
    (body : A -> M unit) :
  (forall x, x ∈ l -> preserves I (body x)) -> preserves I (for_each l body).
Proof.
  induction l as [|x l IH]; intros Hb; [intros st HI; exact HI |].
  rewrite for_each_cons. apply preserves_bind.
  - apply Hb, list_elem_of_here.
  - intros _. apply IH. intros y Hy. by apply Hb, list_elem_of_further.
Qed.

Section Frame.
Variable L : list string.
Variable st0 : State.

Local Abbreviation framed := (untouched_outside L st0).

Lemma framed_of_keeps {A : Type} (m : M A) :
  keeps fs_files m -> keeps fs_dirs m -> preserves framed m.
Proof.
  intros Hf Hd st (H1 & H2 & H3). unfold untouched_outside.
  split_and!; [intros p Hp | |]; rewrite ?Hf, ?Hd; auto.
Qed.

Lemma framed_makedirs (w : World) (p : string) : preserves framed (os_makedirs w p).
Proof.
  intros st (Hf & Hdom & Hd). unfold untouched_outside, os_makedirs.
  destruct (mkdir_denied w p); unfold set_dirs; simpl; [done |].
  split_and!; [exact Hf | exact Hdom | set_solver].
Qed.

Lemma framed_open_w (w : World) (p : string) : p ∈ L -> preserves framed (open_w w p).
Proof.
  intros Hp st (Hf & Hdom & Hd). unfold untouched_outside, open_w.
  destruct (write_denied w p); unfold set_files; simpl; [done |].
  split_and!; [| | exact Hd].
  - intros q Hq. rewrite lookup_insert_ne; [by apply Hf |]. intros ->. by apply Hq.
  - rewrite dom_insert. set_solver.
Qed.

Lemma framed_file_write (p s : string) : p ∈ L -> preserves framed (file_write p s).
Proof.
  intros Hp st (Hf & Hdom & Hd). unfold untouched_outside, file_write, set_files. simpl.
  split_and!; [| | exact Hd].
  - intros q Hq. rewrite lookup_insert_ne; [by apply Hf |]. intros ->. by apply Hq.
  - rewrite dom_insert. set_solver.
Qed.

Lemma framed_write_text (w : World) (p s : string) :
  p ∈ L -> preserves framed (write_text w p s).
Proof.
  intros Hp. unfold write_text. apply preserves_bind;
    [by apply framed_open_w | intros _; by apply framed_file_write].
Qed.

Lemma framed_logger_info (msg : string) : preserves framed (logger_info msg).
Proof. apply framed_of_keeps; keeps_prim. Qed.

Lemma framed_add_stage (st : State) (s : Stage) : framed st -> framed (add_stage s st).
Proof. intros H. exact H. Qed.

End Frame.

Section RunFrame.
Variable w : World.
Variable self : Forge.
Variable st0 : State.

Local Abbreviation framed := (untouched_outside (planned_files w self) st0).

Lemma create_base_files_framed : preserves framed (create_base_files w self).
Proof.
  unfold create_base_files. apply preserves_bind; [|intros _; apply framed_logger_info].
  apply preserves_for_each_in. intros entry He.
  apply preserves_for_each_in. intros file Hfile.
  assert (Hin : dest_path w self entry.1 file ∈ planned_files w self).
  { unfold planned_files, template_dests, template_items. apply elem_of_app. left.
    apply (list_elem_of_fmap_2 (fun it => dest_path w self it.1 it.2) _ (entry.1, file)).
    apply elem_of_flat_map. exists entry. split; [exact He |].
    by apply (list_elem_of_fmap_2 (fun f => (entry.1, f))). }
  unfold render_file.
  apply preserves_bind; [apply framed_makedirs | intros _].
  apply preserves_bind; [apply framed_of_keeps; keeps_prim | intros _].
  apply preserves_bind; [by apply framed_open_w | intros _].
  apply preserves_bind; [apply framed_of_keeps; keeps_prim | intros content].
  apply preserves_bind; [apply framed_of_keeps; keeps_prim | intros out].
  by apply framed_file_write.
Qed.

Lemma create_blueprints_framed : preserves framed (create_blueprints w self).
Proof.
  unfold create_blueprints. apply preserves_bind; [|intros _; apply framed_logger_info].
  apply preserves_for_each_in. intros bp Hbp.
  unfold create_blueprint. destruct (Py.truthy (Py.strip bp)) eqn:Et;
    [|intros st HI; exact HI].
  assert (Hin : forall p, p ∈ bp_files self (Py.strip bp) -> p ∈ planned_files w self).
  { intros p Hp. unfold planned_files. apply elem_of_app. right. apply elem_of_app. left.
    apply elem_of_flat_map. exists (Py.strip bp). split; [|exact Hp].
    unfold blueprint_names. apply list_elem_of_filter. split; [exact Et |].
    by apply list_elem_of_fmap_2. }
  repeat (apply preserves_bind; [apply framed_makedirs | intros _]).
  unfold create_blueprint_files.
  repeat (apply preserves_bind;
          [ apply framed_write_text, Hin; unfold bp_files, bp_dir, package_root; set_solver
          | intros _ ]).
  apply framed_write_text, Hin. unfold bp_files, bp_dir, package_root. set_solver.
Qed.

Lemma fixed_planned (p : string) :
  p ∈ map fst (fixed_files self) -> p ∈ planned_files w self.
Proof. intros H. unfold planned_files. rewrite !elem_of_app. by right; right. Qed.

Lemma fixed_stages_framed :
  preserves framed (create_init_py w self) /\
  preserves framed (create_models_py w self) /\
  preserves framed (create_docker_files w self) /\
  preserves framed (create_ci_cd_files w self).
Proof.
  unfold create_init_py, create_models_py, create_docker_files, create_ci_cd_files.
  split_and!;
    repeat first
      [ apply framed_logger_info
      | apply framed_makedirs
      | apply framed_write_text, fixed_planned; unfold fixed_files, package_root; simpl;
        set_solver
      | apply preserves_bind; [| intros _] ].
Qed.

End RunFrame.

(** Stages that open no file for writing. *)
Ltac framed_step :=
  match goal with
  | |- preserves _ (mbind _ _) => apply preserves_bind; [| intros ?]
  | |- preserves _ (try_except _ _ _) => apply preserves_try_except; [| intros ?]
  | |- preserves _ (for_each _ _) => apply preserves_for_each; intros ?
  | |- preserves _ (os_makedirs _ _) => apply framed_makedirs
  | |- preserves _ (match ?x with _ => _ end) => destruct x
  | |- preserves _ _ => apply framed_of_keeps; keeps_prim
  end.

Ltac framed_tac := repeat framed_step.


(** ** The files with fixed text *)

Lemma chain_ok_cons (s : Stage) (m : M unit) (l : list (Stage * M unit)) (final : M unit)
    (st : State) :
  (chain ((s, m) :: l) final st).1 = Ok tt ->
  (m (add_stage s st)).1 = Ok tt /\
  chain ((s, m) :: l) final st = chain l final (m (add_stage s st)).2.
Proof.
  change (chain ((s, m) :: l) final st) with
    (match m (add_stage s st) with
     | (Ok _, st') => chain l final st'
     | (Raised e, st') => (Raised e, st')
     end).
  destruct (m (add_stage s st)) as [[[]|e] st1]; simpl; [done | discriminate].
Qed.

(** A property a stage establishes when it returns, and the later stages
    maintain, holds after every run that returns. *)
Lemma chain_establishes (J : State -> Prop) (l1 l2 : list (Stage * M unit)) (s : Stage)
    (m final : M unit) :
  (forall st, (m st).1 = Ok tt -> J (m st).2) ->
  (forall st s', J st -> J (add_stage s' st)) ->
  Forall (fun sm => preserves J sm.2) l2 -> preserves J final ->
  forall st, (chain (l1 ++ (s, m) :: l2) final st).1 = Ok tt ->
    J (chain (l1 ++ (s, m) :: l2) final st).2.
Proof.
  intros Hm Hs Hl2 Hf. induction l1 as [|[s1 m1] l1 IH]; intros st Hok.
  - simpl app in *. destruct (chain_ok_cons _ _ _ _ _ Hok) as [Hmok ->].
    apply preserves_chain; [exact Hs | exact Hl2 | exact Hf |]. by apply Hm.
  - simpl app in *. destruct (chain_ok_cons _ _ _ _ _ Hok) as [Hmok E].
    rewrite E in *. by apply IH.
Qed.

Lemma endswith_sep_snoc (a : string) : PosixPath.endswith_sep (a +:+ "/") = true.
Proof.
  induction a as [|c a IH]; [reflexivity |].
  rewrite append_cons. simpl. destruct (a +:+ "/") eqn:E; [|exact IH].
  destruct a; discriminate.
Qed.

Lemma dir_prefix_shape (a : string) :
  dir_prefix a = "" \/ PosixPath.endswith_sep (dir_prefix a) = true.
Proof.
  unfold dir_prefix. destruct a as [|c a]; [by left |]. cbn [Py.truthy negb orb].
  destruct (PosixPath.endswith_sep (String c a)) eqn:E; [by right |].
  right. apply endswith_sep_snoc.
Qed.

Lemma count_char_app (c : ascii) (a b : string) :
  Py.count_char c (a +:+ b) = Py.count_char c a + Py.count_char c b.
Proof.
  induction a as [|x a IH]; [by rewrite append_empty_l |].
  rewrite append_cons. simpl. rewrite IH. lia.
Qed.

Lemma endswith_sep_count (a : string) :
  PosixPath.endswith_sep a = true -> 1 <= Py.count_char "/" a.
Proof.
  induction a as [|c a IH]; [discriminate |].
  destruct a as [|c' a].
  - cbn [PosixPath.endswith_sep Py.count_char]. unfold PosixPath.sep. intros ->. lia.
  - intros H.
    change (PosixPath.endswith_sep (String c (String c' a)))
      with (PosixPath.endswith_sep (String c' a)) in H.
    specialize (IH H). cbn [Py.count_char] in *. lia.
Qed.

(** The last component of a path decides between paths that end in
    components without separator. *)
Lemma last_component_unique (x y b b' : string) :
  x = "" \/ PosixPath.endswith_sep x = true ->
  y = "" \/ PosixPath.endswith_sep y = true ->
  no_sep b -> no_sep b' -> x +:+ b = y +:+ b' -> b = b'.
Proof.
  revert y. induction x as [|c x IH]; intros y Hx Hy Hb Hb' E.
  - rewrite append_empty_l in E. destruct Hy as [->|Hy]; [by rewrite append_empty_l in E |].
    apply endswith_sep_count in Hy. unfold no_sep in Hb.
    rewrite E, count_char_app in Hb. lia.
  - destruct y as [|c' y].
    + rewrite append_empty_l in E. destruct Hx as [Hx|Hx]; [discriminate |].
      apply endswith_sep_count in Hx. unfold no_sep in Hb'.
      rewrite <- E, count_char_app in Hb'. lia.
    + rewrite !append_cons in E. injection E as -> E.
      apply (IH y); [| | exact Hb | exact Hb' | exact E].
      * destruct Hx as [Hx|Hx]; [discriminate |]. destruct x; [by left | by right].
      * destruct Hy as [Hy|Hy]; [discriminate |]. destruct y; [by left | by right].
Qed.

Lemma join_component_inj (a a' b b' : string) :
  no_sep b -> no_sep b' -> PosixPath.join a b = PosixPath.join a' b' -> b = b'.
Proof.
  intros Hb Hb'.
  assert (Habs : forall s, no_sep s -> PosixPath.isabs s = false).
  { intros [|c s] Hs; [reflexivity |]. apply no_sep_cons in Hs as [Hc _].
    simpl. by apply Ascii.eqb_neq. }
  rewrite !join_dir_prefix by by apply Habs.
  apply last_component_unique; [apply dir_prefix_shape | apply dir_prefix_shape | done | done].
Qed.

Ltac distinct_paths :=
  let H := fresh in
  intros H; apply join_component_inj in H; [discriminate H | reflexivity | reflexivity].

Lemma write_text_ok (w : World) (p s : string) (st : State) :
  (write_text w p s st).1 = Ok tt ->
  (write_text w p s st).2 = set_files (<[p := s]> (fs_files st)) st.
Proof.
  unfold write_text, mbind, M_bind, open_w, file_write.
  destruct (write_denied w p); [discriminate |]. intros _. simpl.
  rewrite lookup_insert_eq. simpl. by rewrite append_empty_l, insert_insert_eq.
Qed.

Section HoldsText.
Variable p body : string.

Local Abbreviation holds := (fun st : State => fs_files st !! p = Some body).

Lemma holds_of_keeps {A : Type} (m : M A) : keeps fs_files m -> preserves holds m.
Proof. intros Hk st H. by rewrite Hk. Qed.

Lemma holds_open_w (w : World) (q : string) : q <> p -> preserves holds (open_w w q).
Proof.
  intros Hq st H. unfold open_w. destruct (write_denied w q); [exact H |].
  unfold set_files. simpl. by rewrite lookup_insert_ne.
Qed.

Lemma holds_file_write (q s : string) : q <> p -> preserves holds (file_write q s).
Proof. intros Hq st H. unfold file_write, set_files. simpl. by rewrite lookup_insert_ne. Qed.

Lemma holds_write_text (w : World) (q s : string) :
  q <> p -> preserves holds (write_text w q s).
Proof.
  intros Hq. unfold write_text.
  apply preserves_bind; [by apply holds_open_w | intros _; by apply holds_file_write].
Qed.

Lemma holds_after_write (w : World) (st : State) :
  (write_text w p body st).1 = Ok tt -> holds (write_text w p body st).2.
Proof. intros H. rewrite (write_text_ok _ _ _ _ H). simpl. apply lookup_insert_eq. Qed.

End HoldsText.

Ltac holds_step :=
  match goal with
  | |- preserves _ (mbind _ _) => apply preserves_bind; [| intros ?]
  | |- preserves _ (try_except _ _ _) => apply preserves_try_except; [| intros ?]
  | |- preserves _ (for_each _ _) => apply preserves_for_each; intros ?
  | |- preserves _ (write_text _ _ _) => apply holds_write_text; distinct_paths
  | |- preserves _ (match ?x with _ => _ end) => destruct x
  | |- preserves _ _ => apply holds_of_keeps; keeps_prim
  end.

Ltac holds_tac := repeat holds_step.

(** A stage made of whole-file writes and a log record. *)
Ltac established :=
  let st := fresh "st" in
  let H := fresh "H" in
  intros st H;
  repeat match type of H with
  | ((?m ≫= ?k) ?s).1 = Ok tt =>
      rewrite (bind_run m k s) in H |- *;
      let E := fresh "E" in
      destruct (m s) as [[[]|?] ?] eqn:E; [| discriminate H]
  end.

Section FixedFiles.
Variable w : World.
Variable self : Forge.

Lemma fixed_files_NoDup : NoDup (map fst (fixed_files self)).
Proof.
  unfold fixed_files. cbn [map fst].
  repeat (apply NoDup_cons; split;
          [rewrite ?elem_of_cons, elem_of_nil; intros H;
           repeat (destruct H as [H|H]; [revert H; distinct_paths |]); exact H |]).
  apply NoDup_nil_2.
Qed.

End FixedFiles.

Lemma establish_bind_first {A B : Type} (J : State -> Prop) (m : M A) (k : A -> M B) :
  (forall st a, (m st).1 = Ok a -> J (m st).2) -> (forall a, preserves J (k a)) ->
  forall st b, ((m ≫= k) st).1 = Ok b -> J ((m ≫= k) st).2.
Proof.
  intros Hm Hk st b. rewrite bind_run. specialize (Hm st).
  destruct (m st) as [[a|e] st1]; simpl in *; [|discriminate].
  intros _. apply Hk. by apply (Hm a).
Qed.

Lemma establish_bind_later {A B : Type} (J : State -> Prop) (m : M A) (k : A -> M B) :
  (forall a st b, (k a st).1 = Ok b -> J (k a st).2) ->
  forall st b, ((m ≫= k) st).1 = Ok b -> J ((m ≫= k) st).2.
Proof.
  intros Hk st b. rewrite bind_run.
  destruct (m st) as [[a|e] st1]; simpl in *; [|discriminate]. apply Hk.
Qed.

Section FixedFilesRun.
Variable w : World.
Variable self : Forge.

Local Abbreviation holds := (fun (pb : string * string) (st : State) =>
                               fs_files st !! pb.1 = Some pb.2).
Local Abbreviation init_file :=
  (PosixPath.join (package_root self) "__init__.py", app_init_py).
Local Abbreviation models_file :=
  (PosixPath.join (package_root self) "models.py", models_py).
Local Abbreviation docker_file :=
  (PosixPath.join (project_path self) "Dockerfile", dockerfile).
Local Abbreviation compose_file :=
  (PosixPath.join (project_path self) "docker-compose.yml", docker_compose_yml).
Local Abbreviation ci_file :=
  (PosixPath.join
     (PosixPath.join (PosixPath.join (project_path self) ".github") "workflows")
     "python-app.yml", python_app_yml).

Lemma written_text_holds (p body : string) (st : State) (a : unit) :
  (write_text w p body st).1 = Ok a -> fs_files (write_text w p body st).2 !! p = Some body.
Proof. destruct a. apply holds_after_write. Qed.

Lemma create_init_py_establishes (st : State) :
  (create_init_py w self st).1 = Ok tt -> holds init_file (create_init_py w self st).2.
Proof.
  unfold create_init_py. apply (establish_bind_first (holds init_file)).
  - intros st' a. apply written_text_holds.
  - intros _. holds_tac.
Qed.

Lemma create_models_py_establishes (st : State) :
  (create_models_py w self st).1 = Ok tt -> holds models_file (create_models_py w self st).2.
Proof.
  unfold create_models_py. apply (establish_bind_first (holds models_file)).
  - intros st' a. apply written_text_holds.
  - intros _. holds_tac.
Qed.

Lemma create_docker_files_establishes (st : State) :
  (create_docker_files w self st).1 = Ok tt ->
  holds docker_file (create_docker_files w self st).2 /\
  holds compose_file (create_docker_files w self st).2.
Proof.
  intros H. split; revert H; unfold create_docker_files.
  - apply (establish_bind_first (holds docker_file)).
    + intros st' a. apply written_text_holds.
    + intros _. holds_tac.
  - apply (establish_bind_later (holds compose_file)). intros _ st1 b.
    apply (establish_bind_first (holds compose_file)).
    + intros st' a. apply written_text_holds.
    + intros _. holds_tac.
Qed.

Lemma create_ci_cd_files_establishes (st : State) :
  (create_ci_cd_files w self st).1 = Ok tt -> holds ci_file (create_ci_cd_files w self st).2.
Proof.
  unfold create_ci_cd_files. cbv zeta.
  apply (establish_bind_later (holds ci_file)). intros _ st1 b.
  apply (establish_bind_first (holds ci_file)).
  - intros st' a. apply written_text_holds.
  - intros _. holds_tac.
Qed.

Ltac later_stages :=
  repeat (apply Forall_cons; split; [cbn [snd]; unfold_stages; cbv zeta; holds_tac |]);
  apply Forall_nil_2.

Ltac last_record := apply holds_of_keeps; keeps_prim.

Lemma ff_run_fixed_files (st : State) :
  (FlaskForge.run w self st).1 = Ok tt ->
  Forall (fun pb => holds pb (FlaskForge.run w self st).2) (fixed_files self).
Proof.
  rewrite ff_run_chain. intros Hok. unfold fixed_files.
  repeat (apply Forall_cons; split; [revert Hok |]); [| | | | | apply Forall_nil_2].
  - apply (chain_establishes (holds init_file)
             [ (createDirectories, FlaskForge.create_directories w self);
               (createEnvironment, FlaskForge.create_virtualenv w self);
               (installDependencies, FlaskForge.install_dependencies w self);
               (renderTemplateSet, create_base_files w self);
               (generateBlueprints, create_blueprints w self) ]
             [ (writeModelsFile, create_models_py w self);
               (writeDockerFiles, create_docker_files w self);
               (writeCiFiles, create_ci_cd_files w self);
               (initializeDatabase, FlaskForge.initialize_database w self);
               (runPostGenHooks, FlaskForge.run_post_gen_hooks w self) ]
             writeInitFile (create_init_py w self));
      [apply create_init_py_establishes | done | later_stages | last_record].
  - apply (chain_establishes (holds models_file)
             [ (createDirectories, FlaskForge.create_directories w self);
               (createEnvironment, FlaskForge.create_virtualenv w self);
               (installDependencies, FlaskForge.install_dependencies w self);
               (renderTemplateSet, create_base_files w self);
               (generateBlueprints, create_blueprints w self);
               (writeInitFile, create_init_py w self) ]
             [ (writeDockerFiles, create_docker_files w self);
               (writeCiFiles, create_ci_cd_files w self);
               (initializeDatabase, FlaskForge.initialize_database w self);
               (runPostGenHooks, FlaskForge.run_post_gen_hooks w self) ]
             writeModelsFile (create_models_py w self));
      [apply create_models_py_establishes | done | later_stages | last_record].
  - apply (chain_establishes (holds docker_file)
             [ (createDirectories, FlaskForge.create_directories w self);
               (createEnvironment, FlaskForge.create_virtualenv w self);
               (installDependencies, FlaskForge.install_dependencies w self);
               (renderTemplateSet, create_base_files w self);
               (generateBlueprints, create_blueprints w self);
               (writeInitFile, create_init_py w self);
               (writeModelsFile, create_models_py w self) ]
             [ (writeCiFiles, create_ci_cd_files w self);
               (initializeDatabase, FlaskForge.initialize_database w self);
               (runPostGenHooks, FlaskForge.run_post_gen_hooks w self) ]
             writeDockerFiles (create_docker_files w self));
      [intros st' H; apply create_docker_files_establishes, H | done | later_stages
      | last_record].
  - apply (chain_establishes (holds compose_file)
             [ (createDirectories, FlaskForge.create_directories w self);
               (createEnvironment, FlaskForge.create_virtualenv w self);
               (installDependencies, FlaskForge.install_dependencies w self);
               (renderTemplateSet, create_base_files w self);
               (generateBlueprints, create_blueprints w self);
               (writeInitFile, create_init_py w self);
               (writeModelsFile, create_models_py w self) ]
             [ (writeCiFiles, create_ci_cd_files w self);
               (initializeDatabase, FlaskForge.initialize_database w self);
               (runPostGenHooks, FlaskForge.run_post_gen_hooks w self) ]
             writeDockerFiles (create_docker_files w self));
      [intros st' H; apply create_docker_files_establishes, H | done | later_stages
      | last_record].
  - apply (chain_establishes (holds ci_file)
             [ (createDirectories, FlaskForge.create_directories w self);
               (createEnvironment, FlaskForge.create_virtualenv w self);
               (installDependencies, FlaskForge.install_dependencies w self);
               (renderTemplateSet, create_base_files w self);
               (generateBlueprints, create_blueprints w self);
               (writeInitFile, create_init_py w self);
               (writeModelsFile, create_models_py w self);
               (writeDockerFiles, create_docker_files w self) ]
             [ (initializeDatabase, FlaskForge.initialize_database w self);
               (runPostGenHooks, FlaskForge.run_post_gen_hooks w self) ]
             writeCiFiles (create_ci_cd_files w self));
      [apply create_ci_cd_files_establishes | done | later_stages | last_record].
Qed.

Lemma fforge_run_fixed_files (st : State) :
  (FForge.run w self st).1 = Ok tt ->
  Forall (fun pb => holds pb (FForge.run w self st).2) (fixed_files self).
Proof.
  rewrite fforge_run_chain. intros Hok. unfold fixed_files.
  repeat (apply Forall_cons; split; [revert Hok |]); [| | | | | apply Forall_nil_2].
  - apply (chain_establishes (holds init_file)
             [ (createDirectories, FForge.create_directories w self);
               (createEnvironment, FForge.create_virtualenv w self);
               (renderTemplateSet, create_base_files w self);
               (generateBlueprints, create_blueprints w self) ]
             [ (writeModelsFile, create_models_py w self);
               (writeDockerFiles, create_docker_files w self);
               (writeCiFiles, create_ci_cd_files w self);
               (initializeDatabase, FForge.initialize_database w self);
               (runPostGenHooks, FForge.run_post_gen_hooks w self) ]
             writeInitFile (create_init_py w self));
      [apply create_init_py_establishes | done | later_stages | last_record].
  - apply (chain_establishes (holds models_file)
             [ (createDirectories, FForge.create_directories w self);
               (createEnvironment, FForge.create_virtualenv w self);
               (renderTemplateSet, create_base_files w self);
               (generateBlueprints, create_blueprints w self);
               (writeInitFile, create_init_py w self) ]
             [ (writeDockerFiles, create_docker_files w self);
               (writeCiFiles, create_ci_cd_files w self);
               (initializeDatabase, FForge.initialize_database w self);
               (runPostGenHooks, FForge.run_post_gen_hooks w self) ]
             writeModelsFile (create_models_py w self));
      [apply create_models_py_establishes | done | later_stages | last_record].
  - apply (chain_establishes (holds docker_file)
             [ (createDirectories, FForge.create_directories w self);
               (createEnvironment, FForge.create_virtualenv w self);
               (renderTemplateSet, create_base_files w self);
               (generateBlueprints, create_blueprints w self);
               (writeInitFile, create_init_py w self);
               (writeModelsFile, create_models_py w self) ]
             [ (writeCiFiles, create_ci_cd_files w self);
               (initializeDatabase, FForge.initialize_database w self);
               (runPostGenHooks, FForge.run_post_gen_hooks w self) ]
             writeDockerFiles (create_docker_files w self));
      [intros st' H; apply create_docker_files_establishes, H | done | later_stages
      | last_record].
  - apply (chain_establishes (holds compose_file)
             [ (createDirectories, FForge.create_directories w self);
               (createEnvironment, FForge.create_virtualenv w self);
               (renderTemplateSet, create_base_files w self);
               (generateBlueprints, create_blueprints w self);
               (writeInitFile, create_init_py w self);
               (writeModelsFile, create_models_py w self) ]
             [ (writeCiFiles, create_ci_cd_files w self);
               (initializeDatabase, FForge.initialize_database w self);
               (runPostGenHooks, FForge.run_post_gen_hooks w self) ]
             writeDockerFiles (create_docker_files w self));
      [intros st' H; apply create_docker_files_establishes, H | done | later_stages
      | last_record].
  - apply (chain_establishes (holds ci_file)
             [ (createDirectories, FForge.create_directories w self);
               (createEnvironment, FForge.create_virtualenv w self);
               (renderTemplateSet, create_base_files w self);
               (generateBlueprints, create_blueprints w self);
               (writeInitFile, create_init_py w self);
               (writeModelsFile, create_models_py w self);
               (writeDockerFiles, create_docker_files w self) ]
             [ (initializeDatabase, FForge.initialize_database w self);
               (runPostGenHooks, FForge.run_post_gen_hooks w self) ]
             writeCiFiles (create_ci_cd_files w self));
      [apply create_ci_cd_files_establishes | done | later_stages | last_record].
Qed.

End FixedFilesRun.



(** ** The commands of a run *)

(** Stages that keep a component hand it on unchanged when the run goes on. *)
Lemma chain_skip_keeps {X : Type} (proj : State -> X) (l1 l2 : list (Stage * M unit))
    (final : M unit) :
  (forall s st, proj (add_stage s st) = proj st) ->
  Forall (fun sm => keeps proj sm.2) l1 ->
  forall st, (chain (l1 ++ l2) final st).1 = Ok tt ->
    exists st', proj st' = proj st /\ chain (l1 ++ l2) final st = chain l2 final st'.
Proof.
  intros Hs Hl1. induction Hl1 as [|[s m] l1 Hm Hl1 IH]; intros st Hok.
  - by exists st.
  - simpl app in *. destruct (chain_ok_cons _ _ _ _ _ Hok) as [_ E].
    rewrite E in Hok. destruct (IH _ Hok) as (st' & Hp & E').
    exists st'. split; [|by rewrite E, E'].
    rewrite Hp. simpl in Hm. by rewrite Hm, Hs.
Qed.

Lemma keeps_chain {X : Type} (proj : State -> X) (l : list (Stage * M unit))
    (final : M unit) :
  (forall s st, proj (add_stage s st) = proj st) ->
  Forall (fun sm => keeps proj sm.2) l -> keeps proj final ->
  keeps proj (chain l final).
Proof.
  intros Hs Hl Hf. induction Hl as [|[s m] l Hm Hl IH]; [exact Hf |].
  simpl chain. apply keeps_bind; [|intros _; exact IH].
  intros st. unfold call. simpl in Hm. by rewrite Hm, Hs.
Qed.

(** Reading the prefix does not assign it. *)
Lemma get_activate_command_keeps {X : Type} (proj : State -> X) :
  keeps proj get_activate_command.
Proof. intros st. unfold get_activate_command. by destruct (activate_command st). Qed.

Ltac keeps_all_step :=
  match goal with
  | |- keeps _ get_activate_command => apply get_activate_command_keeps
  | |- _ => keeps_step
  end.

Ltac keeps_stages :=
  repeat (apply Forall_cons; split;
          [cbn [snd]; unfold_stages; cbv zeta; solve [repeat keeps_all_step] |]);
  apply Forall_nil_2.

Lemma ff_initialize_database_unset (w : World) (self : Forge) (st : State) :
  activate_command st = None ->
  FlaskForge.initialize_database w self st = (Raised (AttributeError "activate_command"), st).
Proof.
  intros Hn. unfold FlaskForge.initialize_database, try_except, mbind, M_bind,
    get_activate_command. by rewrite Hn.
Qed.

Lemma ff_create_virtualenv_cases (w : World) (self : Forge) (st : State) :
  match proc_outcome w (procs st) (venv_invocation self) with
  | Exited rc =>
      if (rc =? 0)%Z
      then FlaskForge.create_virtualenv w self st =
             (Ok tt, set_activate (activation_prefix w self)
                       (add_log (INFO, "Virtual environment created")
                          (add_proc (venv_invocation self) st)))
      else FlaskForge.create_virtualenv w self st =
             (Ok tt, add_log (ERROR, "Error creating virtual environment: " +:+
                                     str_exc w (CalledProcessError (venv_invocation self) rc))
                       (add_proc (venv_invocation self) st))
  | LaunchFailed =>
      exists e, (FlaskForge.create_virtualenv w self st).1 = Raised e /\ is_OSError e = true
  end.
Proof.
  unfold FlaskForge.create_virtualenv, try_except, mbind, M_bind, subprocess_run,
    logger_info, logger_error, assign_activate_command.
  fold (venv_invocation self).
  destruct (proc_outcome w (procs st) (venv_invocation self)) as [rc|];
    [destruct (rc =? 0)%Z eqn:Erc |]; simpl; [reflexivity | reflexivity |].
  eexists. split; reflexivity.
Qed.

(** X12.  A run of [flaskforge.py] that starts without the activation
    prefix returns only if the creation of the environment exited with code
    0: after any other code the prefix stays unset and the database stage
    raises.  On return the prefix is the one built on the environment
    directory. *)
Theorem ff_run_returns_only_with_environment (w : World) (self : Forge) (st : State) :
  activate_command st = None ->
  (FlaskForge.run w self st).1 = Ok tt ->
  proc_outcome w (procs st) (venv_invocation self) = Exited 0 /\
  activate_command (FlaskForge.run w self st).2 = Some (activation_prefix w self).
Proof.
  intros Hn. rewrite ff_run_chain. intros Hok.
  set (proj := fun st : State => (procs st, activate_command st)).
  destruct (chain_skip_keeps proj
              [(createDirectories, FlaskForge.create_directories w self)] _ _
              (fun _ _ => eq_refl) ltac:(keeps_stages) st Hok) as (st1 & Hp1 & E1).
  injection Hp1 as Hprocs Hact. rewrite Hn in Hact.
  cbn [app] in E1. rewrite E1 in Hok |- *. clear E1.
  destruct (chain_ok_cons _ _ _ _ _ Hok) as [Hvenv E2]. rewrite E2 in Hok |- *. clear E2.
  pose proof (ff_create_virtualenv_cases w self (add_stage createEnvironment st1)) as Hc.
  change (procs (add_stage createEnvironment st1)) with (procs st1) in Hc.
  rewrite Hprocs in Hc.
  destruct (proc_outcome w (procs st) (venv_invocation self)) as [rc|];
    [destruct (rc =? 0)%Z eqn:Erc |].
  - apply Z.eqb_eq in Erc as ->. split; [reflexivity |]. rewrite Hc. cbn [snd].
    match goal with |- activate_command (chain ?l ?f ?s).2 = _ =>
      rewrite (keeps_chain activate_command l f (fun _ _ => eq_refl)
                 ltac:(keeps_stages) ltac:(keeps_prim) s) end.
    reflexivity.
  - exfalso. rewrite Hc in Hok. cbn [snd] in Hok.
    match type of Hok with (chain _ ?f ?s).1 = _ =>
      destruct (chain_skip_keeps activate_command
                  [ (installDependencies, FlaskForge.install_dependencies w self);
                    (renderTemplateSet, create_base_files w self);
                    (generateBlueprints, create_blueprints w self);
                    (writeInitFile, create_init_py w self);
                    (writeModelsFile, create_models_py w self);
                    (writeDockerFiles, create_docker_files w self);
                    (writeCiFiles, create_ci_cd_files w self) ]
                  [ (initializeDatabase, FlaskForge.initialize_database w self);
                    (runPostGenHooks, FlaskForge.run_post_gen_hooks w self) ] f
                  (fun _ _ => eq_refl) ltac:(keeps_stages) s Hok) as (st2 & Hp2 & E2)
    end.
    cbn [app] in E2. rewrite E2 in Hok. apply chain_ok_cons in Hok as [Hdb _].
    rewrite ff_initialize_database_unset in Hdb; [discriminate |].
    change (activate_command (add_stage initializeDatabase st2))
      with (activate_command st2). rewrite Hp2. exact Hact.
  - destruct Hc as (e & He & _). rewrite He in Hvenv. discriminate.
Qed.

Lemma fforge_create_virtualenv_ok (w : World) (self : Forge) (st : State) :
  (FForge.create_virtualenv w self st).1 = Ok tt ->
  FForge.create_virtualenv w self st =
    (Ok tt, set_activate (activation_prefix w self)
              (add_log (INFO, "Virtual environment created")
                 (add_proc (venv_invocation self) st))).
Proof.
  unfold FForge.create_virtualenv, mbind, M_bind, subprocess_run, logger_info,
    assign_activate_command.
  fold (venv_invocation self).
  destruct (proc_outcome w (procs st) (venv_invocation self)) as [rc|]; simpl;
    [reflexivity | discriminate].
Qed.

Lemma fforge_initialize_database_effect (w : World) (self : Forge) (st : State)
    (p : string) :
  launches w ->
  activate_command st = Some p ->
  (FForge.initialize_database w self st).1 = Ok tt /\
  procs (FForge.initialize_database w self st).2 = (procs st ++ db_invocations self p)%list /\
  activate_command (FForge.initialize_database w self st).2 = Some p.
Proof.
  intros Hl Hp.
  unfold FForge.initialize_database, mbind, M_bind, get_activate_command, subprocess_run,
    logger_info.
  rewrite Hp.
  repeat match goal with
         | |- context [proc_outcome w ?tr ?i] =>
             let rc := fresh "rc" in destruct (Hl tr i) as [rc ->]; simpl; rewrite ?Hp
         end.
  unfold db_invocations. simpl. rewrite <- !app_assoc. simpl.
  split_and!; reflexivity || assumption.
Qed.

Lemma ff_initialize_database_effect (w : World) (self : Forge) (st : State) (p : string) :
  (forall tr inv, proc_outcome w tr inv = Exited 0) ->
  activate_command st = Some p ->
  (FlaskForge.initialize_database w self st).1 = Ok tt /\
  procs (FlaskForge.initialize_database w self st).2 =
    (procs st ++ db_invocations self p)%list /\
  activate_command (FlaskForge.initialize_database w self st).2 = Some p.
Proof.
  intros Hz Hp.
  unfold FlaskForge.initialize_database, try_except, mbind, M_bind, get_activate_command,
    subprocess_run, logger_info.
  rewrite Hp. rewrite !Hz. simpl. rewrite Hp, !Hz. simpl. rewrite Hp, !Hz. simpl.
  unfold db_invocations. simpl. rewrite <- !app_assoc. simpl.
  split_and!; reflexivity || assumption.
Qed.

Lemma ff_install_dependencies_effect (w : World) (self : Forge) (st : State) (p : string) :
  (forall tr inv, proc_outcome w tr inv = Exited 0) ->
  activate_command st = Some p ->
  (FlaskForge.install_dependencies w self st).1 = Ok tt /\
  procs (FlaskForge.install_dependencies w self st).2 =
    (procs st ++ match dependencies self with
                 | [] => []
                 | _ => [pip_invocation self p]
                 end)%list /\
  activate_command (FlaskForge.install_dependencies w self st).2 = Some p.
Proof.
  intros Hz Hp. unfold FlaskForge.install_dependencies, pip_invocation.
  destruct (dependencies self) as [|d ds].
  - simpl. rewrite app_nil_r. done.
  - unfold try_except, mbind, M_bind, get_activate_command, subprocess_run, logger_info.
    rewrite Hp, Hz. simpl. done.
Qed.

Section Commands.
Variable w : World.
Variable self : Forge.

Local Abbreviation prefix := (activation_prefix w self).
Local Abbreviation track := (fun st : State => (procs st, activate_command st)).

(** X13.  A run of [fforge.py] that returns has launched, in this order:
    the creation of the environment, the three database commands and one
    command for each segment of the hook string, all under the prefix built
    on the environment directory, whatever the return codes were.  It never
    installs the dependencies. *)
Theorem fforge_run_commands (st : State) :
  launches w ->
  (FForge.run w self st).1 = Ok tt ->
  procs (FForge.run w self st).2 =
    (procs st ++ venv_invocation self :: db_invocations self prefix
       ++ map (hook_invocation self prefix) (split_list (post_gen_hooks self)))%list.
Proof.
  intros Hl. rewrite fforge_run_chain. intros Hok.
  destruct (chain_skip_keeps track
              [(createDirectories, FForge.create_directories w self)] _ _
              (fun _ _ => eq_refl) ltac:(keeps_stages) st Hok) as (st1 & Hp1 & E1).
  injection Hp1 as Hprocs1 _.
  cbn [app] in E1. rewrite E1 in Hok |- *. clear E1.
  destruct (chain_ok_cons _ _ _ _ _ Hok) as [Hvenv E2]. rewrite E2 in Hok |- *. clear E2.
  rewrite (fforge_create_virtualenv_ok _ _ _ Hvenv) in Hok |- *. cbn [snd] in Hok |- *.
  match type of Hok with (chain _ ?f ?s).1 = _ =>
    destruct (chain_skip_keeps track
                [ (renderTemplateSet, create_base_files w self);
                  (generateBlueprints, create_blueprints w self);
                  (writeInitFile, create_init_py w self);
                  (writeModelsFile, create_models_py w self);
                  (writeDockerFiles, create_docker_files w self);
                  (writeCiFiles, create_ci_cd_files w self) ]
                [ (initializeDatabase, FForge.initialize_database w self);
                  (runPostGenHooks, FForge.run_post_gen_hooks w self) ] f
                (fun _ _ => eq_refl) ltac:(keeps_stages) s Hok) as (st3 & Hp3 & E3)
  end.
  injection Hp3 as Hprocs3 Hact3. cbn [app] in E3. rewrite E3 in Hok |- *. clear E3.
  destruct (chain_ok_cons _ _ _ _ _ Hok) as [_ E4]. rewrite E4 in Hok |- *. clear E4.
  destruct (fforge_initialize_database_effect w self (add_stage initializeDatabase st3)
              prefix Hl Hact3) as (_ & Hprocs4 & Hact4).
  destruct (chain_ok_cons _ _ _ _ _ Hok) as [_ E5]. rewrite E5. clear E5 Hok.
  match goal with |- procs (chain [] _ (FForge.run_post_gen_hooks w self ?s).2).2 = _ =>
    destruct (fforge_hooks_procs w self Hl s prefix Hact4) as (_ & Hprocs5 & _)
  end.
  cbn [chain]. unfold logger_info at 1. cbn [snd].
  change (procs (add_log ?r ?s)) with (procs s).
  rewrite Hprocs5.
  change (procs (add_stage ?x ?s)) with (procs s). rewrite Hprocs4.
  change (procs (add_stage ?x ?s)) with (procs s). rewrite Hprocs3. simpl procs.
  rewrite Hprocs1, <- !app_assoc. reflexivity.
Qed.

(** X14.  When every launched command exits with code 0, a run of
    [flaskforge.py] that returns has launched, in this order: the creation of
    the environment, one [pip install] command if the dependency list is not
    empty, the three database commands and one command for each segment of
    the hook string. *)
Theorem ff_run_commands (st : State) :
  (forall tr inv, proc_outcome w tr inv = Exited 0) ->
  (FlaskForge.run w self st).1 = Ok tt ->
  procs (FlaskForge.run w self st).2 =
    (procs st ++ venv_invocation self
       :: match dependencies self with [] => [] | _ => [pip_invocation self prefix] end
       ++ db_invocations self prefix
       ++ map (hook_invocation self prefix) (split_list (post_gen_hooks self)))%list.
Proof.
  intros Hz.
  assert (Hl : launches w) by (intros tr inv; exists 0%Z; apply Hz).
  rewrite ff_run_chain. intros Hok.
  destruct (chain_skip_keeps track
              [(createDirectories, FlaskForge.create_directories w self)] _ _
              (fun _ _ => eq_refl) ltac:(keeps_stages) st Hok) as (st1 & Hp1 & E1).
  injection Hp1 as Hprocs1 _.
  cbn [app] in E1. rewrite E1 in Hok |- *. clear E1.
  destruct (chain_ok_cons _ _ _ _ _ Hok) as [_ E2]. rewrite E2 in Hok |- *. clear E2.
  pose proof (ff_create_virtualenv_cases w self (add_stage createEnvironment st1)) as Hc.
  rewrite Hz in Hc. cbn [Z.eqb] in Hc. rewrite Hc in Hok |- *. clear Hc.
  cbn [snd] in Hok |- *.
  destruct (chain_ok_cons _ _ _ _ _ Hok) as [_ E3]. rewrite E3 in Hok |- *. clear E3.
  match type of Hok with
    (chain _ _ (FlaskForge.install_dependencies w self ?s).2).1 = _ =>
      destruct (ff_install_dependencies_effect w self s prefix Hz eq_refl)
        as (_ & Hprocs3 & Hact3)
  end.
  match type of Hok with (chain _ ?f ?s).1 = _ =>
    destruct (chain_skip_keeps track
                [ (renderTemplateSet, create_base_files w self);
                  (generateBlueprints, create_blueprints w self);
                  (writeInitFile, create_init_py w self);
                  (writeModelsFile, create_models_py w self);
                  (writeDockerFiles, create_docker_files w self);
                  (writeCiFiles, create_ci_cd_files w self) ]
                [ (initializeDatabase, FlaskForge.initialize_database w self);
                  (runPostGenHooks, FlaskForge.run_post_gen_hooks w self) ] f
                (fun _ _ => eq_refl) ltac:(keeps_stages) s Hok) as (st4 & Hp4 & E4)
  end.
  injection Hp4 as Hprocs4 Hact4. rewrite Hact3 in Hact4.
  cbn [app] in E4. rewrite E4 in Hok |- *. clear E4.
  destruct (chain_ok_cons _ _ _ _ _ Hok) as [_ E5]. rewrite E5 in Hok |- *. clear E5.
  destruct (ff_initialize_database_effect w self (add_stage initializeDatabase st4)
              prefix Hz Hact4) as (_ & Hprocs5 & Hact5).
  destruct (chain_ok_cons _ _ _ _ _ Hok) as [_ E6]. rewrite E6. clear E6 Hok.
  match goal with
    |- procs (chain [] _ (FlaskForge.run_post_gen_hooks w self ?s).2).2 = _ =>
      destruct (ff_hooks_procs w self Hl s prefix Hact5) as (_ & Hprocs6 & _)
  end.
  cbn [chain]. unfold logger_info at 1. cbn [snd].
  change (procs (add_log ?r ?s)) with (procs s).
  rewrite Hprocs6.
  change (procs (add_stage ?x ?s)) with (procs s). rewrite Hprocs5.
  change (procs (add_stage ?x ?s)) with (procs s). rewrite Hprocs4, Hprocs3. simpl procs.
  rewrite Hprocs1, <- !app_assoc. reflexivity.
Qed.

End Commands.


Lemma ff_run_returns_only_with_environment_witness :
  let w := Scenario.world Scenario.pip_and_false_fail Scenario.nothing_denied [] in
  let self := Scenario.forge (Scenario.command_line "shop" "" "Flask" "false" None) in
  proc_outcome w [] (venv_invocation self) = Exited 0 /\
  activate_command (FlaskForge.run w self Scenario.empty_state).2 =
    Some "source /w/shop/.fforge/bin/activate".
Proof.
  intros w self.
  apply (ff_run_returns_only_with_environment w self Scenario.empty_state);
    [reflexivity | vm_compute; reflexivity].
Defined.

Lemma fforge_run_commands_witness :
  let w := Scenario.world Scenario.pip_and_false_fail Scenario.nothing_denied [] in
  let self := Scenario.forge (Scenario.command_line "shop" "" "Flask" "false, echo b" None) in
  map command_text (procs (FForge.run w self Scenario.empty_state).2) =
    [ "python -m venv /w/shop/.fforge";
      "source /w/shop/.fforge/bin/activate && flask db init";
      "source /w/shop/.fforge/bin/activate && flask db migrate";
      "source /w/shop/.fforge/bin/activate && flask db upgrade";
      "source /w/shop/.fforge/bin/activate && false";
      "source /w/shop/.fforge/bin/activate && echo b" ].
Proof.
  intros w self.
  rewrite (fforge_run_commands w self Scenario.empty_state);
    [reflexivity | intros tr inv; eexists; reflexivity | vm_compute; reflexivity].
Defined.

Lemma ff_run_commands_witness :
  let w := Scenario.world Scenario.all_zero Scenario.nothing_denied [] in
  let self := Scenario.forge (Scenario.command_line "shop" "" "Flask,requests" "echo b" None) in
  map command_text (procs (FlaskForge.run w self Scenario.empty_state).2) =
    [ "python -m venv /w/shop/.fforge";
      "source /w/shop/.fforge/bin/activate && pip install Flask requests";
      "source /w/shop/.fforge/bin/activate && flask db init";
      "source /w/shop/.fforge/bin/activate && flask db migrate";
      "source /w/shop/.fforge/bin/activate && flask db upgrade";
      "source /w/shop/.fforge/bin/activate && echo b" ].
Proof.
  intros w self.
  rewrite (ff_run_commands w self Scenario.empty_state);
    [reflexivity | intros tr inv; reflexivity | vm_compute; reflexivity].
Defined.

(** ** A file stage that fails half-way *)

(** X15.  [create_docker_files] is not undone when it fails: if
    [Dockerfile] can be written and [docker-compose.yml] cannot, the stage
    raises [OSError] for the second path, [Dockerfile] stays written with its
    full text, and the stage logs nothing. *)
Theorem create_docker_files_keeps_partial_output (w : World) (self : Forge) (st : State) :
  write_denied w (PosixPath.join (project_path self) "Dockerfile") = false ->
  write_denied w (PosixPath.join (project_path self) "docker-compose.yml") = true ->
  let r := create_docker_files w self st in
  r.1 = Raised (OSError (PosixPath.join (project_path self) "docker-compose.yml")) /\
  fs_files r.2 = <[PosixPath.join (project_path self) "Dockerfile" := dockerfile]> (fs_files st) /\
  fs_files r.2 !! PosixPath.join (project_path self) "docker-compose.yml" =
    fs_files st !! PosixPath.join (project_path self) "docker-compose.yml" /\
  log r.2 = log st /\ fs_dirs r.2 = fs_dirs st.
Proof.
  intros H1 H2 r. subst r.
  unfold create_docker_files, write_text, mbind, M_bind, open_w, file_write.
  rewrite H1. simpl. rewrite H2. simpl.
  rewrite lookup_insert_eq. simpl. rewrite append_empty_l, insert_insert_eq.
  split_and!; try reflexivity.
  apply lookup_insert_ne. distinct_paths.
Qed.

Lemma create_docker_files_keeps_partial_output_witness :
  let w := Scenario.world Scenario.all_zero compose_denied [] in
  let self := Scenario.forge (Scenario.command_line "shop" "" "" "" None) in
  let r := create_docker_files w self Scenario.empty_state in
  r.1 = Raised (OSError "/w/shop/docker-compose.yml") /\
  fs_files r.2 = <["/w/shop/Dockerfile" := dockerfile]> ∅ /\
  log r.2 = [].
Proof.
  intros w self r.
  destruct (create_docker_files_keeps_partial_output w self Scenario.empty_state)
    as (Hr & Hf & _ & Hl & _); [reflexivity | reflexivity |].
  split_and!; [exact Hr | exact Hf | exact Hl].
Defined.

(** ** The two variants side by side *)

Lemma oblivious_ret {A : Type} (a : A) : oblivious (mret a : M A).
Proof. intros x st. reflexivity. Qed.

Lemma oblivious_bind {A B : Type} (m : M A) (k : A -> M B) :
  oblivious m -> (forall a, oblivious (k a)) -> oblivious (m ≫= k).
Proof.
  intros Hm Hk x st. rewrite !bind_run, Hm.
  destruct (m st) as [[a|e] st1]; simpl; [apply Hk | reflexivity].
Qed.

Lemma oblivious_try_except {A : Type} (body : M A) (catches : Exn -> bool)
    (h : Exn -> M A) :
  oblivious body -> (forall e, oblivious (h e)) -> oblivious (try_except body catches h).
Proof.
  intros Hb Hh x st. unfold try_except. rewrite Hb.
  destruct (body st) as [[a|e] st1]; simpl; [reflexivity |].
  destruct (catches e); [apply Hh | reflexivity].
Qed.

Lemma oblivious_for_each {A : Type} (l : list A) (body : A -> M unit) :
  (forall a, oblivious (body a)) -> oblivious (for_each l body).
Proof.
  intros Hb. induction l as [|a l IH]; [apply oblivious_ret |].
  rewrite for_each_cons. apply oblivious_bind; [apply Hb | intros _; exact IH].
Qed.

Ltac oblivious_prim :=
  let x := fresh "x" in
  let st := fresh "st" in
  intros x st;
  unfold os_makedirs, open_r, open_w, file_read, file_write, render_template,
    subprocess_run, logger_info, logger_error, get_activate_command,
    assign_activate_command, raise, mret, M_ret;
  cbn [restage activate_command fs_dirs fs_files procs log stages];
  repeat case_match; reflexivity.

Ltac oblivious_step :=
  match goal with
  | |- oblivious (mbind _ _) => apply oblivious_bind; [| intros ?]
  | |- oblivious (try_except _ _ _) => apply oblivious_try_except; [| intros ?]
  | |- oblivious (for_each _ _) => apply oblivious_for_each; intros ?
  | |- oblivious (mret _) => apply oblivious_ret
  | |- oblivious (write_text _ _ _) => unfold write_text
  | |- oblivious (match ?x with _ => _ end) => destruct x
  | |- oblivious _ => oblivious_prim
  end.

Ltac oblivious_stages :=
  repeat (apply Forall_cons; split;
          [cbn [snd]; unfold_stages; cbv zeta; solve [repeat oblivious_step] |]);
  apply Forall_nil_2.

(** The trace set aside, a run is its stages one after the other. *)
Lemma chain_plain (l : list (Stage * M unit)) (final : M unit) :
  Forall (fun sm => oblivious sm.2) l -> oblivious final ->
  forall st,
    (chain l final st).1 = (plain l final (restage [] st)).1 /\
    restage [] (chain l final st).2 = (plain l final (restage [] st)).2.
Proof.
  intros Hl Hf. unfold plain. induction Hl as [|[s m] l Hm Hl IH]; intros st.
  - simpl chain. rewrite bind_run. simpl for_each. cbn. rewrite Hf. done.
  - change (chain ((s, m) :: l) final st) with
      (match m (add_stage s st) with
       | (Ok _, st') => chain l final st'
       | (Raised e, st') => (Raised e, st')
       end).
    rewrite bind_run, for_each_cons, bind_run. cbn [snd] in Hm |- *.
    change (add_stage s st) with (restage (stages st ++ [s]) st).
    rewrite !Hm. destruct (m st) as [[[]|e] st1]; simpl; [|done].
    specialize (IH (restage (stages st ++ [s]) st1)).
    rewrite bind_run in IH. exact IH.
Qed.

Lemma bind_ext {A B : Type} (m m' : M A) (k k' : A -> M B) (st : State) :
  m st = m' st -> (forall a st', k a st' = k' a st') -> (m ≫= k) st = (m' ≫= k') st.
Proof. intros Hm Hk. rewrite !bind_run, Hm. destruct (m' st) as [[a|e] st1]; [apply Hk | done]. Qed.

Lemma for_each_ext {A : Type} (l : list A) (body body' : A -> M unit) :
  (forall a st, body a st = body' a st) -> forall st, for_each l body st = for_each l body' st.
Proof.
  intros Hb. induction l as [|a l IH]; intros st; [reflexivity |].
  rewrite !for_each_cons. apply bind_ext; [apply Hb | intros _; apply IH].
Qed.

Section Variants.
Variable w : World.
Variable self : Forge.
Hypothesis Hzero : forall tr inv, proc_outcome w tr inv = Exited 0.
Hypothesis Hskeleton : forall d, d ∈ skeleton_dirs self -> mkdir_denied w d = false.

Lemma create_directories_same (st : State) :
  FlaskForge.create_directories w self st = FForge.create_directories w self st.
Proof.
  unfold FlaskForge.create_directories, FForge.create_directories, try_except, mbind,
    M_bind, os_makedirs, logger_info.
  unfold skeleton_dirs, package_root in Hskeleton.
  rewrite !Hskeleton by set_solver. simpl. rewrite ?Hskeleton by set_solver. reflexivity.
Qed.

Lemma create_virtualenv_same (st : State) :
  FlaskForge.create_virtualenv w self st = FForge.create_virtualenv w self st.
Proof.
  unfold FlaskForge.create_virtualenv, FForge.create_virtualenv, try_except, mbind,
    M_bind, subprocess_run, logger_info, assign_activate_command.
  rewrite !Hzero. reflexivity.
Qed.

Lemma initialize_database_same (st : State) :
  FlaskForge.initialize_database w self st = FForge.initialize_database w self st.
Proof.
  unfold FlaskForge.initialize_database, FForge.initialize_database, try_except, mbind,
    M_bind, get_activate_command, subprocess_run, logger_info.
  destruct (activate_command st) as [p|] eqn:Hp; [|reflexivity].
  rewrite !Hzero. simpl. rewrite Hp, !Hzero. simpl. rewrite Hp, !Hzero. reflexivity.
Qed.

Lemma run_hook_same (hook : string) (st : State) :
  FlaskForge.run_hook w self hook st = FForge.run_hook w self hook st.
Proof.
  unfold FlaskForge.run_hook, FForge.run_hook, try_except, mbind, M_bind,
    get_activate_command, subprocess_run.
  destruct (activate_command st) as [p|] eqn:Hp; [|reflexivity].
  rewrite !Hzero. reflexivity.
Qed.

Lemma run_post_gen_hooks_same (st : State) :
  FlaskForge.run_post_gen_hooks w self st = FForge.run_post_gen_hooks w self st.
Proof.
  unfold FlaskForge.run_post_gen_hooks, FForge.run_post_gen_hooks.
  destruct (Py.truthy (post_gen_hooks self)); [|reflexivity].
  apply bind_ext; [apply for_each_ext, run_hook_same | done].
Qed.

End Variants.

(** X16.  When every launched command exits with code 0, the four
    skeleton directories can be made and the dependency list is empty, the
    two variants do the same from every state: the same outcome (the same
    exception, if a file stage raises), the same files and directories, the
    same launches, the same log records and the same activation prefix. *)
Theorem variants_agree_when_nothing_fails (w : World) (self : Forge) (st : State) :
  (forall tr inv, proc_outcome w tr inv = Exited 0) ->
  (forall d, d ∈ skeleton_dirs self -> mkdir_denied w d = false) ->
  dependencies self = [] ->
  let r := FlaskForge.run w self st in
  let r' := FForge.run w self st in
  r.1 = r'.1 /\ fs_files r.2 = fs_files r'.2 /\ fs_dirs r.2 = fs_dirs r'.2 /\
  procs r.2 = procs r'.2 /\ log r.2 = log r'.2 /\
  activate_command r.2 = activate_command r'.2.
Proof.
  intros Hz Hsk Hdeps r r'. subst r r'.
  rewrite ff_run_chain, fforge_run_chain.
  match goal with |- (chain ?l ?f st).1 = (chain ?l' ?f st).1 /\ _ =>
    destruct (chain_plain l f ltac:(oblivious_stages) ltac:(oblivious_prim) st) as [H1 H2];
    destruct (chain_plain l' f ltac:(oblivious_stages) ltac:(oblivious_prim) st) as [H1' H2'];
    assert (E : plain l f (restage [] st) = plain l' f (restage [] st))
  end.
  { unfold plain. apply bind_ext; [|done].
    rewrite !for_each_cons. cbn [snd].
    apply bind_ext; [by apply create_directories_same | intros _ st1].
    apply bind_ext; [by apply create_virtualenv_same | intros _ st2].
    rewrite bind_run. unfold FlaskForge.install_dependencies at 1. rewrite Hdeps.
    cbn [mret M_ret].
    repeat (apply bind_ext; [reflexivity | intros _ ?]).
    apply bind_ext; [by apply initialize_database_same | intros _ ?].
    apply bind_ext; [by apply run_post_gen_hooks_same | done]. }
  rewrite E in H1, H2. rewrite <- H1' in H1. rewrite <- H2' in H2.
  split; [exact H1 |].
  split_and!;
    [ exact (f_equal fs_files H2) | exact (f_equal fs_dirs H2) | exact (f_equal procs H2)
    | exact (f_equal log H2) | exact (f_equal activate_command H2) ].
Qed.


Lemma variants_agree_when_nothing_fails_witness :
  let w := Scenario.world Scenario.all_zero Scenario.nothing_denied Scenario.one_template in
  let self := Scenario.forge (Scenario.command_line "shop" "catalog" "" "echo a" None) in
  (FlaskForge.run w self Scenario.template_state).1 =
    (FForge.run w self Scenario.template_state).1 /\
  fs_files (FlaskForge.run w self Scenario.template_state).2 =
    fs_files (FForge.run w self Scenario.template_state).2 /\
  log (FlaskForge.run w self Scenario.template_state).2 =
    log (FForge.run w self Scenario.template_state).2.
Proof.
  intros w self.
  destruct (variants_agree_when_nothing_fails w self Scenario.template_state)
    as (H1 & H2 & _ & _ & H5 & _);
    [intros tr inv; reflexivity | intros d _; reflexivity | reflexivity |].
  split_and!; [exact H1 | exact H2 | exact H5].
Defined.

(** ** What [fforge.py] does not report *)

Lemma errors_of_info (l : list (Level * string)) :
  Forall (fun r => r.1 = INFO) l -> errors l = 0 /\ emitted WARNING l = [] /\
  emitted ERROR l = [] /\ emitted CRITICAL l = [].
Proof.
  unfold emitted. induction 1 as [|[lv msg] l Hr Hl (IH1 & IH2 & IH3 & IH4)]; [done |].
  simpl in Hr. subst lv. rewrite !filter_cons, IH2, IH3, IH4. simpl.
  repeat (case_decide; try lia). done.
Qed.

(** X17.  [fforge.py] never logs an ERROR record: every record a run adds
    is at level INFO, whatever the launched commands return and however the
    run ends.  With verbosity 0, 1 or 2 it therefore shows nothing at all. *)
Theorem fforge_run_logs_no_error (w : World) (self : Forge) (st : State) :
  exists new,
    log (FForge.run w self st).2 = (log st ++ new)%list /\
    Forall (fun r => r.1 = INFO) new /\
    errors (log (FForge.run w self st).2) = errors (log st) /\
    forall v, (0 <= v <= 2)%Z -> emitted (setup_logging v) new = [].
Proof.
  set (P := fun r : Level * string => r.1 = INFO).
  assert (Hi : forall msg, Py.startswith "Flask project " msg = false -> P (INFO, msg))
    by done.
  rewrite fforge_run_chain.
  destruct (appends_chain P _ _ (fforge_stages_append P w self Hi)
              (appends_logger_info P
                 ("Flask project " +:+ project_name self +:+ " created successfully")
                 eq_refl) st) as (new & El & Hn).
  exists new. destruct (errors_of_info new Hn) as (He & H2 & H1 & H0).
  split_and!; [exact El | exact Hn | rewrite El, errors_app; lia |].
  intros v Hv.
  assert (Hcases : v = 0%Z \/ v = 1%Z \/ v = 2%Z) by lia.
  destruct Hcases as [-> | [-> | ->]]; assumption.
Qed.

(** ** Template directories without files *)

(** X18.  [create_base_files] makes directories only for the files it
    copies.  When the walk of the template directory lists no file (the
    directory is missing or empty, or holds only empty directories), the
    stage writes nothing, makes no directory, and still logs that the base
    files were created. *)
Theorem template_directories_without_files_are_skipped (w : World) (self : Forge)
    (st : State) :
  (forall entry, entry ∈ os_walk w (template_path w self) -> entry.2 = []) ->
  create_base_files w self st =
    (Ok tt, add_log (INFO, "Base files created from template") st).
Proof.
  intros Hempty. unfold create_base_files. rewrite bind_run.
  assert (Hloop : forall l, (forall entry, entry ∈ l -> entry.2 = []) ->
            for_each l (fun entry : string * list string =>
              for_each entry.2 (fun file => render_file w self entry.1 file)) st
            = (Ok tt, st)).
  { induction l as [|entry l IH]; intros Hl; [reflexivity |].
    rewrite for_each_cons, bind_run, (Hl entry) by apply list_elem_of_here.
    simpl for_each at 1. cbn [mret M_ret].
    apply IH. intros e He. by apply Hl, list_elem_of_further. }
  rewrite Hloop by exact Hempty. reflexivity.
Qed.

Lemma template_directories_without_files_are_skipped_witness :
  let w := Scenario.world Scenario.all_zero Scenario.nothing_denied
             [ ("/opt/ff/templates/rest_api", []);
               ("/opt/ff/templates/rest_api/static", []) ] in
  let self := Scenario.forge (Scenario.command_line "shop" "" "" "" None) in
  fs_dirs (create_base_files w self Scenario.empty_state).2 = ∅ /\
  log (create_base_files w self Scenario.empty_state).2 =
    [(INFO, "Base files created from template")].
Proof.
  intros w self.
  rewrite (template_directories_without_files_are_skipped w self Scenario.empty_state).
  - split; reflexivity.
  - intros entry He. vm_compute in He.
    apply elem_of_cons in He as [->|He]; [reflexivity |].
    apply elem_of_cons in He as [->|He]; [reflexivity |].
    by apply not_elem_of_nil in He.
Defined.

(** ** Where the project goes *)

Lemma init_fields (w : World) (c : Config) (self : Forge) :
  __init__ w c = Ok self ->
  project_name self = cfg_project_name c /\
  project_path self = PosixPath.join (getcwd w) (cfg_project_name c) /\
  venv_dir self = PosixPath.join (project_path self) ".fforge".
Proof. intros Hinit. rewrite init_ok in Hinit. injection Hinit as <-. done. Qed.

(** Joining a component to a directory that does not end in a separator. *)
Lemma join_component (a b : string) :
  Py.truthy a = true -> PosixPath.endswith_sep a = false ->
  Py.truthy b = true -> no_sep b ->
  PosixPath.join a b = a +:+ "/" +:+ b /\
  Py.truthy (PosixPath.join a b) = true /\
  PosixPath.endswith_sep (PosixPath.join a b) = false.
Proof.
  intros Ha He Hb Hn.
  assert (Hrel : PosixPath.isabs b = false).
  { destruct b as [|ch r]; [done |]. apply no_sep_cons in Hn as [Hc _].
    by apply Ascii.eqb_neq. }
  rewrite join_relative by exact Hrel. rewrite Ha, He. cbn [negb orb].
  split; [reflexivity |]. split.
  - destruct a; [done | by rewrite append_cons].
  - rewrite <- append_assoc. by apply endswith_sep_component.
Qed.

Lemma append_grows (a b : string) : Py.truthy b = true -> a <> a +:+ b.
Proof.
  intros Hb. induction a as [|ch a IH].
  - rewrite append_empty_l. intros <-. discriminate.
  - rewrite append_cons. intros [= E]. by apply IH.
Qed.

Lemma append_cancel (a b b' : string) : a +:+ b = a +:+ b' -> b = b'.
Proof.
  induction a as [|ch a IH]; intros E; [by rewrite !append_empty_l in E |].
  rewrite !append_cons in E. injection E as E. by apply IH.
Qed.

(** X19.  The constructor joins the working directory and the project
    name, and [create_directories] joins the result and the name again.  For
    an absolute name the working directory is ignored and the package
    directory is the project directory itself; for a name without separator
    under a working directory that does not end in a separator the project
    is [cwd/name], the package [cwd/name/name] and the environment
    [cwd/name/.fforge], and the four skeleton directories are distinct. *)
Theorem project_layout (w : World) (c : Config) (self : Forge) :
  __init__ w c = Ok self ->
  let name := cfg_project_name c in
  (PosixPath.isabs name = true ->
     project_path self = name /\ package_root self = name) /\
  (Py.truthy name = true -> no_sep name ->
   Py.truthy (getcwd w) = true -> PosixPath.endswith_sep (getcwd w) = false ->
     project_path self = getcwd w +:+ "/" +:+ name /\
     package_root self = getcwd w +:+ "/" +:+ name +:+ "/" +:+ name /\
     venv_dir self = getcwd w +:+ "/" +:+ name +:+ "/.fforge" /\
     NoDup (skeleton_dirs self)).
Proof.
  intros Hinit name.
  destruct (init_fields w c self Hinit) as (Hname & Hpath & Hvenv).
  fold name in Hname, Hpath. split.
  - intros Habs. unfold package_root. rewrite Hname, Hpath.
    unfold PosixPath.join. by rewrite Habs.
  - intros Ht Hns Hcwd Hsep.
    destruct (join_component (getcwd w) name Hcwd Hsep Ht Hns) as (E1 & T1 & S1).
    rewrite <- Hpath in E1, T1, S1.
    destruct (join_component (project_path self) name T1 S1 Ht Hns) as (E2 & T2 & S2).
    destruct (join_component (project_path self) ".fforge" T1 S1 eq_refl eq_refl)
      as (E3 & _ & _).
    destruct (join_component (PosixPath.join (project_path self) name) "templates"
                T2 S2 eq_refl eq_refl) as (E4 & _ & _).
    destruct (join_component (PosixPath.join (project_path self) name) "static"
                T2 S2 eq_refl eq_refl) as (E5 & _ & _).
    unfold skeleton_dirs, package_root. rewrite Hname, Hvenv, E4, E5, E3, E2.
    split; [exact E1 |]. split; [by rewrite E1, !append_assoc |].
    split; [by rewrite E1, !append_assoc |].
    repeat (apply NoDup_cons; split;
            [rewrite ?elem_of_cons, elem_of_nil; intros H;
             repeat (destruct H as [H|H]); try done;
             rewrite ?append_assoc in H; repeat (apply append_cancel in H);
             first [by apply append_grows in H | discriminate H] |]).
    apply NoDup_nil_2.
Qed.

Lemma project_layout_witness :
  let w := Scenario.world Scenario.all_zero Scenario.nothing_denied [] in
  let self := Scenario.forge (Scenario.command_line "/srv/app" "" "" "" None) in
  project_path self = "/srv/app" /\ package_root self = "/srv/app" /\
  skeleton_dirs self = ["/srv/app"; "/srv/app"; "/srv/app/templates"; "/srv/app/static"].
Proof.
  intros w self.
  destruct (project_layout w (config_of (Scenario.command_line "/srv/app" "" "" "" None)) self)
    as [Habs _]; [reflexivity |].
  destruct (Habs eq_refl) as [H1 H2].
  split_and!; [exact H1 | exact H2 | reflexivity].
Defined.

(** ** What the rendering stage writes *)

Section Rendering.
Variable w : World.
Variable self : Forge.

Local Abbreviation src := (fun it : string * string => src_path it.1 it.2).
Local Abbreviation dest := (fun it : string * string => dest_path w self it.1 it.2).

Lemma bind_ok_inv {A B : Type} (m : M A) (k : A -> M B) (st : State) (b : B) :
  ((m ≫= k) st).1 = Ok b ->
  exists a st1, m st = (Ok a, st1) /\ (m ≫= k) st = k a st1.
Proof.
  rewrite bind_run. destruct (m st) as [[a|e] st1]; [|discriminate].
  intros _. by exists a, st1.
Qed.

Lemma render_file_ok (root file : string) (st : State) :
  src_path root file <> dest_path w self root file ->
  (render_file w self root file st).1 = Ok tt ->
  exists content out,
    fs_files st !! src_path root file = Some content /\
    jinja_render w content (project_name self) = Some out /\
    fs_files (render_file w self root file st).2 =
      <[dest_path w self root file := out]> (fs_files st).
Proof.
  intros Hne Hok. unfold render_file in *.
  destruct (bind_ok_inv _ _ _ _ Hok) as (a1 & st1 & E1 & E). rewrite E in Hok |- *. clear E.
  destruct (bind_ok_inv _ _ _ _ Hok) as (a2 & st2 & E2 & E). rewrite E in Hok |- *. clear E.
  destruct (bind_ok_inv _ _ _ _ Hok) as (a3 & st3 & E3 & E). rewrite E in Hok |- *. clear E.
  destruct (bind_ok_inv _ _ _ _ Hok) as (content & st4 & E4 & E). rewrite E in Hok |- *. clear E.
  destruct (bind_ok_inv _ _ _ _ Hok) as (out & st5 & E5 & E). rewrite E in Hok |- *. clear E Hok.
  unfold os_makedirs in E1. destruct (mkdir_denied w _); [discriminate |].
  injection E1 as _ <-.
  unfold open_r in E2. destruct (read_denied w _); [discriminate |].
  cbn [fs_files set_dirs] in E2.
  destruct (fs_files st !! src_path root file) as [c0|] eqn:Es; [|discriminate].
  injection E2 as _ <-.
  unfold open_w in E3. destruct (write_denied w _); [discriminate |].
  injection E3 as _ <-.
  unfold file_read in E4. injection E4 as <- <-.
  unfold render_template in E5.
  destruct (jinja_render w _ (project_name self)) as [o|] eqn:Er; [|discriminate].
  injection E5 as <- <-.
  cbn [fs_files set_files set_dirs] in Er.
  rewrite (lookup_insert_ne _ _ _ _ (not_eq_sym Hne)), Es in Er. cbn [default] in Er.
  exists c0, o. split; [reflexivity |]. split; [exact Er |].
  unfold file_write. cbn [snd fs_files set_files set_dirs].
  rewrite lookup_insert_eq. cbn [default]. by rewrite append_empty_l, insert_insert_eq.
Qed.

Lemma render_loop_ok (items : list (string * string)) (st : State) :
  (forall it, it ∈ items -> src it ∉ map dest items) ->
  NoDup (map dest items) ->
  let r := for_each items (fun it => render_file w self it.1 it.2) st in
  r.1 = Ok tt ->
  (forall p, p ∉ map dest items -> fs_files r.2 !! p = fs_files st !! p) /\
  forall it, it ∈ items ->
    exists content out,
      fs_files st !! src it = Some content /\
      jinja_render w content (project_name self) = Some out /\
      fs_files r.2 !! dest it = Some out.
Proof.
  revert st. induction items as [|it items IH]; intros st Hsrc Hnd r Hok; subst r.
  - split; [done |]. intros it Hit. by apply not_elem_of_nil in Hit.
  - rewrite for_each_cons, bind_run in Hok |- *.
    cbn [map] in Hsrc, Hnd. apply NoDup_cons in Hnd as [Hfresh Hnd].
    assert (Hne : src it <> dest it).
    { intros E. apply (Hsrc it (list_elem_of_here _ _)). rewrite E. apply list_elem_of_here. }
    pose proof (render_file_ok it.1 it.2 st Hne) as Hfile.
    destruct (render_file w self it.1 it.2 st) as [[[]|e] st1]; [|discriminate].
    destruct (Hfile eq_refl) as (content & out & Es & Er & Ef). cbn [snd] in Ef.
    destruct (IH st1) as [Hframe Hitems]; [| exact Hnd | exact Hok |].
    { intros it' Hit' Hin. apply (Hsrc it' (list_elem_of_further _ _ _ Hit')).
      by apply list_elem_of_further. }
    split.
    + intros p Hp. rewrite Hframe by (intros Hin; apply Hp; by apply list_elem_of_further).
      rewrite Ef. apply lookup_insert_ne. intros <-. apply Hp, list_elem_of_here.
    + intros it' Hit'. apply elem_of_cons in Hit' as [-> | Hit'].
      * exists content, out. split; [exact Es |]. split; [exact Er |].
        rewrite Hframe by exact Hfresh. rewrite Ef. apply lookup_insert_eq.
      * destruct (Hitems it' Hit') as (content' & out' & Es' & Er' & Ef').
        exists content', out'. split; [|by split].
        rewrite <- Es', Ef. symmetry. apply lookup_insert_ne. intros E.
        apply (Hsrc it' (list_elem_of_further _ _ _ Hit')). rewrite <- E.
        apply list_elem_of_here.
Qed.

End Rendering.

(** X20.  When [create_base_files] returns, no two template files share a
    destination and no template file is itself a destination, every
    destination holds the rendering of its source file as it was before the
    stage, with [project_name] bound to the project name, and every other
    file is as before. *)
Theorem rendered_files_hold_rendered_sources (w : World) (self : Forge) (st : State) :
  (create_base_files w self st).1 = Ok tt ->
  NoDup (template_dests w self) ->
  (forall p, p ∈ template_sources w self -> p ∉ template_dests w self) ->
  let st' := (create_base_files w self st).2 in
  (forall root file, (root, file) ∈ template_items w self ->
     exists content out,
       fs_files st !! src_path root file = Some content /\
       jinja_render w content (project_name self) = Some out /\
       fs_files st' !! dest_path w self root file = Some out) /\
  (forall p, p ∉ template_dests w self -> fs_files st' !! p = fs_files st !! p).
Proof.
  unfold create_base_files. rewrite !bind_run.
  assert (Hn : for_each (os_walk w (template_path w self))
                 (fun entry => for_each entry.2 (fun file => render_file w self entry.1 file)) st
               = for_each (template_items w self)
                   (fun it => render_file w self it.1 it.2) st)
    by exact (for_each_nested _ (render_file w self) st).
  rewrite Hn. clear Hn. intros Hok Hnd Hsrc.
  pose proof (render_loop_ok w self (template_items w self) st) as Hloop.
  destruct (for_each (template_items w self) _ st) as [[[]|e] st1]; [|discriminate].
  destruct Hloop as [Hframe Hitems]; [| exact Hnd | reflexivity |].
  { intros it Hit. apply Hsrc. unfold template_sources.
    by apply (list_elem_of_fmap_2 (fun it => src_path it.1 it.2)). }
  cbn [snd logger_info add_log fs_files] in *. split.
  - intros root file Hit. exact (Hitems (root, file) Hit).
  - exact Hframe.
Qed.

Lemma rendered_files_hold_rendered_sources_witness :
  let w := Scenario.world Scenario.all_zero Scenario.nothing_denied Scenario.one_template in
  let self := Scenario.forge (Scenario.command_line "shop" "" "" "" None) in
  template_items w self = [("/opt/ff/templates/rest_api", "app.py")] /\
  dest_path w self "/opt/ff/templates/rest_api" "app.py" = "/w/shop/app.py" /\
  exists content out,
    fs_files Scenario.template_state !! "/opt/ff/templates/rest_api/app.py" = Some content /\
    jinja_render w content "shop" = Some out /\
    fs_files (create_base_files w self Scenario.template_state).2 !! "/w/shop/app.py"
      = Some out.
Proof.
  intros w self.
  assert (Hs : template_sources w self = ["/opt/ff/templates/rest_api/app.py"])
    by (vm_compute; reflexivity).
  assert (Hd : template_dests w self = ["/w/shop/app.py"]) by (vm_compute; reflexivity).
  assert (Hi : template_items w self = [("/opt/ff/templates/rest_api", "app.py")])
    by (vm_compute; reflexivity).
  assert (Hp : dest_path w self "/opt/ff/templates/rest_api" "app.py" = "/w/shop/app.py")
    by (vm_compute; reflexivity).
  split; [exact Hi |]. split; [exact Hp |].
  destruct (rendered_files_hold_rendered_sources w self Scenario.template_state)
    as [Hitems _].
  - vm_compute. reflexivity.
  - rewrite Hd. apply NoDup_singleton.
  - intros p Hp' Hq. rewrite Hs in Hp'. rewrite Hd in Hq.
    apply list_elem_of_singleton in Hp'. apply list_elem_of_singleton in Hq.
    subst p. discriminate.
  - destruct (Hitems "/opt/ff/templates/rest_api" "app.py") as (content & out & H1 & H2 & H3).
    + rewrite Hi. apply list_elem_of_here.
    + exists content, out. rewrite Hp in H3. split_and!; [exact H1 | exact H2 | exact H3].
Defined.

(** ** The files of a run that returns *)

Section RunFiles.
Variable w : World.
Variable self : Forge.

Local Abbreviation src := (fun it : string * string => src_path it.1 it.2).
Local Abbreviation dest := (fun it : string * string => dest_path w self it.1 it.2).
Local Abbreviation pair_of := (fun (F : gmap string string) (it : string * string) =>
  (dest_path w self it.1 it.2,
   default "" (jinja_render w (default "" (F !! src_path it.1 it.2)) (project_name self)))).

Lemma render_loop_writes (F0 : gmap string string) (all items : list (string * string))
    (st : State) :
  (forall it, it ∈ items -> it ∈ all) ->
  (forall it, it ∈ all -> src it ∉ map dest all) ->
  (forall it, it ∈ items -> fs_files st !! src it = F0 !! src it) ->
  (for_each items (fun it => render_file w self it.1 it.2) st).1 = Ok tt ->
  fs_files (for_each items (fun it => render_file w self it.1 it.2) st).2 =
    writes (map (pair_of F0) items) (fs_files st).
Proof.
  revert st. induction items as [|it items IH]; intros st Hsub Hsrc HF Hok.
  - reflexivity.
  - rewrite for_each_cons, bind_run in Hok |- *.
    assert (Hall : it ∈ all) by apply Hsub, list_elem_of_here.
    assert (Hne : src it <> dest it).
    { intros E. apply (Hsrc it Hall). rewrite E.
      by apply (list_elem_of_fmap_2 (fun it => dest_path w self it.1 it.2)). }
    pose proof (render_file_ok w self it.1 it.2 st Hne) as Hfile.
    destruct (render_file w self it.1 it.2 st) as [[[]|e] st1]; [|discriminate].
    destruct (Hfile eq_refl) as (content & out & Es & Er & Ef). cbn [snd] in Ef.
    rewrite IH; [| | exact Hsrc | | exact Hok].
    + pose proof (HF it (list_elem_of_here _ _)) as HFit. cbv beta in HFit.
      rewrite Es in HFit.
      cbn [map]. rewrite writes_cons, Ef. cbn [fst snd]. rewrite <- HFit.
      change (default "" (Some content)) with content. rewrite Er. reflexivity.
    + intros it' Hit'. by apply Hsub, list_elem_of_further.
    + intros it' Hit'. rewrite Ef, <- (HF it' (list_elem_of_further _ _ _ Hit')).
      apply lookup_insert_ne. intros E.
      apply (Hsrc it' (Hsub it' (list_elem_of_further _ _ _ Hit'))). rewrite <- E.
      by apply (list_elem_of_fmap_2 (fun it => dest_path w self it.1 it.2)).
Qed.

Lemma create_base_files_writes (st : State) :
  (forall p, p ∈ template_sources w self -> p ∉ template_dests w self) ->
  (create_base_files w self st).1 = Ok tt ->
  fs_files (create_base_files w self st).2 =
    writes (rendered w self (fs_files st)) (fs_files st).
Proof.
  intros Hsrc. unfold create_base_files. rewrite !bind_run.
  assert (Hn : for_each (os_walk w (template_path w self))
                 (fun entry => for_each entry.2 (fun file => render_file w self entry.1 file)) st
               = for_each (template_items w self)
                   (fun it => render_file w self it.1 it.2) st)
    by exact (for_each_nested _ (render_file w self) st).
  rewrite Hn. clear Hn. intros Hok.
  pose proof (render_loop_writes (fs_files st) (template_items w self)
                (template_items w self) st) as Hloop.
  destruct (for_each (template_items w self) _ st) as [[[]|e] st1]; [|discriminate].
  cbn [snd logger_info add_log fs_files] in *. apply Hloop; try done.
  intros it Hit. apply Hsrc. unfold template_sources.
  by apply (list_elem_of_fmap_2 (fun it => src_path it.1 it.2)).
Qed.

Lemma write_text_writes (p s : string) (st : State) (a : unit) (st1 : State) :
  write_text w p s st = (Ok a, st1) ->
  fs_files st1 = writes [(p, s)] (fs_files st) /\ fs_dirs st1 = fs_dirs st.
Proof.
  intros E. pose proof (write_text_ok w p s st) as H. rewrite E in H.
  destruct a. specialize (H eq_refl). cbn [snd] in H. rewrite H. done.
Qed.

Lemma os_makedirs_files (p : string) (st : State) (a : unit) (st1 : State) :
  os_makedirs w p st = (Ok a, st1) -> fs_files st1 = fs_files st.
Proof.
  unfold os_makedirs. destruct (mkdir_denied w p); [discriminate |]. by intros [= _ <-].
Qed.

Lemma create_blueprint_writes (bp : string) (st : State) :
  Py.truthy bp = true ->
  (create_blueprint w self bp st).1 = Ok tt ->
  fs_files (create_blueprint w self bp st).2 = writes (bp_texts self bp) (fs_files st).
Proof.
  intros Ht Hok. unfold create_blueprint in *. rewrite Ht in *.
  unfold create_blueprint_files in *.
  destruct (bind_ok_inv _ _ _ _ Hok) as (a1 & st1 & E1 & E). rewrite E in Hok |- *. clear E.
  destruct (bind_ok_inv _ _ _ _ Hok) as (a2 & st2 & E2 & E). rewrite E in Hok |- *. clear E.
  destruct (bind_ok_inv _ _ _ _ Hok) as (a3 & st3 & E3 & E). rewrite E in Hok |- *. clear E.
  destruct (bind_ok_inv _ _ _ _ Hok) as (a4 & st4 & E4 & E). rewrite E in Hok |- *. clear E.
  destruct (bind_ok_inv _ _ _ _ Hok) as (a5 & st5 & E5 & E). rewrite E in Hok |- *. clear E.
  destruct (bind_ok_inv _ _ _ _ Hok) as (a6 & st6 & E6 & E). rewrite E in Hok |- *. clear E.
  destruct (write_text w _ _ st6) as [[a7|e] st7] eqn:E7; [|discriminate].
  apply os_makedirs_files in E1, E2, E3.
  apply write_text_writes in E4 as [E4 _], E5 as [E5 _], E6 as [E6 _], E7 as [E7 _].
  cbn [snd]. rewrite E7, E6, E5, E4, E3, E2, E1. reflexivity.
Qed.

Lemma create_blueprints_loop_writes (bps : list string) (st : State) :
  (for_each bps (fun bp => create_blueprint w self (Py.strip bp)) st).1 = Ok tt ->
  fs_files (for_each bps (fun bp => create_blueprint w self (Py.strip bp)) st).2 =
    writes (flat_map (bp_texts self)
              (filter (fun b => Py.truthy b = true) (map Py.strip bps)))
      (fs_files st).
Proof.
  revert st. induction bps as [|bp bps IH]; intros st Hok; [reflexivity |].
  rewrite for_each_cons, bind_run in Hok |- *.
  pose proof (create_blueprint_writes (Py.strip bp) st) as Hbp.
  cbn [map]. rewrite filter_cons.
  destruct (create_blueprint w self (Py.strip bp) st) as [[[]|e] st1] eqn:E;
    [|discriminate].
  rewrite (IH st1 Hok). cbn [snd] in Hbp.
  destruct (decide (Py.truthy (Py.strip bp) = true)) as [Ht|Hf].
  - cbn [flat_map]. rewrite writes_app, (Hbp Ht eq_refl). reflexivity.
  - unfold create_blueprint in E. destruct (Py.truthy (Py.strip bp)); [done |].
    by injection E as <-.
Qed.

Lemma create_blueprints_writes (st : State) :
  (create_blueprints w self st).1 = Ok tt ->
  fs_files (create_blueprints w self st).2 =
    writes (flat_map (bp_texts self) (blueprint_names self)) (fs_files st).
Proof.
  unfold create_blueprints, blueprint_names. rewrite !bind_run. intros Hok.
  pose proof (create_blueprints_loop_writes (blueprints self) st) as Hloop.
  destruct (for_each (blueprints self) _ st) as [[[]|e] st1]; [|discriminate].
  cbn [snd logger_info add_log fs_files] in *. by apply Hloop.
Qed.

Lemma fixed_stages_write (st : State) :
  ((create_init_py w self st).1 = Ok tt ->
   fs_files (create_init_py w self st).2 =
     writes (take 1 (fixed_files self)) (fs_files st)) /\
  ((create_models_py w self st).1 = Ok tt ->
   fs_files (create_models_py w self st).2 =
     writes (take 1 (drop 1 (fixed_files self))) (fs_files st)) /\
  ((create_docker_files w self st).1 = Ok tt ->
   fs_files (create_docker_files w self st).2 =
     writes (take 2 (drop 2 (fixed_files self))) (fs_files st)) /\
  ((create_ci_cd_files w self st).1 = Ok tt ->
   fs_files (create_ci_cd_files w self st).2 =
     writes (drop 4 (fixed_files self)) (fs_files st)).
Proof.
  unfold fixed_files, package_root. cbn [take drop]. split_and!; intros Hok.
  - unfold create_init_py in *.
    destruct (bind_ok_inv _ _ _ _ Hok) as (a1 & st1 & E1 & E). rewrite E. clear E.
    apply write_text_writes in E1 as [E1 _]. exact E1.
  - unfold create_models_py in *.
    destruct (bind_ok_inv _ _ _ _ Hok) as (a1 & st1 & E1 & E). rewrite E. clear E.
    apply write_text_writes in E1 as [E1 _]. exact E1.
  - unfold create_docker_files in *.
    destruct (bind_ok_inv _ _ _ _ Hok) as (a1 & st1 & E1 & E). rewrite E in Hok |- *. clear E.
    destruct (bind_ok_inv _ _ _ _ Hok) as (a2 & st2 & E2 & E). rewrite E. clear E.
    apply write_text_writes in E1 as [E1 _], E2 as [E2 _].
    cbn [snd logger_info add_log fs_files]. rewrite E2, E1. reflexivity.
  - unfold create_ci_cd_files in *. cbv zeta in *.
    destruct (bind_ok_inv _ _ _ _ Hok) as (a1 & st1 & E1 & E). rewrite E in Hok |- *. clear E.
    destruct (bind_ok_inv _ _ _ _ Hok) as (a2 & st2 & E2 & E). rewrite E. clear E.
    apply os_makedirs_files in E1. apply write_text_writes in E2 as [E2 _].
    cbn [snd logger_info add_log fs_files]. rewrite E2, E1. reflexivity.
Qed.

(** The file stages of a run that returns, one after the other. *)
Lemma file_stages_write (l2 : list (Stage * M unit)) (final : M unit) (st : State) :
  (forall p, p ∈ template_sources w self -> p ∉ template_dests w self) ->
  Forall (fun sm => keeps fs_files sm.2) l2 -> keeps fs_files final ->
  let l := [ (renderTemplateSet, create_base_files w self);
             (generateBlueprints, create_blueprints w self);
             (writeInitFile, create_init_py w self);
             (writeModelsFile, create_models_py w self);
             (writeDockerFiles, create_docker_files w self);
             (writeCiFiles, create_ci_cd_files w self) ] in
  (chain (l ++ l2) final st).1 = Ok tt ->
  fs_files (chain (l ++ l2) final st).2 =
    writes (run_writes w self (fs_files st)) (fs_files st).
Proof.
  intros Hsrc Hl2 Hf l Hok. subst l. cbn [app] in Hok |- *.
  destruct (chain_ok_cons _ _ _ _ _ Hok) as [H1 E]. rewrite E in Hok |- *. clear E.
  apply (create_base_files_writes _ Hsrc) in H1.
  destruct (chain_ok_cons _ _ _ _ _ Hok) as [H2 E]. rewrite E in Hok |- *. clear E.
  apply create_blueprints_writes in H2.
  destruct (chain_ok_cons _ _ _ _ _ Hok) as [H3 E]. rewrite E in Hok |- *. clear E.
  apply (proj1 (fixed_stages_write _)) in H3.
  destruct (chain_ok_cons _ _ _ _ _ Hok) as [H4 E]. rewrite E in Hok |- *. clear E.
  apply (proj1 (proj2 (fixed_stages_write _))) in H4.
  destruct (chain_ok_cons _ _ _ _ _ Hok) as [H5 E]. rewrite E in Hok |- *. clear E.
  apply (proj1 (proj2 (proj2 (fixed_stages_write _)))) in H5.
  destruct (chain_ok_cons _ _ _ _ _ Hok) as [H6 E]. rewrite E in Hok |- *. clear E.
  apply (proj2 (proj2 (proj2 (fixed_stages_write _)))) in H6.
  rewrite (keeps_chain fs_files l2 final (fun _ _ => eq_refl) Hl2 Hf).
  change (fs_files (add_stage ?s ?x)) with (fs_files x) in *.
  rewrite H6, H5, H4, H3, H2, H1. unfold run_writes.
  rewrite !writes_app.
  rewrite <- (writes_app (take 2 (drop 2 (fixed_files self)))).
  rewrite <- (writes_app (take 1 (drop 1 (fixed_files self)))).
  rewrite <- (writes_app (take 1 (fixed_files self))).
  reflexivity.
Qed.

Lemma ff_run_files (st : State) :
  (forall p, p ∈ template_sources w self -> p ∉ template_dests w self) ->
  (FlaskForge.run w self st).1 = Ok tt ->
  fs_files (FlaskForge.run w self st).2 =
    writes (run_writes w self (fs_files st)) (fs_files st).
Proof.
  intros Hsrc. rewrite ff_run_chain. intros Hok.
  destruct (chain_skip_keeps fs_files
              [ (createDirectories, FlaskForge.create_directories w self);
                (createEnvironment, FlaskForge.create_virtualenv w self);
                (installDependencies, FlaskForge.install_dependencies w self) ] _ _
              (fun _ _ => eq_refl) ltac:(keeps_stages) st Hok) as (st1 & Hp1 & E1).
  cbn [app] in E1. rewrite E1 in Hok |- *. clear E1. rewrite <- Hp1.
  apply (file_stages_write
           [ (initializeDatabase, FlaskForge.initialize_database w self);
             (runPostGenHooks, FlaskForge.run_post_gen_hooks w self) ]);
    [exact Hsrc | keeps_stages | keeps_prim | exact Hok].
Qed.

Lemma fforge_run_files (st : State) :
  (forall p, p ∈ template_sources w self -> p ∉ template_dests w self) ->
  (FForge.run w self st).1 = Ok tt ->
  fs_files (FForge.run w self st).2 =
    writes (run_writes w self (fs_files st)) (fs_files st).
Proof.
  intros Hsrc. rewrite fforge_run_chain. intros Hok.
  destruct (chain_skip_keeps fs_files
              [ (createDirectories, FForge.create_directories w self);
                (createEnvironment, FForge.create_virtualenv w self) ] _ _
              (fun _ _ => eq_refl) ltac:(keeps_stages) st Hok) as (st1 & Hp1 & E1).
  cbn [app] in E1. rewrite E1 in Hok |- *. clear E1. rewrite <- Hp1.
  apply (file_stages_write
           [ (initializeDatabase, FForge.initialize_database w self);
             (runPostGenHooks, FForge.run_post_gen_hooks w self) ]);
    [exact Hsrc | keeps_stages | keeps_prim | exact Hok].
Qed.

Lemma run_writes_planned (F : gmap string string) (kv : string * string) :
  kv ∈ run_writes w self F -> kv.1 ∈ planned_files w self.
Proof.
  unfold run_writes, planned_files. rewrite !elem_of_app. intros [H | [H | H]].
  - left. unfold rendered in H. apply list_elem_of_fmap in H as (it & -> & Hit).
    cbn [fst]. unfold template_dests.
    by apply (list_elem_of_fmap_2 (fun it => dest_path w self it.1 it.2)).
  - right. left. apply elem_of_flat_map in H as (bp & Hbp & H).
    apply elem_of_flat_map. exists bp. split; [exact Hbp |].
    unfold bp_texts in H. unfold bp_files.
    repeat (apply elem_of_cons in H as [-> | H]; [set_solver |]).
    by apply not_elem_of_nil in H.
  - right. right. by apply list_elem_of_fmap_2.
Qed.

Lemma rendered_ext (F F' : gmap string string) :
  (forall p, p ∈ template_sources w self -> F' !! p = F !! p) ->
  rendered w self F' = rendered w self F.
Proof.
  intros H. unfold rendered. apply map_ext_in. intros it Hit.
  rewrite H; [reflexivity |]. unfold template_sources.
  apply (list_elem_of_fmap_2 (fun it => src_path it.1 it.2)). by apply list_elem_of_In.
Qed.

Lemma run_files_twice (F : gmap string string) :
  (forall p, p ∈ template_sources w self -> p ∉ planned_files w self) ->
  let F1 := writes (run_writes w self F) F in
  writes (run_writes w self F1) F1 = F1.
Proof.
  intros Hsrc F1.
  assert (E : run_writes w self F1 = run_writes w self F).
  { unfold run_writes. f_equal. apply rendered_ext. intros p Hp. subst F1.
    apply writes_lookup_other. intros kv Hkv Heq.
    apply (Hsrc p Hp). rewrite <- Heq. by apply (run_writes_planned F). }
  rewrite E. apply writes_idempotent.
Qed.

End RunFiles.





